(** * OmniCart seller pipeline: enrichment and aggregation

    A shallow embedding of the two enrichment / analysis variants of the
    repository

      - [src/pipeline/data_enricher.py], [src/pipeline/data_analyzer.py]
      - [src/DataEnricher.py], [src/DataAnalyzer.py]

    together with the part of pandas they rest on (frames built from records,
    left merge, column assignment, grouping, skip-NaN reductions).

    Conventions of the embedding

      - a frame is its ordered column labels and its rows in positional order
        (the default RangeIndex); a row is a finite map from label to cell, a
        label absent from a row reads as the missing value, as pandas does for
        a frame built from records;
      - [Null] stands for every value [pd.isna] reports (None, NaN);
      - int64 and float64 values are both embedded in [Q]: arithmetic is exact,
        rounding to two decimals is round-half-even on the exact value;
      - an exception is a value [Raise e] of the [result] type. *)

From Stdlib Require Import QArith Qround ZArith Strings.String List Sorted Permutation.
From stdpp Require Import base gmap list strings.

Set Warnings "-register-all".
Open Scope Q_scope.

(** ** Cells *)

Inductive cell : Type :=
| Null
| Num (q : Q)
| Str (s : string)
| Dict (d : list (string * cell)).

Definition isna (c : cell) : bool :=
  match c with Null => true | _ => false end.

Definition isinstance_dict (c : cell) : bool :=
  match c with Dict _ => true | _ => false end.

(** Equality of hashable cells, as used for join keys, group keys and
    dictionary keys: numbers by value, strings by content, and the missing
    value equal to itself (pandas matches NaN keys with NaN keys). *)
Definition key_eqb (a b : cell) : bool :=
  match a, b with
  | Null, Null => true
  | Num x, Num y => Qeq_bool x y
  | Str s, Str t => String.eqb s t
  | _, _ => false
  end.

Definition hashable (c : cell) : bool := negb (isinstance_dict c).

(** [d.get(k)] and [k in d] on a dictionary cell. *)
Fixpoint dict_get (d : list (string * cell)) (k : string) : option cell :=
  match d with
  | [] => None
  | (k', v) :: d' => if String.eqb k' k then Some v else dict_get d' k
  end.

(** ** Exceptions *)

Inductive exn : Type :=
| KeyError (k : string)
| TypeError
| ValueError
| MergeError.

Inductive result (A : Type) : Type :=
| Ok (a : A)
| Raise (e : exn).
Arguments Ok {A} a.
Arguments Raise {A} e.

#[global] Instance result_ret : MRet result := fun A a => Ok a.
#[global] Instance result_bind : MBind result := fun A B f m =>
  match m with Ok a => f a | Raise e => Raise e end.

Fixpoint traverse {A B : Type} (f : A -> result B) (l : list A) : result (list B) :=
  match l with
  | [] => Ok []
  | x :: l' => y ← f x; ys ← traverse f l'; Ok (y :: ys)
  end.

(** ** Numbers *)

(** Round half to even, to an integer. *)
Definition round_half_even (x : Q) : Z :=
  let f := Qfloor x in
  let d := x - inject_Z f in
  if Qle_bool (1 # 2) d
  then (if Qeq_bool d (1 # 2) then (if Z.even f then f else (f + 1)%Z) else (f + 1)%Z)
  else f.

(** [round(x, 2)] / [Series.round(2)]. *)
Definition round2 (x : Q) : Q := inject_Z (round_half_even (x * 100)) / 100.

(** [int(x)] / [astype(int)]: truncation toward zero. *)
Definition trunc (x : Q) : Z := Z.quot (Qnum x) (Zpos (Qden x)).

(** *** Column dtypes

    pandas decides per column: a column of numbers, some of them possibly
    missing, has a numeric dtype (int64 / float64, the missing value being
    NaN); a column that holds nothing but missing values, built from [None],
    is an object column, and so is a column of strings. *)
Definition is_num (c : cell) : bool :=
  match c with Num _ => true | _ => false end.

Definition numeric (c : cell) : bool :=
  match c with Num _ | Null => true | _ => false end.

Definition numeric_dtype (l : list cell) : bool :=
  forallb numeric l && existsb is_num l.

Definition text_dtype (l : list cell) : bool :=
  forallb (fun c => match c with Str _ | Null => true | _ => false end) l.

(** The product of two cells of numeric columns: NaN propagates. *)
Definition mul_value (a b : cell) : cell :=
  match a, b with
  | Num x, Num y => Num (x * y)
  | _, _ => Null
  end.

(** [a * b] on two columns of one frame. On numeric columns it is the
    element-wise product. On object columns Python's [*] is applied to the
    objects themselves ([None * 1] is a TypeError, a string is repeated): the
    model stops there with a TypeError. *)
Definition mul_columns (a b : list cell) : result (list cell) :=
  match a with
  | [] => Ok []
  | _ => if numeric_dtype a && numeric_dtype b then Ok (zip_with mul_value a b)
         else Raise TypeError
  end.

(** ** Frames *)

Abbreviation row := (gmap string cell).

Record DataFrame : Type := mkFrame {
  columns : list string;
  rows : list row
}.

(** [pd.DataFrame()] *)
Definition empty_frame : DataFrame := mkFrame [] [].

(** [df.empty]: some axis has length zero. *)
Definition is_empty (df : DataFrame) : bool :=
  match columns df, rows df with
  | [], _ | _, [] => true
  | _, _ => false
  end.

(** [col in df.columns] *)
Definition has_col (df : DataFrame) (c : string) : bool :=
  bool_decide (c ∈ columns df).

(** The cell of a row under a label. *)
Definition get (r : row) (c : string) : cell := default Null (r !! c).

(** [df[c] = ...], computed row by row. *)
Definition set_col (df : DataFrame) (c : string) (f : row -> cell) : DataFrame :=
  mkFrame (if has_col df c then columns df else columns df ++ [c])
          (map (fun r => <[c := f r]> r) (rows df)).

(** [df[c] = v] for a scalar [v]. *)
Definition set_const (df : DataFrame) (c : string) (v : cell) : DataFrame :=
  set_col df c (fun _ => v).

(** [df[c] = values], for a column computed beforehand. *)
Definition assign (df : DataFrame) (c : string) (values : list cell) : DataFrame :=
  mkFrame (if has_col df c then columns df else columns df ++ [c])
          (zip_with (fun r v => <[c := v]> r) (rows df) values).

(** [df[c] = ...] where computing a cell may raise. *)
Definition set_colM (df : DataFrame) (c : string) (f : row -> result cell)
    : result DataFrame :=
  rs ← traverse (fun r => v ← f r; Ok (<[c := v]> r)) (rows df);
  Ok (mkFrame (if has_col df c then columns df else columns df ++ [c]) rs).

(** [df[c]]: the column as a list, KeyError when the label is absent. *)
Definition getitem (df : DataFrame) (c : string) : result (list cell) :=
  if has_col df c then Ok (map (fun r => get r c) (rows df))
  else Raise (KeyError c).

(** [df[cols]]: the sub-frame of the listed columns, KeyError at the first
    label that is absent. *)
Definition restrict (cols : list string) (r : row) : row :=
  list_to_map (map (fun c => (c, get r c)) cols).

Definition select (df : DataFrame) (cols : list string) : result DataFrame :=
  match List.find (fun c => negb (has_col df c)) cols with
  | Some c => Raise (KeyError c)
  | None => Ok (mkFrame cols (map (restrict cols) (rows df)))
  end.

(** *** Left merge

    [pd.merge(left, right, how='left', left_on=.., right_on=.., suffixes=('', sfx))].
    Every left row is kept in order; it is paired with each right row whose
    key equals its own, in the right frame's order, or with missing values when
    there is none. A right label that also is a left label takes the suffix.

    Where pandas' outcome rests on details this frame type does not hold, the
    model stops with an exception:
      - a suffixed label that collides with a left label would give a frame
        with two columns of one name: [MergeError];
      - key columns of different dtypes (a numeric one against an object one)
        are refused by pandas with a ValueError unless one side has no rows;
        the model accepts two numeric key columns or two columns of strings
        and missing values;
      - unhashable keys are a TypeError. *)

Definition same_dtype (l r : list cell) : bool :=
  (numeric_dtype l && numeric_dtype r) || (text_dtype l && text_dtype r).

Definition is_nil {A : Type} (l : list A) : bool :=
  match l with [] => true | _ => false end.

Definition join_keys_ok (l r : list cell) : bool :=
  is_nil l || is_nil r || same_dtype l r.

Definition right_label (left : DataFrame) (sfx c : string) : string :=
  if has_col left c then c +:+ sfx else c.

Definition attach (left : DataFrame) (sfx : string) (rcols : list string)
    (l : row) (r : option row) : row :=
  foldr (fun c acc => <[right_label left sfx c := from_option (fun x => get x c) Null r]> acc)
        l rcols.

Definition matches (right : DataFrame) (right_on : string) (k : cell) : list row :=
  List.filter (fun r => key_eqb k (get r right_on)) (rows right).

(** The output rows one left row gives. *)
Definition joined (left right : DataFrame) (left_on right_on sfx : string) (l : row)
    : list row :=
  match matches right right_on (get l left_on) with
  | [] => [attach left sfx (columns right) l None]
  | ms => map (fun r => attach left sfx (columns right) l (Some r)) ms
  end.

Definition merge_rows (left right : DataFrame) (left_on right_on sfx : string) : list row :=
  flat_map (joined left right left_on right_on sfx) (rows left).

Definition merge_left (left right : DataFrame) (left_on right_on sfx : string)
    : result DataFrame :=
  if negb (has_col left left_on) then Raise (KeyError left_on)
  else if negb (has_col right right_on) then Raise (KeyError right_on)
  else if negb (forallb (fun c => negb (has_col left (right_label left sfx c))) (columns right))
  then Raise MergeError
  else if negb (join_keys_ok (map (fun r => get r left_on) (rows left))
                             (map (fun r => get r right_on) (rows right)))
  then Raise ValueError
  else if negb (forallb (fun r => hashable (get r left_on)) (rows left)
                && forallb (fun r => hashable (get r right_on)) (rows right))
  then Raise TypeError
  else Ok (mkFrame (columns left ++ map (right_label left sfx) (columns right))
                   (merge_rows left right left_on right_on sfx)).

(** * [src/pipeline/data_enricher.py] *)

Module pipeline_data_enricher.

(** [DataEnricher.to_dataframe]: a list of dictionaries to a frame. The
    labels are the keys of the records, in order of first appearance. *)
Definition record_labels (data : list row) : list string :=
  remove_dups (concat (map (fun r => (map_to_list r).*1) data)).

Definition to_dataframe (data : list row) : DataFrame :=
  match data with
  | [] => empty_frame
  | _ => mkFrame (record_labels data) data
  end.

Definition user_cols : list string :=
  ["id"; "username"; "email"; "first_name"; "last_name"]%string.

(** [for col in cols: if col not in df.columns: df[col] = None] *)
Definition ensure_cols (df : DataFrame) (cols : list string) : DataFrame :=
  foldl (fun d col => if has_col d col then d else set_const d col Null) df cols.

(** [lambda x: x.get('count') if isinstance(x, dict) and 'count' in x else 0] *)
Definition rating_count (x : cell) : cell :=
  match x with
  | Dict d => match dict_get d "count" with Some v => v | None => Num 0 end
  | _ => Num 0
  end.

Definition enrich_product_data (products_df users_df : DataFrame) : result DataFrame :=
  let users_df := ensure_cols users_df user_cols in
  users_sel ← select users_df user_cols;
  enriched_df ← merge_left products_df users_sel "userId" "id" "_seller";
  let enriched_df :=
    ensure_cols enriched_df ["username"; "email"; "first_name"; "last_name"]%string in
  let enriched_df :=
    if has_col enriched_df "rating"
    then set_col enriched_df "quantity" (fun r => rating_count (get r "rating"))
    else if has_col enriched_df "quantity" then enriched_df
    else set_const enriched_df "quantity" (Num 0) in
  price ← getitem enriched_df "price";
  quantity ← getitem enriched_df "quantity";
  revenue ← mul_columns price quantity;
  Ok (assign enriched_df "revenue" revenue).

End pipeline_data_enricher.

Module P := pipeline_data_enricher.

(** * [src/DataEnricher.py] *)

(** The argument of the second variant is a frame or a list of dictionaries. *)
Inductive data : Type :=
| Frame (df : DataFrame)
| Records (l : list row).

Definition fillna (v c : cell) : cell := if isna c then v else c.

Module DataEnricher.

Section Host.

(** What the host supplies: the numeric reading of a string
    ([pd.to_numeric]), the text of a value in an f-string, and the
    pseudo-random source behind [np.random.choice] (draw number [i] is
    [rng i], reduced modulo the population size). *)
Variable parse_numeric : string -> option Q.
Variable py_str : cell -> string.
Variable rng : nat -> nat.

(** [pd.to_numeric(.., errors='coerce')], cell by cell. *)
Definition to_numeric (c : cell) : cell :=
  match c with
  | Num q => Num q
  | Str s => match parse_numeric s with Some q => Num q | None => Null end
  | _ => Null
  end.

(** [DataEnricher.to_dataframe] *)
Definition to_dataframe (d : data) : DataFrame :=
  match d with
  | Frame df => df
  | Records [] => empty_frame
  | Records l => mkFrame (P.record_labels l) l
  end.

(** [lambda x: x.get('count', 0) if isinstance(x, dict) else 0] *)
Definition rating_count (x : cell) : cell :=
  match x with
  | Dict d => default (Num 0) (dict_get d "count")
  | _ => Num 0
  end.

(** The row lambda that builds [seller_name]. *)
Definition seller_name_of (r : row) : result cell :=
  match get r "name" with
  | Dict d =>
      match dict_get d "firstname" with
      | None => Raise (KeyError "firstname")
      | Some f =>
          match dict_get d "lastname" with
          | None => Raise (KeyError "lastname")
          | Some l => Ok (Str (py_str f +:+ " " +:+ py_str l))
          end
      end
  | _ => Ok (Str "Unknown")
  end.

(** [np.random.choice(population, size=n)] *)
Definition random_choice (population : list cell) (i : nat) : cell :=
  nth (rng i mod length population) population Null.

(** [.fillna(0).astype(int)] after [to_numeric]. *)
Definition to_int (c : cell) : cell :=
  match fillna (Num 0) (to_numeric c) with
  | Num q => Num (inject_Z (trunc q))
  | other => other
  end.

Definition round_cell (c : cell) : cell :=
  match c with Num q => Num (round2 q) | other => other end.

Definition enrich_product_data (products users : data) : result DataFrame :=
  let products_df := to_dataframe products in
  let users_df := to_dataframe users in
  if is_empty products_df then Ok empty_frame else
  let products_df :=
    if has_col products_df "price" then products_df
    else set_const products_df "price" (Num 0) in
  let products_df :=
    set_col products_df "price" (fun r => fillna (Num 0) (to_numeric (get r "price"))) in
  let products_df :=
    if has_col products_df "rating"
    then set_col products_df "quantity" (fun r => rating_count (get r "rating"))
    else set_const products_df "quantity" (Num 0) in
  enriched_df ←
    (if negb (is_empty users_df) then
       users_df ← set_colM users_df "seller_name" seller_name_of;
       ids ← getitem users_df "id";
       let products_df :=
         mkFrame (if has_col products_df "seller_id" then columns products_df
                  else columns products_df ++ ["seller_id"%string])
                 (imap (fun i r => <["seller_id"%string := random_choice ids i]> r)
                       (rows products_df)) in
       users_sel ← select users_df ["id"; "seller_name"; "email"]%string;
       merge_left products_df users_sel "seller_id" "id" "_seller"
     else
       Ok (set_const (set_const products_df "seller_name" (Str "Unknown Seller"))
                     "email" Null));
  let enriched_df := set_col enriched_df "quantity" (fun r => to_int (get r "quantity")) in
  price ← getitem enriched_df "price";
  quantity ← getitem enriched_df "quantity";
  revenue ← mul_columns price quantity;
  Ok (assign enriched_df "revenue" (map round_cell revenue)).

End Host.

End DataEnricher.

Module D := DataEnricher.


(** ** Reductions and grouping *)

Definition Qlt_bool (x y : Q) : bool := negb (Qle_bool y x).

(** [Series.sum()]: missing values are skipped, the empty sum is 0. *)
Fixpoint sum_cells (l : list cell) : result Q :=
  match l with
  | [] => Ok 0
  | Null :: l' => sum_cells l'
  | Num v :: l' => s ← sum_cells l'; Ok (v + s)
  | _ :: _ => Raise TypeError
  end.

(** [Series.count()]: the number of values that are not missing. *)
Fixpoint count_cells (l : list cell) : nat :=
  match l with
  | [] => 0
  | Null :: l' => count_cells l'
  | _ :: l' => S (count_cells l')
  end.

(** [Series.mean()]: the sum of the values that are not missing over their
    number; NaN ([None]) when there is none. *)
Definition mean_cells (l : list cell) : result (option Q) :=
  s ← sum_cells l;
  match count_cells l with
  | O => Ok None
  | S n => Ok (Some (s / inject_Z (Z.of_nat (S n))))
  end.

(** [Series.unique()]: the distinct values in order of first appearance. *)
Fixpoint unique (l : list cell) : list cell :=
  match l with
  | [] => []
  | x :: l' => x :: List.filter (fun y => negb (key_eqb x y)) (unique l')
  end.

(** [Series.idxmax()]: the position of the first occurrence of the maximum
    among the values that are not missing; a ValueError when all are. *)
Fixpoint idxmax_from (i : nat) (best : option (nat * Q)) (l : list cell)
    : result (option (nat * Q)) :=
  match l with
  | [] => Ok best
  | Null :: l' => idxmax_from (S i) best l'
  | Num v :: l' =>
      idxmax_from (S i)
        (match best with
         | Some (j, b) => if Qlt_bool b v then Some (i, v) else Some (j, b)
         | None => Some (i, v)
         end) l'
  | _ :: _ => Raise TypeError
  end.

Definition idxmax (l : list cell) : result nat :=
  best ← idxmax_from 0 None l;
  match best with
  | Some (i, _) => Ok i
  | None => Raise ValueError
  end.

(** The order in which group keys are sorted: numbers by value, then strings
    by code point, the missing value last. *)
Definition key_leb (a b : cell) : bool :=
  match a, b with
  | Num x, Num y => Qle_bool x y
  | Num _, _ => true
  | Str _, Num _ => false
  | Str s, Str t => String.leb s t
  | Str _, _ => true
  | Null, Null => true
  | Null, _ => false
  | Dict _, _ => true
  end.

Fixpoint insert_key (k : cell) (l : list cell) : list cell :=
  match l with
  | [] => [k]
  | k' :: l' => if key_leb k k' then k :: k' :: l' else k' :: insert_key k l'
  end.

Definition sort_keys (l : list cell) : list cell := foldr insert_key [] l.

(** [df.groupby(by, dropna=..)]: one group per distinct key, in sorted key
    order, each holding its rows in their original order. *)
Definition group_rows (df : DataFrame) (by_ : string) (k : cell) : list row :=
  List.filter (fun r => key_eqb k (get r by_)) (rows df).

Definition groupby (df : DataFrame) (by_ : string) (dropna : bool)
    : result (list (cell * list row)) :=
  keys ← getitem df by_;
  if forallb hashable keys then
    let ks := sort_keys (unique keys) in
    let ks := if dropna then List.filter (fun k => negb (isna k)) ks else ks in
    Ok (map (fun k => (k, group_rows df by_ k)) ks)
  else Raise TypeError.

(** A Python dictionary with hashable cells as keys, in insertion order. *)
Fixpoint dict_lookup {V : Type} (d : list (cell * V)) (k : cell) : option V :=
  match d with
  | [] => None
  | (k', v) :: d' => if key_eqb k' k then Some v else dict_lookup d' k
  end.

Fixpoint dict_set {V : Type} (d : list (cell * V)) (k : cell) (v : V) : list (cell * V) :=
  match d with
  | [] => [(k, v)]
  | (k', v') :: d' => if key_eqb k' k then (k', v) :: d' else (k', v') :: dict_set d' k v
  end.

(** A [for] loop whose body may raise. *)
Fixpoint foldM {A S : Type} (body : S -> A -> result S) (s : S) (l : list A) : result S :=
  match l with
  | [] => Ok s
  | x :: l' => s' ← body s x; foldM body s' l'
  end.

(** * [src/pipeline/data_analyzer.py] *)

Module pipeline_data_analyzer.

Record SellerMetrics : Type := mkMetrics {
  total_revenue : Q;
  product_count : nat;
  avg_price : option Q;
  categories : list cell;
  top_product : cell;
  avg_rating : option Q;
  total_quantity_sold : Z
}.

Definition required_cols : list string :=
  ["username"; "price"; "revenue"; "category"; "title"; "rating"; "quantity"]%string.

(** The value a missing column is filled with. *)
Definition default_value (col : string) : cell :=
  if bool_decide (col ∈ ["price"; "revenue"; "rating"]%string) then Num 0
  else if bool_decide (col ∈ ["quantity"]%string) then Num 0
  else Str "Unknown".

Definition missing_cols (df : DataFrame) : list string :=
  List.filter (fun c => negb (has_col df c)) required_cols.

(** The loop [for col in missing_cols: df[col] = ...], on the caller's frame. *)
Definition add_missing (df : DataFrame) : DataFrame :=
  foldl (fun d col => set_const d col (default_value col)) df (missing_cols df).

(** The key under which a group is reported. *)
Definition seller_key (username : cell) : cell :=
  if isna username then Str "Unknown Seller" else username.

Definition column_of (g : list row) (c : string) : list cell :=
  map (fun r => get r c) g.

(** The body of the loop over the groups. *)
Definition seller_metrics (seller_data : list row) : result SellerMetrics :=
  total_revenue ← sum_cells (column_of seller_data "revenue");
  let product_count := length seller_data in
  avg_price ← mean_cells (column_of seller_data "price");
  cats ← (if forallb hashable (column_of seller_data "category")
          then Ok (unique (column_of seller_data "category"))
          else Raise TypeError);
  top_product_idx ← idxmax (column_of seller_data "revenue");
  let top_product := nth top_product_idx (column_of seller_data "title") Null in
  avg_rating ← mean_cells (column_of seller_data "rating");
  total_quantity_sold ← sum_cells (column_of seller_data "quantity");
  Ok (mkMetrics (round2 total_revenue) product_count (round2 <$> avg_price)
                cats top_product (round2 <$> avg_rating) (trunc total_quantity_sold)).

(** [analyze_seller_performance]: the caller's frame after the call, and
    what the call returns. *)
Definition analyze_seller_performance (df : DataFrame)
    : DataFrame * result (list (cell * SellerMetrics)) :=
  if is_empty df then (df, Ok [])
  else
    let df := add_missing df in
    (df,
     seller_groups ← groupby df "username" false;
     foldM (fun performance_data '(username, seller_data) =>
              m ← seller_metrics seller_data;
              Ok (dict_set performance_data (seller_key username) m))
           [] seller_groups).

Record OverallSummary : Type := mkSummary {
  overall_total_revenue : Q;
  total_products : nat;
  active_sellers : nat;
  top_categories : list (cell * Q)
}.

Section Sorting.

(** [Series.sort_values(ascending=False)] with the default sort kind,
    which is not stable: which of two equal sums comes first is the
    sorting routine's choice. The routine is a parameter. *)
Variable sort_values_desc : list (cell * Q) -> list (cell * Q).

(** [df.groupby('category')['revenue'].sum()] *)
Definition category_revenue (df : DataFrame) : result (list (cell * Q)) :=
  groups ← groupby df "category" true;
  _ ← getitem df "revenue";
  traverse (fun '(k, g) => s ← sum_cells (column_of g "revenue"); Ok (k, s)) groups.

(** [get_overall_summary]; [None] is the empty dictionary. *)
Definition get_overall_summary (df : DataFrame) : result (option OverallSummary) :=
  if is_empty df then Ok None
  else
    revenue ← getitem df "revenue";
    total_revenue ← sum_cells revenue;
    let total_products := length (rows df) in
    usernames ← getitem df "username";
    active_sellers ← (if forallb hashable usernames
                      then Ok (length (List.filter (fun k => negb (isna k)) (unique usernames)))
                      else Raise TypeError);
    sums ← category_revenue df;
    let top_categories := take 3 (sort_values_desc sums) in
    Ok (Some (mkSummary (round2 total_revenue) total_products active_sellers
                        (map (fun '(k, v) => (k, round2 v)) top_categories))).

End Sorting.

End pipeline_data_analyzer.

Module PA := pipeline_data_analyzer.


(** * [src/DataAnalyzer.py] *)

Module DataAnalyzer.

Record Metrics : Type := mkMetrics {
  total_revenue : Q;
  products_sold : Z;
  avg_price : option Q
}.

Section Host.

Variable parse_numeric : string -> option Q.

Abbreviation to_numeric := (D.to_numeric parse_numeric).
Abbreviation to_int := (D.to_int parse_numeric).

(** Python's [sorted] on the group labels: strings among themselves or
    numbers among themselves; a mix cannot be ordered. *)
Definition py_sorted (l : list cell) : result (list cell) :=
  if forallb (fun c => match c with Str _ => true | _ => false end) l
     || forallb (fun c => match c with Num _ => true | _ => false end) l
  then Ok (sort_keys l)
  else Raise TypeError.

(** [work.groupby('seller_name')[c].sum()] and [.mean()] *)
Definition group_sum (work : DataFrame) (c : string) : result (list (cell * Q)) :=
  groups ← groupby work "seller_name" true;
  _ ← getitem work c;
  traverse (fun '(k, g) => s ← sum_cells (map (fun r => get r c) g); Ok (k, s)) groups.

Definition group_mean (work : DataFrame) (c : string)
    : result (list (cell * option Q)) :=
  groups ← groupby work "seller_name" true;
  _ ← getitem work c;
  traverse (fun '(k, g) => s ← mean_cells (map (fun r => get r c) g); Ok (k, s)) groups.

(** [work.groupby('seller_name').size()] *)
Definition group_size (work : DataFrame) : result (list (cell * Q)) :=
  groups ← groupby work "seller_name" true;
  Ok (map (fun '(k, g) => (k, inject_Z (Z.of_nat (length g)))) groups).

(** [analyze_seller_performance]: the caller's frame after the call, and
    what the call returns. Every assignment goes to [work], the copy. *)
Definition analyze_seller_performance (df : DataFrame)
    : DataFrame * result (list (cell * Metrics)) :=
  if is_empty df then (df, Ok [])
  else
    let work := df in
    let work :=
      if has_col work "seller_name" then work else set_const work "seller_name" Null in
    let work :=
      set_col work "seller_name"
              (fun r => fillna (Str "Unknown Seller") (get r "seller_name")) in
    let work := if has_col work "revenue" then work else set_const work "revenue" (Num 0) in
    let work :=
      set_col work "revenue" (fun r => fillna (Num 0) (to_numeric (get r "revenue"))) in
    let work := if has_col work "price" then work else set_const work "price" (Num 0) in
    let work :=
      set_col work "price" (fun r => fillna (Num 0) (to_numeric (get r "price"))) in
    (df,
     '(work, sold_series) ←
       (if has_col work "quantity" then
          let work := set_col work "quantity" (fun r => to_int (get r "quantity")) in
          sold ← group_sum work "quantity"; Ok (work, sold)
        else sold ← group_size work; Ok (work, sold));
     revenue_series ← group_sum work "revenue";
     avg_price_series ← group_mean work "price";
     users ← py_sorted (map fst revenue_series);
     Ok (foldl (fun result u =>
                  let total_revenue := default 0 (dict_lookup revenue_series u) in
                  let products_sold := trunc (default 0 (dict_lookup sold_series u)) in
                  let avg_price := default (Some 0) (dict_lookup avg_price_series u) in
                  dict_set result u
                    (mkMetrics (round2 total_revenue) products_sold (round2 <$> avg_price)))
               [] users)).

End Host.

End DataAnalyzer.

Module DA := DataAnalyzer.


(** ** The shapes the two variants are written for *)

(** Pairwise distinct keys. *)
Fixpoint distinct_keys (l : list cell) : bool :=
  match l with
  | [] => true
  | x :: l' => forallb (fun y => negb (key_eqb x y)) l' && distinct_keys l'
  end.


(** *** [pipeline/data_enricher.py] *)

(** The users frame as the merge sees it: the five seller columns, the absent
    ones filled with the missing value. *)
Definition P_users_sel (users : DataFrame) : DataFrame :=
  mkFrame P.user_cols (map (restrict P.user_cols) (rows (P.ensure_cols users P.user_cols))).

Definition P_user_ids (users : DataFrame) : list cell :=
  map (fun r => get r "id") (rows (P.ensure_cols users P.user_cols)).

(** The quantity the price of a product row is multiplied with. *)
Definition P_quantity (df : DataFrame) (r : row) : cell :=
  if has_col df "rating" then P.rating_count (get r "rating")
  else if has_col df "quantity" then get r "quantity" else Num 0.

(** A product frame as the enricher is written for: the join key and the price
    are columns, no label is the suffixed form of a seller label, the join
    key is hashable and, when there are rows, price and quantity are numeric
    columns. *)
Definition product_frame (df : DataFrame) : bool :=
  has_col df "userId" && has_col df "price"
  && forallb (fun c => negb (has_col df (right_label df "_seller" c))) P.user_cols
  && forallb (fun r => hashable (get r "userId")) (rows df)
  && (is_nil (rows df)
      || (numeric_dtype (map (fun r => get r "price") (rows df))
          && numeric_dtype (map (P_quantity df) (rows df)))).

(** The join keys of the two frames can be compared: see [merge_left]. *)
Definition P_keys_ok (products users : DataFrame) : bool :=
  join_keys_ok (map (fun r => get r "userId") (rows products)) (P_user_ids users)
  && forallb hashable (P_user_ids users).

(** The two column assignments after the merge, on one row. *)
Definition P_quantity_row (products : DataFrame) (m : row) : row :=
  if has_col products "rating" then <["quantity"%string := P.rating_count (get m "rating")]> m
  else if has_col products "quantity" then m
  else <["quantity"%string := Num 0]> m.

Definition P_revenue_row (m : row) : row :=
  <["revenue"%string := mul_value (get m "price") (get m "quantity")]> m.

(** *** [DataEnricher.py] *)

(** The stages of [DataEnricher.enrich_product_data], named: the product
    frame with its price coerced, then with its quantity column, the left
    frame of the merge, the join (or the sentinel assignment when there are no
    users) and the closing quantity / revenue assignments. *)
Definition D_priced (parse : string -> option Q) (pf : DataFrame) : DataFrame :=
  set_col (if has_col pf "price" then pf else set_const pf "price" (Num 0)) "price"
          (fun r => fillna (Num 0) (D.to_numeric parse (get r "price"))).

Definition D_staged (parse : string -> option Q) (pf : DataFrame) : DataFrame :=
  if has_col (D_priced parse pf) "rating"
  then set_col (D_priced parse pf) "quantity" (fun r => D.rating_count (get r "rating"))
  else set_const (D_priced parse pf) "quantity" (Num 0).

Definition D_left (rng : nat -> nat) (staged : DataFrame) (ids : list cell) : DataFrame :=
  mkFrame (if has_col staged "seller_id" then columns staged
           else columns staged ++ ["seller_id"%string])
          (imap (fun i r => <["seller_id"%string := D.random_choice rng ids i]> r)
                (rows staged)).

Definition D_join (parse : string -> option Q) (py_str : cell -> string) (rng : nat -> nat)
    (pf uf : DataFrame) : result DataFrame :=
  if negb (is_empty uf) then
    users_df ← set_colM uf "seller_name" (D.seller_name_of py_str);
    ids ← getitem users_df "id";
    users_sel ← select users_df ["id"; "seller_name"; "email"]%string;
    merge_left (D_left rng (D_staged parse pf) ids) users_sel "seller_id" "id" "_seller"
  else
    Ok (set_const (set_const (D_staged parse pf) "seller_name" (Str "Unknown Seller"))
                  "email" Null).

Definition D_finish (parse : string -> option Q) (enriched_df : DataFrame)
    : result DataFrame :=
  let enriched_df :=
    set_col enriched_df "quantity" (fun r => D.to_int parse (get r "quantity")) in
  price ← getitem enriched_df "price";
  quantity ← getitem enriched_df "quantity";
  revenue ← mul_columns price quantity;
  Ok (assign enriched_df "revenue" (map D.round_cell revenue)).

(** The users frame that variant is written for: [id] and [email] are columns,
    the ids are all numbers or all strings, a [name] that is a dictionary has
    both name parts. *)
Definition homogeneous (l : list cell) : bool :=
  forallb is_num l || forallb (fun c => match c with Str _ => true | _ => false end) l.

Definition name_ok (c : cell) : bool :=
  match c with
  | Dict d => match dict_get d "firstname", dict_get d "lastname" with
              | Some _, Some _ => true
              | _, _ => false
              end
  | _ => true
  end.

Definition seller_frame (uf : DataFrame) : bool :=
  has_col uf "id" && has_col uf "email"
  && homogeneous (map (fun r => get r "id") (rows uf))
  && forallb (fun r => name_ok (get r "name")) (rows uf).

(** No product label is the suffixed form of a merged seller label. *)
Definition D_product_frame (pf : DataFrame) : bool :=
  forallb (fun c => negb (has_col pf (c +:+ "_seller")))
          ["id"; "seller_name"; "email"]%string.

Definition D_user_ids (uf : DataFrame) : list cell := map (fun r => get r "id") (rows uf).

(** The seller name one user row is given (the missing value stands in where
    the row lambda raises). *)
Definition seller_name_value (py_str : cell -> string) (r : row) : cell :=
  match D.seller_name_of py_str r with Ok v => v | Raise _ => Null end.


(** *** Sample inputs *)

Definition ex_parse : string -> option Q := fun _ => None.

Definition ex_str (c : cell) : string :=
  match c with Str s => s | _ => "" end.

(** One product sold by user 1, priced 0.125, rated once. *)
Definition ex_product : row :=
  list_to_map [("id", Num 1); ("title", Str "Mug"); ("price", Num (1 # 8));
               ("category", Str "kitchen"); ("userId", Num 1);
               ("rating", Dict [("rate", Num 4); ("count", Num 1)])]%string.

Definition ex_alice : row :=
  list_to_map [("id", Num 1); ("username", Str "alice"); ("email", Str "alice@example.com");
               ("name", Dict [("firstname", Str "Alice"); ("lastname", Str "A")])]%string.

Definition ex_bob : row :=
  list_to_map [("id", Num 2); ("username", Str "bob"); ("email", Str "bob@example.com");
               ("name", Dict [("firstname", Str "Bob"); ("lastname", Str "B")])]%string.

Definition ex_products : DataFrame := P.to_dataframe [ex_product].
Definition ex_users : DataFrame := P.to_dataframe [ex_alice; ex_bob].

(** The same user listed twice. *)
Definition ex_users_twice : DataFrame := P.to_dataframe [ex_alice; ex_alice].

(** *** [pipeline/data_analyzer.py] *)

(** What [idxmax_from] has found after a prefix of the column. *)
Definition best_of (pre : list cell) (best : option (nat * Q)) : Prop :=
  match best with
  | None => forall j v, pre !! j = Some (Num v) -> False
  | Some (i, b) =>
      pre !! i = Some (Num b)
      /\ forall j v, pre !! j = Some (Num v) -> v <= b /\ ((j < i)%nat -> v < b)
  end.


(** The rows reported under one key of the returned mapping, in input order. *)
Definition seller_rows (df : DataFrame) (u : cell) : list row :=
  List.filter (fun r => key_eqb (PA.seller_key (get r "username")) u) (rows df).

(** No seller is literally named "Unknown Seller" while other rows have no
    username: the one case in which two groups share a key of the mapping. *)
Definition collision_free (df : DataFrame) : bool :=
  negb (existsb (fun r => isna (get r "username")) (rows df)
        && existsb (fun r => key_eqb (Str "Unknown Seller") (get r "username")) (rows df)).



(** The numbers of a column, and their sum. *)
Definition numbers (l : list cell) : list Q :=
  flat_map (fun c => match c with Num v => [v] | _ => [] end) l.

Definition Qsum (l : list Q) : Q := fold_right Qplus 0 l.


(** The body of the loop over the seller groups. *)
Definition PA_body (performance_data : list (cell * PA.SellerMetrics))
    (group : cell * list row) : result (list (cell * PA.SellerMetrics)) :=
  let '(username, seller_data) := group in
  m ← PA.seller_metrics seller_data;
  Ok (dict_set performance_data (PA.seller_key username) m).

(** An enriched frame: bob sells two products of equal revenue, one of them
    without a rating; one product has no seller. *)
Definition ex_mug : row :=
  list_to_map [("username", Str "bob"); ("title", Str "Mug"); ("category", Str "kitchen");
               ("price", Num 10); ("quantity", Num 10); ("revenue", Num 100);
               ("rating", Num 4)]%string.

Definition ex_lamp : row :=
  list_to_map [("username", Str "bob"); ("title", Str "Lamp"); ("category", Str "home");
               ("price", Num 20); ("quantity", Num 5); ("revenue", Num 100);
               ("rating", Null)]%string.

Definition ex_pen : row :=
  list_to_map [("username", Null); ("title", Str "Pen"); ("category", Str "office");
               ("price", Num 5); ("quantity", Num 1); ("revenue", Num 5);
               ("rating", Num 3)]%string.

Definition ex_enriched : DataFrame := P.to_dataframe [ex_mug; ex_lamp; ex_pen].

(** The same rows without the username column, and without the category
    column. *)
Definition ex_no_username : DataFrame :=
  P.to_dataframe (map (delete "username"%string) [ex_mug; ex_lamp; ex_pen]).

Definition ex_no_category : DataFrame :=
  P.to_dataframe (map (delete "category"%string) [ex_mug; ex_lamp; ex_pen]).

(** *** The overall summary *)



(** Two sorting routines that meet the requirement. Both insert each entry
    into the sorted rest; the first puts it before the entries of equal sum
    (equal sums keep their input order), the second after them (equal sums
    come out in reverse input order). *)
Fixpoint insert_desc (ties_first : bool) (x : cell * Q) (l : list (cell * Q))
    : list (cell * Q) :=
  match l with
  | [] => [x]
  | y :: l' =>
      if (if ties_first then Qle_bool (snd y) (snd x) else Qlt_bool (snd y) (snd x))
      then x :: y :: l'
      else y :: insert_desc ties_first x l'
  end.

Definition insertion_sort_desc (ties_first : bool) (l : list (cell * Q)) : list (cell * Q) :=
  foldr (insert_desc ties_first) [] l.




(** * The client and the orchestrators

    The rest of the embedding covers what surrounds the two enrichment /
    analysis variants:

      - [src/pipeline/api_client.py]: the page loop and the normalisation of
        the fetched records;
      - [src/pipeline/pipeline.py] and [src/Pipeline.py]: the orchestration.

    Conventions

      - the network is a parameter: the server is the function from the page
        requested to the response, a response being a failure (any
        exception of the request) or the decoded list of records;
      - the page loop has no bound of its own: it is run on fuel, one unit
        per request, and [None] says that the loop is still running when
        the fuel is spent;
      - the AttributeError of the normalisation is the [None] of an
        [option];
      - writing the report is left out: the orchestrators are followed up
        to the value they hand to [json.dump]. *)

(** * [src/pipeline/api_client.py] *)

Module pipeline_api_client.

(** What one request gives: an exception somewhere between [requests.get],
    [raise_for_status] and [json], or the decoded list. *)
Inductive response : Type :=
| Failed
| Json (body : list row).

(** Python's truth value of a cell of a decoded JSON record, where the
    missing value is [None]. *)
Definition truthy (c : cell) : bool :=
  match c with
  | Null => false
  | Num q => negb (Qeq_bool q 0)
  | Str s => negb (String.eqb s "")
  | Dict d => negb (is_nil d)
  end.

(** [x or {}] *)
Definition or_empty_dict (c : cell) : cell := if truthy c then c else Dict [].

Section Server.

(** The server, as the page loop sees it: the response to the request for
    page [n]. *)
Variable fetch : nat -> response.

(** The loop of [get_all_products], from page [page] on, with the products
    collected so far. [None]: the loop is still running when the fuel is
    spent. *)
Fixpoint get_all_products_from (fuel page : nat) (all_products : list row)
    : option (list row) :=
  match fuel with
  | O => None
  | S fuel' =>
      match fetch page with
      | Failed => Some all_products
      | Json products =>
          if is_nil products then Some all_products
          else get_all_products_from fuel' (S page) (all_products ++ products)
      end
  end.

Definition get_all_products (fuel : nat) : option (list row) :=
  get_all_products_from fuel 1 [].

End Server.

(** [get_all_users]: one request, the empty list on any exception. *)
Definition get_all_users (users : response) : list row :=
  match users with
  | Failed => []
  | Json body => body
  end.

(** One turn of the loop of [normalize_products]; [None] is the
    AttributeError of [rating.get] on a rating that is not a dictionary. *)
Definition normalize_product (item : row) : option row :=
  match or_empty_dict (get item "rating") with
  | Dict rating =>
      Some (list_to_map
              [("id", get item "id"); ("price", get item "price");
               ("category", get item "category"); ("userId", get item "userId");
               ("quantity", default (Num 0) (dict_get rating "count"));
               ("rating", default Null (dict_get rating "rate"))]%string)
  | _ => None
  end.

Definition normalize_products (products : list row) : option (list row) :=
  mapM normalize_product products.

Definition normalize_user (item : row) : option row :=
  match or_empty_dict (get item "name") with
  | Dict name =>
      Some (list_to_map
              [("email", get item "email"); ("username", get item "username");
               ("first_name", default Null (dict_get name "firstname"));
               ("last_name", default Null (dict_get name "lastname"));
               ("id", get item "id")]%string)
  | _ => None
  end.

Definition normalize_users (users : list row) : option (list row) :=
  mapM normalize_user users.

(** [get_dataframes], given what the two fetches returned. *)
Definition get_dataframes (products_raw users_raw : list row)
    : option (DataFrame * DataFrame) :=
  products ← normalize_products products_raw;
  users ← normalize_users users_raw;
  Some (P.to_dataframe products, P.to_dataframe users).

End pipeline_api_client.

Module AC := pipeline_api_client.

(** * [src/pipeline/pipeline.py] *)

Module pipeline_pipeline.

Section Sorting.

Variable sort_values_desc : list (cell * Q) -> list (cell * Q).

(** [Pipeline.process_data], on the two lists of [raw_data]. [None] is the
    empty dictionary. The frame handed to [get_overall_summary] is the one
    [analyze_seller_performance] was given, as that call left it. *)
Definition process_data (products users : list row)
    : result (option (list (cell * PA.SellerMetrics) * option PA.OverallSummary)) :=
  if is_nil products then Ok None
  else
    let products_df := P.to_dataframe products in
    let users_df := P.to_dataframe users in
    enriched_df ← P.enrich_product_data products_df users_df;
    if is_empty enriched_df then Ok None
    else
      let analysed := PA.analyze_seller_performance enriched_df in
      let enriched_df := fst analysed in
      seller_performance ← snd analysed;
      overall_summary ← PA.get_overall_summary sort_values_desc enriched_df;
      Ok (Some (seller_performance, overall_summary)).

End Sorting.

End pipeline_pipeline.

Module PP := pipeline_pipeline.

(** * [src/Pipeline.py] *)

Module Pipeline.

Section Host.

Variable parse_numeric : string -> option Q.
Variable py_str : cell -> string.
Variable rng : nat -> nat.


End Host.

End Pipeline.

(** ** The page loop: what it collects *)

(** The products of a page (none when the request failed), and those of
    pages [1 .. n], in order. *)
Definition page_products (r : AC.response) : list row :=
  match r with
  | AC.Failed => []
  | AC.Json products => products
  end.

Definition collected (fetch : nat -> AC.response) (n : nat) : list row :=
  flat_map (fun p => page_products (fetch p)) (seq 1 n).

(** Page [p] came back with at least one product. *)
Definition page_full (fetch : nat -> AC.response) (p : nat) : Prop :=
  exists products, fetch p = AC.Json products /\ products <> [].

(** Page [S n] is the first that fails or comes back empty. *)
Definition first_stop (fetch : nat -> AC.response) (n : nat) : Prop :=
  (forall p, (1 <= p <= n)%nat -> page_full fetch p)
  /\ (fetch (S n) = AC.Failed \/ fetch (S n) = AC.Json []).

(** A server with two pages of one product each, and a server that ignores
    the page number. *)
Definition ex_two_pages (p : nat) : AC.response :=
  match p with
  | 1%nat => AC.Json [ex_product]
  | 2%nat => AC.Json [ex_product]
  | _ => AC.Json []
  end.

Definition ex_same_page (p : nat) : AC.response := AC.Json [ex_product].

(** ** The normalised records *)

(** The keys of a normalised product; those of a normalised user are
    [P.user_cols]. *)
Definition product_keys : list string :=
  ["id"; "price"; "category"; "userId"; "quantity"; "rating"]%string.

(** [x or {}] has a [get]: [x] is falsy or a dictionary. *)
Definition has_get (c : cell) : bool := negb (AC.truthy c) || isinstance_dict c.

(** The dictionary [x or {}] stands for, when it has a [get]. *)
Definition dict_of (c : cell) : list (string * cell) :=
  match c with Dict d => d | _ => [] end.


(** ** Stages of the second analyzer *)


(** ** The second enricher: price and quantity of a row *)



(** ** Further sample values *)

(** What the pipeline enricher returns on the sample product and the two
    sample users, and the one row of that frame. *)
Definition ex_joined : DataFrame :=
  match P.enrich_product_data ex_products ex_users with
  | Ok out => out
  | Raise _ => empty_frame
  end.

Definition ex_joined_row : row := nth 0 (rows ex_joined) ∅.

(** The sample product and the first sample user, normalised. *)
Definition ex_normal_products : list row :=
  default [] (AC.normalize_products [ex_product]).

Definition ex_normal_users : list row :=
  default [] (AC.normalize_users [ex_alice]).

(** The two frames [get_dataframes] builds from them, and what the pipeline
    enricher returns on these. *)
Definition ex_frames : DataFrame * DataFrame :=
  default (empty_frame, empty_frame) (AC.get_dataframes [ex_product] [ex_alice]).


(** Raw records as [process_data] takes them: a product with a seller and a
    quantity but without a category, a title or a rating, the frame the
    enricher makes of it and the analysis of that frame. *)
Definition ex_plain_product : row :=
  list_to_map [("id", Num 7); ("price", Num 3); ("userId", Num 1);
               ("quantity", Num 2)]%string.



(** The sample product as a raw record with a seller: its rating is a
    dictionary. *)
Definition ex_rated_enriched : DataFrame :=
  match P.enrich_product_data (P.to_dataframe [ex_product]) (P.to_dataframe [ex_alice]) with
  | Ok out => out
  | Raise _ => empty_frame
  end.

(** What the second enricher returns on the sample product and the two
    sample users, the second user always drawn; users without an id column,
    and without an email column. *)
Definition ex_second_joined : DataFrame :=
  match D.enrich_product_data ex_parse ex_str (fun _ => 1%nat)
          (Records [ex_product]) (Records [ex_alice; ex_bob]) with
  | Ok out => out
  | Raise _ => empty_frame
  end.



(** The sample frame with bob's two revenues missing. *)
Definition ex_bob_unpriced : DataFrame :=
  P.to_dataframe [<["revenue"%string := Null]> ex_mug; <["revenue"%string := Null]> ex_lamp;
                  ex_pen].

(** The report on the plain product when the users request has failed. *)
Definition ex_plain_report : list (cell * PA.SellerMetrics) * option PA.OverallSummary :=
  match PP.process_data (insertion_sort_desc true) [ex_plain_product]
                        (AC.get_all_users AC.Failed) with
  | Ok (Some report) => report
  | _ => ([], None)
  end.


(** * Properties *)

(** ** Keys *)

Lemma key_eqb_sym (a b : cell) : key_eqb a b = key_eqb b a.
Proof.
  destruct a, b; simpl; try reflexivity.
  - destruct (Qeq_bool q q0) eqn:E1, (Qeq_bool q0 q) eqn:E2; try reflexivity.
    + apply Qeq_bool_iff in E1. symmetry in E1. apply Qeq_bool_iff in E1. congruence.
    + apply Qeq_bool_iff in E2. symmetry in E2. apply Qeq_bool_iff in E2. congruence.
  - apply String.eqb_sym.
Qed.

Lemma key_eqb_trans (a b c : cell) :
  key_eqb a b = true -> key_eqb b c = true -> key_eqb a c = true.
Proof.
  destruct a, b, c; simpl; try discriminate; try reflexivity.
  - intros H1 H2. apply Qeq_bool_iff in H1, H2. apply Qeq_bool_iff.
    etransitivity; eassumption.
  - intros H1 H2. apply String.eqb_eq in H1, H2. apply String.eqb_eq. congruence.
Qed.

Lemma key_eqb_refl (a : cell) : hashable a = true -> key_eqb a a = true.
Proof.
  destruct a; simpl; try reflexivity; try discriminate.
  - intros _. apply Qeq_bool_iff. reflexivity.
  - intros _. apply String.eqb_refl.
Qed.

Lemma filter_none {A : Type} (p : A -> bool) (l : list A) :
  forallb (fun x => negb (p x)) l = true -> List.filter p l = [].
Proof.
  induction l as [|x l IH]; simpl; [reflexivity|].
  intros H. apply andb_prop in H as [Hx Hl].
  destruct (p x); [discriminate|]. auto.
Qed.

Lemma distinct_keys_one_match (key : row -> cell) (k : cell) (rs : list row) :
  distinct_keys (map key rs) = true ->
  (length (List.filter (fun r => key_eqb k (key r)) rs) <= 1)%nat.
Proof.
  induction rs as [|r rs IH]; simpl; [lia|].
  intros H. apply andb_prop in H as [Hhd Htl].
  destruct (key_eqb k (key r)) eqn:E; [|auto].
  rewrite filter_none; [simpl; lia|].
  rewrite forallb_forall in *. intros r' Hin.
  specialize (Hhd (key r') (in_map key _ _ Hin)).
  destruct (key_eqb k (key r')) eqn:E'; [|reflexivity].
  rewrite key_eqb_sym in E.
  rewrite (key_eqb_trans _ _ _ E E') in Hhd. discriminate.
Qed.

(** ** The error monad *)

Lemma traverse_ok {A B : Type} (f : A -> result B) (g : A -> B) (l : list A) :
  (forall x, In x l -> f x = Ok (g x)) -> traverse f l = Ok (map g l).
Proof.
  induction l as [|x l IH]; simpl; intros H; [reflexivity|].
  rewrite (H x (or_introl eq_refl)). simpl.
  rewrite IH by auto. reflexivity.
Qed.

Lemma traverse_elem {A B : Type} (f : A -> result B) (l : list A) (l' : list B) (y : B) :
  traverse f l = Ok l' -> In y l' -> exists x, In x l /\ f x = Ok y.
Proof.
  revert l'. induction l as [|x l IH]; simpl; intros l' H Hin.
  - injection H as <-. destruct Hin.
  - destruct (f x) as [y0|e] eqn:Ef; simpl in H; [|discriminate].
    destruct (traverse f l) as [ys|e]; simpl in H; [|discriminate].
    injection H as <-. destruct Hin as [<-|Hin].
    + eauto.
    + destruct (IH ys eq_refl Hin) as (x' & Hx' & Hf). eauto.
Qed.

(** ** Frames *)

Lemma has_col_true (df : DataFrame) (c : string) : has_col df c = true <-> c ∈ columns df.
Proof. unfold has_col. apply bool_decide_eq_true. Qed.

Lemma get_insert_eq (r : row) (c : string) (v : cell) : get (<[c := v]> r) c = v.
Proof. unfold get. rewrite lookup_insert_eq. reflexivity. Qed.

Lemma get_insert_ne (r : row) (c c' : string) (v : cell) :
  c <> c' -> get (<[c := v]> r) c' = get r c'.
Proof. intros H. unfold get. rewrite lookup_insert_ne by exact H. reflexivity. Qed.

Lemma get_restrict (cols : list string) (r : row) (c : string) :
  In c cols -> get (restrict cols r) c = get r c.
Proof.
  unfold restrict. induction cols as [|c0 cols IH]; simpl; [tauto|].
  intros H. destruct (decide (c0 = c)) as [->|Hne].
  - apply get_insert_eq.
  - rewrite get_insert_ne by exact Hne. destruct H; [contradiction|auto].
Qed.

Lemma find_none_all {A : Type} (p : A -> bool) (l : list A) :
  (forall x, In x l -> p x = false) -> List.find p l = None.
Proof.
  induction l as [|x l IH]; simpl; intros H; [reflexivity|].
  rewrite (H x (or_introl eq_refl)). auto.
Qed.

Lemma select_ok (df : DataFrame) (cols : list string) :
  (forall c, In c cols -> c ∈ columns df) ->
  select df cols = Ok (mkFrame cols (map (restrict cols) (rows df))).
Proof.
  intros H. unfold select. rewrite find_none_all; [reflexivity|].
  intros c Hc. apply negb_false_iff, has_col_true. auto.
Qed.

Lemma set_const_columns (df : DataFrame) (c : string) (v : cell) (x : string) :
  x ∈ columns (set_const df c v) <-> x ∈ columns df \/ x = c.
Proof.
  unfold set_const, set_col. simpl. destruct (has_col df c) eqn:E.
  - apply has_col_true in E. split; [auto|]. intros [H| ->]; assumption.
  - rewrite elem_of_app, list_elem_of_singleton. reflexivity.
Qed.

Lemma ensure_cols_mono (df : DataFrame) (cols : list string) (x : string) :
  x ∈ columns df -> x ∈ columns (P.ensure_cols df cols).
Proof.
  unfold P.ensure_cols. revert df. induction cols as [|c cols IH]; simpl; intros df H; [exact H|].
  apply IH. destruct (has_col df c); [exact H|]. apply set_const_columns. auto.
Qed.

Lemma ensure_cols_has (df : DataFrame) (cols : list string) (x : string) :
  In x cols -> x ∈ columns (P.ensure_cols df cols).
Proof.
  revert df. induction cols as [|c cols IH]; simpl; intros df H; [destruct H|].
  destruct H as [->|H].
  - apply (ensure_cols_mono _ cols). destruct (has_col df x) eqn:E.
    + apply has_col_true, E.
    + apply set_const_columns. auto.
  - apply (IH _ H).
Qed.

Lemma ensure_cols_id (df : DataFrame) (cols : list string) :
  (forall c, In c cols -> c ∈ columns df) -> P.ensure_cols df cols = df.
Proof.
  unfold P.ensure_cols. induction cols as [|c cols IH]; simpl; intros H; [reflexivity|].
  assert (E : has_col df c = true) by (apply has_col_true; auto).
  rewrite E. auto.
Qed.

Lemma ensure_cols_length (df : DataFrame) (cols : list string) :
  length (rows (P.ensure_cols df cols)) = length (rows df).
Proof.
  unfold P.ensure_cols. revert df. induction cols as [|c cols IH]; simpl; intros df; [reflexivity|].
  rewrite IH. destruct (has_col df c); [reflexivity|].
  unfold set_const, set_col. simpl. apply length_map.
Qed.

(** ** The left merge *)

Lemma right_label_in (left : DataFrame) (sfx : string) (rcols : list string) (c : string) :
  In c rcols -> c ∈ columns left ++ map (right_label left sfx) rcols.
Proof.
  intros H. apply elem_of_app. destruct (has_col left c) eqn:E.
  - left. apply has_col_true, E.
  - right. apply list_elem_of_In, in_map_iff. exists c. split; [|exact H].
    unfold right_label. rewrite E. reflexivity.
Qed.

Lemma attach_get_other (left : DataFrame) (sfx : string) (rcols : list string)
    (l : row) (ro : option row) (x : string) :
  (forall c, In c rcols -> right_label left sfx c <> x) ->
  get (attach left sfx rcols l ro) x = get l x.
Proof.
  unfold attach. induction rcols as [|c rcols IH]; simpl; intros H; [reflexivity|].
  rewrite get_insert_ne by auto. auto.
Qed.

Lemma attach_none_get (left : DataFrame) (sfx : string) (rcols : list string)
    (l : row) (c : string) :
  In c rcols -> get (attach left sfx rcols l None) (right_label left sfx c) = Null.
Proof.
  unfold attach. induction rcols as [|c0 rcols IH]; simpl; intros H; [destruct H|].
  destruct (decide (right_label left sfx c0 = right_label left sfx c)) as [->|Hne].
  - apply get_insert_eq.
  - rewrite get_insert_ne by exact Hne. destruct H as [->|H]; [contradiction|auto].
Qed.

Lemma joined_length (left right : DataFrame) (left_on right_on sfx : string) (l : row) :
  distinct_keys (map (fun r => get r right_on) (rows right)) = true ->
  length (joined left right left_on right_on sfx l) = 1%nat.
Proof.
  intros H. unfold joined, matches.
  pose proof (distinct_keys_one_match (fun r => get r right_on) (get l left_on) _ H) as Hle.
  destruct (List.filter _ (rows right)) as [|m [|m' ms]]; simpl in *; [reflexivity|reflexivity|lia].
Qed.

Lemma merge_rows_length (left right : DataFrame) (left_on right_on sfx : string) :
  distinct_keys (map (fun r => get r right_on) (rows right)) = true ->
  length (merge_rows left right left_on right_on sfx) = length (rows left).
Proof.
  intros H. unfold merge_rows.
  induction (rows left) as [|l ls IH]; simpl; [reflexivity|].
  rewrite length_app, IH, (joined_length _ _ _ _ _ _ H). reflexivity.
Qed.

Lemma merge_rows_elem (left right : DataFrame) (left_on right_on sfx : string) (m : row) :
  In m (merge_rows left right left_on right_on sfx) ->
  exists l ro, In l (rows left) /\ m = attach left sfx (columns right) l ro
               /\ (rows right = [] -> ro = None).
Proof.
  unfold merge_rows. intros H. apply in_flat_map in H as (l & Hl & Hm).
  exists l. unfold joined, matches in Hm.
  destruct (List.filter _ (rows right)) as [|m0 ms] eqn:E.
  - destruct Hm as [<-|[]]. exists None. auto.
  - apply in_map_iff in Hm as (r & <- & Hr). exists (Some r).
    split; [exact Hl|]. split; [reflexivity|].
    intros Hnil. rewrite Hnil in E. discriminate.
Qed.

(** ** [pipeline/data_enricher.py]: what the enricher returns *)

Lemma user_label_other (left : DataFrame) (c x : string) :
  In c P.user_cols ->
  In x ["rating"; "quantity"; "price"; "revenue"; "userId"]%string ->
  right_label left "_seller" c <> x.
Proof.
  unfold right_label. intros Hc Hx. simpl in Hc, Hx.
  destruct (has_col left c);
    repeat (destruct Hc as [<-|Hc]; [repeat (destruct Hx as [<-|Hx]; [discriminate|]); destruct Hx|]);
    destruct Hc.
Qed.

Lemma has_col_merged (left : DataFrame) (sfx : string) (rcols : list string)
    (rws : list row) (x : string) :
  (forall c, In c rcols -> right_label left sfx c <> x) ->
  has_col (mkFrame (columns left ++ map (right_label left sfx) rcols) rws) x = has_col left x.
Proof.
  intros H. unfold has_col. apply bool_decide_ext. simpl. rewrite elem_of_app.
  split; [|auto]. intros [Hl|Hr]; [exact Hl|].
  apply list_elem_of_In, in_map_iff in Hr as (c & Hc & Hin). destruct (H c Hin Hc).
Qed.

Lemma has_col_set_col (df : DataFrame) (c : string) (f : row -> cell) (x : string) :
  has_col (set_col df c f) x = has_col df x || bool_decide (x = c).
Proof.
  unfold set_col, has_col at 1. simpl. destruct (has_col df c) eqn:E.
  - unfold has_col. destruct (decide (x = c)) as [->|Hne].
    + fold (has_col df c). rewrite E. reflexivity.
    + rewrite (bool_decide_eq_false_2 (x = c)) by exact Hne. rewrite orb_false_r. reflexivity.
  - unfold has_col. apply eq_true_iff_eq. rewrite bool_decide_eq_true, orb_true_iff, !bool_decide_eq_true.
    rewrite elem_of_app, list_elem_of_singleton. reflexivity.
Qed.

Lemma forallb_mapped {A B : Type} (p : B -> bool) (f : A -> B) (l : list A) :
  forallb p (map f l) = forallb (fun x => p (f x)) l.
Proof. induction l as [|x l IH]; simpl; [reflexivity|]. rewrite IH. reflexivity. Qed.

Lemma mul_columns_ok (a b : list cell) :
  a = [] \/ numeric_dtype a && numeric_dtype b = true ->
  mul_columns a b = Ok (zip_with mul_value a b).
Proof.
  unfold mul_columns. intros [->|H]; [reflexivity|].
  rewrite H. destruct a; reflexivity.
Qed.

Lemma zip_with_columns {A B C D : Type} (h : B -> C -> D) (p : A -> B) (q : A -> C)
    (k : A -> D -> A) (l : list A) :
  zip_with k l (zip_with h (map p l) (map q l)) = map (fun r => k r (h (p r) (q r))) l.
Proof. induction l as [|x l IH]; simpl; [reflexivity|]. rewrite IH. reflexivity. Qed.

Lemma assign_product (df : DataFrame) (c : string) (h : cell -> cell -> cell)
    (p q : row -> cell) :
  assign df c (zip_with h (map p (rows df)) (map q (rows df)))
  = set_col df c (fun r => h (p r) (q r)).
Proof. unfold assign, set_col. rewrite zip_with_columns. reflexivity. Qed.

Lemma assign_product_map (df : DataFrame) (c : string) (f : cell -> cell)
    (h : cell -> cell -> cell) (p q : row -> cell) :
  assign df c (map f (zip_with h (map p (rows df)) (map q (rows df))))
  = set_col df c (fun r => f (h (p r) (q r))).
Proof.
  rewrite <- (assign_product df c (fun a b => f (h a b)) p q). f_equal.
  induction (rows df) as [|x l IH]; simpl; [reflexivity|]. rewrite IH. reflexivity.
Qed.

(** A numeric column stays one when its values are carried over to another
    list of rows, each of which takes its value from a row of the first and
    each row of the first giving its value to one of them. *)
Lemma numeric_dtype_carried {A B : Type} (f : A -> cell) (g : B -> cell)
    (xs : list A) (ys : list B) :
  (forall y, In y ys -> exists x, In x xs /\ g y = f x) ->
  (forall x, In x xs -> exists y, In y ys /\ g y = f x) ->
  numeric_dtype (map f xs) = true -> numeric_dtype (map g ys) = true.
Proof.
  unfold numeric_dtype. intros Hy Hx H. apply andb_prop in H as [Hall Hex].
  apply andb_true_intro. split.
  - rewrite forallb_forall in *. intros c Hc. apply in_map_iff in Hc as (y & <- & Hin).
    destruct (Hy y Hin) as (x & Hxin & ->). apply Hall, in_map, Hxin.
  - apply existsb_exists in Hex as (c & Hc & Hnum).
    apply in_map_iff in Hc as (x & <- & Hin). destruct (Hx x Hin) as (y & Hyin & E).
    apply existsb_exists. exists (g y). split; [apply in_map, Hyin|]. rewrite E. exact Hnum.
Qed.

Lemma merge_rows_covers (left right : DataFrame) (left_on right_on sfx : string) (l : row) :
  In l (rows left) ->
  exists ro, In (attach left sfx (columns right) l ro)
                (merge_rows left right left_on right_on sfx).
Proof.
  intros Hl. unfold merge_rows.
  assert (H : exists ro, In (attach left sfx (columns right) l ro)
                            (joined left right left_on right_on sfx l)).
  { unfold joined. destruct (matches right right_on (get l left_on)) as [|m ms].
    - exists None. left. reflexivity.
    - exists (Some m). left. reflexivity. }
  destruct H as [ro H]. exists ro. apply in_flat_map. eauto.
Qed.

Lemma P_sel_ids (users : DataFrame) :
  map (fun r => get r "id") (rows (P_users_sel users)) = P_user_ids users.
Proof.
  unfold P_users_sel, P_user_ids. simpl. rewrite map_map. apply map_ext.
  intros r. apply get_restrict. simpl. auto.
Qed.

Lemma set_colM_ok (df : DataFrame) (c : string) (f : row -> result cell) (g : row -> cell) :
  (forall r, In r (rows df) -> f r = Ok (g r)) ->
  set_colM df c f = Ok (set_col df c g).
Proof.
  intros H. unfold set_colM, set_col.
  rewrite (traverse_ok _ (fun r => <[c := g r]> r)); [reflexivity|].
  intros r Hr. rewrite (H r Hr). reflexivity.
Qed.

Lemma P_quantity_row_get (products : DataFrame) (m : row) (x : string) :
  x <> "quantity"%string -> get (P_quantity_row products m) x = get m x.
Proof.
  intros H. unfold P_quantity_row.
  destruct (has_col products "rating"); [apply get_insert_ne; congruence|].
  destruct (has_col products "quantity"); [reflexivity|apply get_insert_ne; congruence].
Qed.

Lemma P_quantity_row_quantity (products : DataFrame) (l : row) (ro : option row) :
  get (P_quantity_row products (attach products "_seller" P.user_cols l ro)) "quantity"
  = P_quantity products l.
Proof.
  unfold P_quantity_row, P_quantity.
  destruct (has_col products "rating").
  - rewrite get_insert_eq. f_equal. apply attach_get_other.
    intros c Hc. apply user_label_other; simpl; auto.
  - destruct (has_col products "quantity").
    + apply attach_get_other. intros c Hc. apply user_label_other; simpl; auto.
    + apply get_insert_eq.
Qed.

Lemma P_staged_price (products : DataFrame) (l : row) (ro : option row) :
  get (P_quantity_row products (attach products "_seller" P.user_cols l ro)) "price"
  = get l "price".
Proof.
  rewrite P_quantity_row_get by discriminate.
  apply attach_get_other. intros c Hc. apply user_label_other; simpl; auto.
Qed.

(** On a product frame of the expected shape, with comparable join keys, the
    enricher returns the merged rows, each with its quantity and its revenue. *)
Lemma P_enrich_spec (products users : DataFrame) :
  product_frame products = true ->
  P_keys_ok products users = true ->
  exists out,
    P.enrich_product_data products users = Ok out
    /\ rows out = map (fun m => P_revenue_row (P_quantity_row products m))
                      (merge_rows products (P_users_sel users) "userId" "id" "_seller").
Proof.
  intros Hp Hk. unfold product_frame in Hp.
  apply andb_prop in Hp as [Hp Hnum]. apply andb_prop in Hp as [Hp Hhl].
  apply andb_prop in Hp as [Hp Hclash]. apply andb_prop in Hp as [Hkey Hprice].
  unfold P_keys_ok in Hk. apply andb_prop in Hk as [Hk Hhr].
  unfold P.enrich_product_data.
  rewrite select_ok by apply ensure_cols_has.
  fold (P_users_sel users). cbn [mbind result_bind].
  unfold merge_left. rewrite Hkey. cbn [negb].
  replace (has_col (P_users_sel users) "id") with true by reflexivity. cbn [negb].
  change (columns (P_users_sel users)) with P.user_cols.
  rewrite Hclash. cbn [negb].
  rewrite P_sel_ids, Hk. cbn [negb].
  assert (Hh : forallb (fun r => hashable (get r "userId")) (rows products)
               && forallb (fun r => hashable (get r "id")) (rows (P_users_sel users)) = true).
  { rewrite Hhl. cbn [andb]. rewrite <- P_sel_ids, forallb_mapped in Hhr. exact Hhr. }
  rewrite Hh. cbn [negb mbind result_bind].
  set (mrows := merge_rows products (P_users_sel users) "userId" "id" "_seller").
  set (enriched := mkFrame _ mrows).
  rewrite (ensure_cols_id enriched).
  2:{ intros c Hc. apply right_label_in. simpl in *. tauto. }
  assert (Hcol : forall x, In x ["rating"; "quantity"; "price"; "revenue"; "userId"]%string ->
                           has_col enriched x = has_col products x).
  { intros x Hx. apply has_col_merged. intros c Hc. apply user_label_other; assumption. }
  rewrite !Hcol by (simpl; auto).
  set (staged := if has_col products "rating" then _ else _).
  assert (Hst : rows staged = map (P_quantity_row products) mrows
                /\ has_col staged "price" = true /\ has_col staged "quantity" = true).
  { subst staged. unfold P_quantity_row, set_const.
    destruct (has_col products "rating") eqn:Er; [|destruct (has_col products "quantity") eqn:Eq].
    - rewrite !has_col_set_col, Hcol, Hprice by (simpl; auto). simpl.
      rewrite orb_true_r. auto.
    - rewrite !Hcol, Hprice, Eq by (simpl; auto). rewrite map_id. auto.
    - rewrite !has_col_set_col, Hcol, Hprice by (simpl; auto). simpl.
      rewrite orb_true_r. auto. }
  destruct Hst as (Hst & Hsp & Hsq).
  unfold getitem. rewrite Hsp, Hsq. cbn [mbind result_bind].
  assert (Hin : forall r, In r (rows staged) ->
                  exists l, In l (rows products)
                            /\ get r "price" = get l "price"
                            /\ get r "quantity" = P_quantity products l).
  { intros r Hr. rewrite Hst in Hr. apply in_map_iff in Hr as (m & <- & Hm).
    apply merge_rows_elem in Hm as (l & ro & Hl & -> & _).
    change (columns (P_users_sel users)) with P.user_cols.
    exists l. split; [exact Hl|]. split; [apply P_staged_price|apply P_quantity_row_quantity]. }
  assert (Hcov : forall l, In l (rows products) ->
                  exists r, In r (rows staged)
                            /\ get r "price" = get l "price"
                            /\ get r "quantity" = P_quantity products l).
  { intros l Hl.
    destruct (merge_rows_covers products (P_users_sel users) "userId" "id" "_seller" l Hl)
      as [ro Hm].
    change (columns (P_users_sel users)) with P.user_cols in Hm.
    eexists. split; [rewrite Hst; apply in_map, Hm|].
    split; [apply P_staged_price|apply P_quantity_row_quantity]. }
  rewrite mul_columns_ok.
  - cbn [mbind result_bind]. rewrite assign_product.
    eexists. split; [reflexivity|]. unfold set_col. simpl. rewrite Hst, map_map. reflexivity.
  - apply orb_prop in Hnum as [Hnil|Hnum].
    + left. rewrite Hst. unfold mrows, merge_rows.
      destruct (rows products); [reflexivity|discriminate].
    + right. apply andb_prop in Hnum as [Hn1 Hn2]. apply andb_true_intro. split.
      * apply (numeric_dtype_carried (fun l => get l "price") _ (rows products)); [| |exact Hn1].
        -- intros r Hr. destruct (Hin r Hr) as (l & Hl & E & _). eauto.
        -- intros l Hl. destruct (Hcov l Hl) as (r & Hr & E & _). eauto.
      * apply (numeric_dtype_carried (P_quantity products) _ (rows products)); [| |exact Hn2].
        -- intros r Hr. destruct (Hin r Hr) as (l & Hl & _ & E). eauto.
        -- intros l Hl. destruct (Hcov l Hl) as (r & Hr & _ & E). eauto.
Qed.

(** ** [DataEnricher.py]: what the enricher returns *)

Lemma D_enrich_unfold (parse : string -> option Q) (py_str : cell -> string)
    (rng : nat -> nat) (products users : data) :
  D.enrich_product_data parse py_str rng products users
  = if is_empty (D.to_dataframe products) then Ok empty_frame
    else D_join parse py_str rng (D.to_dataframe products) (D.to_dataframe users)
         ≫= D_finish parse.
Proof. reflexivity. Qed.

Lemma coerced_num (parse : string -> option Q) (c : cell) :
  exists q, fillna (Num 0) (D.to_numeric parse c) = Num q.
Proof.
  destruct c; simpl; eauto. destruct (parse s); simpl; eauto.
Qed.

Lemma to_int_num (parse : string -> option Q) (c : cell) :
  exists n, D.to_int parse c = Num (inject_Z n).
Proof.
  unfold D.to_int. destruct (coerced_num parse c) as [q ->]. eauto.
Qed.

Lemma set_col_elem (df : DataFrame) (c : string) (f : row -> cell) (r : row) :
  In r (rows (set_col df c f)) <-> exists r0, In r0 (rows df) /\ r = <[c := f r0]> r0.
Proof.
  unfold set_col. simpl. rewrite in_map_iff. split; intros (r0 & H1 & H2); eauto.
Qed.

Lemma D_staged_price (parse : string -> option Q) (pf : DataFrame) (l : row) :
  In l (rows (D_staged parse pf)) -> exists p, get l "price" = Num p.
Proof.
  assert (Hp : forall r, In r (rows (D_priced parse pf)) -> exists p, get r "price" = Num p).
  { intros r Hr. unfold D_priced in Hr. apply set_col_elem in Hr as (r0 & _ & ->).
    rewrite get_insert_eq. apply coerced_num. }
  unfold D_staged, set_const. intros Hl.
  destruct (has_col (D_priced parse pf) "rating");
    apply set_col_elem in Hl as (r0 & Hr0 & ->);
    rewrite get_insert_ne by discriminate; auto.
Qed.

Lemma D_staged_length (parse : string -> option Q) (pf : DataFrame) :
  length (rows (D_staged parse pf)) = length (rows pf).
Proof.
  unfold D_staged, D_priced, set_const, set_col.
  destruct (has_col _ "rating"); simpl; rewrite !length_map;
    destruct (has_col pf "price"); simpl; rewrite ?length_map; reflexivity.
Qed.

Lemma all_num_dtype (l : list cell) :
  forallb is_num l = true -> l = [] \/ numeric_dtype l = true.
Proof.
  destruct l as [|c l]; [auto|]. intros H. right. unfold numeric_dtype.
  apply andb_true_intro. split.
  - rewrite forallb_forall in *. intros x Hx. specialize (H x Hx). destruct x; auto; discriminate.
  - simpl in *. apply andb_prop in H as [-> _]. reflexivity.
Qed.

Lemma D_finish_ok (parse : string -> option Q) (E : DataFrame) :
  has_col E "price" = true ->
  (forall e, In e (rows E) -> exists p, get e "price" = Num p) ->
  D_finish parse E
  = Ok (set_col (set_col E "quantity" (fun r => D.to_int parse (get r "quantity")))
                "revenue"
                (fun r => D.round_cell (mul_value (get r "price") (get r "quantity")))).
Proof.
  intros Hc H. unfold D_finish.
  set (E' := set_col E "quantity" _).
  assert (Hrows : forall r, In r (rows E') ->
                    is_num (get r "price") = true /\ is_num (get r "quantity") = true).
  { intros r Hr. apply set_col_elem in Hr as (e & He & ->).
    rewrite get_insert_ne by discriminate. rewrite get_insert_eq.
    destruct (H e He) as [p ->]. destruct (to_int_num parse (get e "quantity")) as [n ->].
    auto. }
  assert (Hp : has_col E' "price" = true)
    by (unfold E'; rewrite has_col_set_col, Hc; reflexivity).
  assert (Hq : has_col E' "quantity" = true)
    by (unfold E'; rewrite has_col_set_col; apply orb_true_r).
  unfold getitem. rewrite Hp, Hq.
  cbn [mbind result_bind]. rewrite mul_columns_ok.
  - cbn [mbind result_bind]. rewrite assign_product_map. reflexivity.
  - assert (H1 : forallb is_num (map (fun r => get r "price") (rows E')) = true).
    { rewrite forallb_mapped. apply forallb_forall. intros r Hr. apply Hrows, Hr. }
    assert (H2 : forallb is_num (map (fun r => get r "quantity") (rows E')) = true).
    { rewrite forallb_mapped. apply forallb_forall. intros r Hr. apply Hrows, Hr. }
    destruct (all_num_dtype _ H1) as [Hn|Hn1]; [auto|].
    destruct (all_num_dtype _ H2) as [Hn|Hn2].
    + left. destruct (rows E'); [reflexivity|discriminate].
    + right. rewrite Hn1, Hn2. reflexivity.
Qed.

Lemma seller_label_other (left : DataFrame) (c x : string) :
  In c ["id"; "seller_name"; "email"]%string ->
  In x ["price"; "quantity"; "revenue"; "seller_id"]%string ->
  right_label left "_seller" c <> x.
Proof.
  unfold right_label. intros Hc Hx. simpl in Hc, Hx.
  destruct (has_col left c);
    repeat (destruct Hc as [<-|Hc]; [repeat (destruct Hx as [<-|Hx]; [discriminate|]); destruct Hx|]);
    destruct Hc.
Qed.

Lemma select_inv (df s : DataFrame) (cols : list string) :
  select df cols = Ok s -> s = mkFrame cols (map (restrict cols) (rows df)).
Proof.
  unfold select. destruct (List.find _ cols); [discriminate|]. congruence.
Qed.

Lemma merge_left_inv (left right E : DataFrame) (left_on right_on sfx : string) :
  merge_left left right left_on right_on sfx = Ok E ->
  E = mkFrame (columns left ++ map (right_label left sfx) (columns right))
              (merge_rows left right left_on right_on sfx).
Proof.
  unfold merge_left. repeat (destruct (negb _); [discriminate|]). congruence.
Qed.

Lemma D_left_elem (rng : nat -> nat) (staged : DataFrame) (ids : list cell) (l' : row) :
  In l' (rows (D_left rng staged ids)) ->
  exists i l, In l (rows staged) /\ l' = <["seller_id"%string := D.random_choice rng ids i]> l.
Proof.
  unfold D_left. simpl. intros H. apply list_elem_of_In, elem_of_lookup_imap in H as (i & l & -> & Hl).
  exists i, l. split; [|reflexivity]. apply list_elem_of_In. eapply list_elem_of_lookup_2, Hl.
Qed.

Lemma has_col_D_priced (parse : string -> option Q) (pf : DataFrame) (x : string) :
  has_col (D_priced parse pf) x = has_col pf x || bool_decide (x = "price"%string).
Proof.
  unfold D_priced. rewrite has_col_set_col. destruct (has_col pf "price"); [reflexivity|].
  unfold set_const. rewrite has_col_set_col. destruct (has_col pf x), (bool_decide _); reflexivity.
Qed.

Lemma has_col_D_staged (parse : string -> option Q) (pf : DataFrame) (x : string) :
  has_col (D_staged parse pf) x
  = has_col pf x || bool_decide (x = "price"%string) || bool_decide (x = "quantity"%string).
Proof.
  unfold D_staged, set_const. destruct (has_col (D_priced parse pf) "rating");
    rewrite has_col_set_col, has_col_D_priced; reflexivity.
Qed.

Lemma has_col_D_left (parse : string -> option Q) (rng : nat -> nat) (pf : DataFrame)
    (ids : list cell) (x : string) :
  has_col (D_left rng (D_staged parse pf) ids) x
  = has_col pf x || bool_decide (x = "price"%string) || bool_decide (x = "quantity"%string)
    || bool_decide (x = "seller_id"%string).
Proof.
  rewrite <- (has_col_D_staged parse pf x).
  exact (has_col_set_col (D_staged parse pf) "seller_id" (fun _ => Null) x).
Qed.

Lemma D_join_has_price (parse : string -> option Q) (py_str : cell -> string)
    (rng : nat -> nat) (pf uf E : DataFrame) :
  D_join parse py_str rng pf uf = Ok E -> has_col E "price" = true.
Proof.
  unfold D_join. destruct (negb (is_empty uf)).
  - destruct (set_colM uf "seller_name" _) as [u'|]; [|discriminate]. cbn [mbind result_bind].
    destruct (getitem u' "id") as [ids|]; [|discriminate]. cbn [mbind result_bind].
    destruct (select u' _) as [sel|] eqn:Es; [|discriminate]. cbn [mbind result_bind].
    intros Hm. apply merge_left_inv in Hm. subst E.
    apply has_col_true. cbn [columns]. apply elem_of_app. left.
    apply (proj1 (has_col_true (D_left rng (D_staged parse pf) ids) "price")).
    rewrite has_col_D_left. destruct (has_col pf "price"); reflexivity.
  - intros [= <-]. unfold set_const. rewrite !has_col_set_col, has_col_D_staged.
    destruct (has_col pf "price"); reflexivity.
Qed.

(** Whatever the join returns, its rows carry the price of a staged product row. *)
Lemma D_join_price (parse : string -> option Q) (py_str : cell -> string) (rng : nat -> nat)
    (pf uf E : DataFrame) (e : row) :
  D_join parse py_str rng pf uf = Ok E -> In e (rows E) -> exists p, get e "price" = Num p.
Proof.
  unfold D_join. destruct (negb (is_empty uf)).
  - destruct (set_colM uf "seller_name" _) as [u'|]; [|discriminate]. cbn [mbind result_bind].
    destruct (getitem u' "id") as [ids|]; [|discriminate]. cbn [mbind result_bind].
    destruct (select u' _) as [sel|] eqn:Es; [|discriminate]. cbn [mbind result_bind].
    apply select_inv in Es. intros Hm He. apply merge_left_inv in Hm. subst E.
    simpl in He. apply merge_rows_elem in He as (l' & ro & Hl' & -> & _).
    apply D_left_elem in Hl' as (i & l & Hl & ->).
    rewrite attach_get_other.
    + rewrite get_insert_ne by discriminate. apply (D_staged_price parse pf), Hl.
    + subst sel. simpl. intros c Hc. apply seller_label_other; simpl; tauto.
  - intros [= <-] He. unfold set_const in He.
    apply set_col_elem in He as (r1 & Hr1 & ->). apply set_col_elem in Hr1 as (r0 & Hr0 & ->).
    rewrite !get_insert_ne by discriminate. apply (D_staged_price parse pf), Hr0.
Qed.

(** Every row the second enricher returns carries a numeric price, an integer
    quantity and their product rounded to two decimals. *)
Lemma D_enrich_revenue (parse : string -> option Q) (py_str : cell -> string)
    (rng : nat -> nat) (products users : data) (out : DataFrame) (r : row) :
  D.enrich_product_data parse py_str rng products users = Ok out ->
  In r (rows out) ->
  exists p n, get r "price" = Num p /\ get r "quantity" = Num (inject_Z n)
              /\ get r "revenue" = Num (round2 (p * inject_Z n)).
Proof.
  rewrite D_enrich_unfold. destruct (is_empty _).
  - intros [= <-] [].
  - destruct (D_join _ _ _ _ _) as [E|] eqn:Ej; [|discriminate]. cbn [mbind result_bind].
    rewrite D_finish_ok;
      [|eapply D_join_has_price; eauto|intros e He; eapply D_join_price; eauto].
    intros [= <-] Hr.
    apply set_col_elem in Hr as (r1 & Hr1 & ->). apply set_col_elem in Hr1 as (e & He & ->).
    destruct (D_join_price _ _ _ _ _ _ _ Ej He) as [p Hp].
    destruct (to_int_num parse (get e "quantity")) as [n Hn].
    exists p, n. repeat split.
    + rewrite !get_insert_ne by discriminate. exact Hp.
    + rewrite get_insert_ne by discriminate. rewrite get_insert_eq. exact Hn.
    + rewrite get_insert_eq, get_insert_eq, get_insert_ne by discriminate.
      rewrite Hp, Hn. reflexivity.
Qed.

Lemma D_join_no_users (parse : string -> option Q) (py_str : cell -> string)
    (rng : nat -> nat) (pf uf : DataFrame) :
  is_empty uf = true ->
  D_join parse py_str rng pf uf
  = Ok (set_const (set_const (D_staged parse pf) "seller_name" (Str "Unknown Seller"))
                  "email" Null).
Proof. intros H. unfold D_join. rewrite H. reflexivity. Qed.

Lemma D_left_no_clash (parse : string -> option Q) (rng : nat -> nat) (pf : DataFrame)
    (ids : list cell) (c : string) :
  In c ["id"; "seller_name"; "email"]%string ->
  has_col pf (c +:+ "_seller") = false ->
  negb (has_col (D_left rng (D_staged parse pf) ids)
                (right_label (D_left rng (D_staged parse pf) ids) "_seller" c)) = true.
Proof.
  intros Hc Hs. unfold right_label.
  destruct (has_col (D_left rng (D_staged parse pf) ids) c) eqn:E; [|rewrite E; reflexivity].
  rewrite has_col_D_left, Hs. simpl in Hc.
  destruct Hc as [<-|[<-|[<-|[]]]]; reflexivity.
Qed.

Lemma seller_name_of_ok (py_str : cell -> string) (r : row) :
  name_ok (get r "name") = true ->
  D.seller_name_of py_str r = Ok (seller_name_value py_str r).
Proof.
  unfold seller_name_value, D.seller_name_of, name_ok.
  destruct (get r "name"); try reflexivity.
  destruct (dict_get d "firstname"); [|discriminate].
  destruct (dict_get d "lastname"); [reflexivity|discriminate].
Qed.

(** With users, the join is the left merge of the staged products, each with
    its drawn seller id, against the three seller columns. *)
Lemma random_choice_in (rng : nat -> nat) (ids : list cell) (i : nat) :
  ids <> [] -> In (D.random_choice rng ids i) ids.
Proof.
  intros H. unfold D.random_choice. apply nth_In. apply Nat.mod_upper_bound.
  destruct ids; [contradiction|discriminate].
Qed.

Lemma homogeneous_hashable (ids : list cell) :
  homogeneous ids = true -> forallb hashable ids = true.
Proof.
  unfold homogeneous. intros H. apply forallb_forall. intros c Hc.
  apply orb_prop in H as [H|H]; rewrite forallb_forall in H; specialize (H c Hc);
    destruct c; try discriminate; reflexivity.
Qed.

(** Keys drawn from a homogeneous column can be joined against it. *)
Lemma homogeneous_join (l r : list cell) :
  homogeneous r = true -> (forall x, In x l -> In x r) -> join_keys_ok l r = true.
Proof.
  unfold homogeneous, join_keys_ok, same_dtype. intros H Hsub.
  apply orb_prop in H as [H|H].
  - assert (Hl : forallb is_num l = true).
    { rewrite forallb_forall in *. intros x Hx. apply H, Hsub, Hx. }
    destruct (all_num_dtype l Hl) as [->|Hl']; [reflexivity|].
    destruct (all_num_dtype r H) as [->|Hr']; [destruct l; reflexivity|].
    rewrite Hl', Hr'. destruct (is_nil l), (is_nil r); reflexivity.
  - assert (Ht : forall xs, (forall x, In x xs -> In x r) -> text_dtype xs = true).
    { intros xs Hxs. unfold text_dtype. rewrite forallb_forall in *. intros x Hx.
      specialize (H x (Hxs x Hx)). destruct x; try discriminate; reflexivity. }
    rewrite (Ht l Hsub), (Ht r (fun x Hx => Hx)).
    destruct (is_nil l), (is_nil r), (numeric_dtype l && numeric_dtype r); reflexivity.
Qed.

(** With users, the join is the left merge of the staged products, each with
    its drawn seller id, against the three seller columns. *)
Lemma D_join_users (parse : string -> option Q) (py_str : cell -> string)
    (rng : nat -> nat) (pf uf : DataFrame) :
  is_empty uf = false -> seller_frame uf = true -> D_product_frame pf = true ->
  exists E sel,
    D_join parse py_str rng pf uf = Ok E
    /\ rows E = merge_rows (D_left rng (D_staged parse pf) (D_user_ids uf)) sel
                           "seller_id" "id" "_seller"
    /\ map (fun r => get r "id") (rows sel) = D_user_ids uf.
Proof.
  intros Hne Hu Hp. unfold seller_frame in Hu.
  apply andb_prop in Hu as [Hu Hrows]. apply andb_prop in Hu as [Hu Hhom].
  apply andb_prop in Hu as [Hid Hemail].
  fold (D_user_ids uf) in Hhom.
  rewrite forallb_forall in Hrows.
  assert (Hnil : D_user_ids uf <> []).
  { unfold D_user_ids, is_empty in *. destruct (columns uf); [discriminate|].
    destruct (rows uf); discriminate. }
  unfold D_join. rewrite Hne. cbn [negb].
  rewrite (set_colM_ok _ _ _ (seller_name_value py_str)).
  2:{ intros r Hr. apply seller_name_of_ok, Hrows, Hr. }
  cbn [mbind result_bind]. unfold getitem. rewrite has_col_set_col, Hid.
  cbn [orb mbind result_bind].
  rewrite select_ok.
  2:{ intros c Hc. apply has_col_true. rewrite has_col_set_col. simpl in Hc.
      destruct Hc as [<-|[<-|[<-|[]]]]; rewrite ?Hid, ?Hemail; try reflexivity.
      apply orb_true_r. }
  cbn [mbind result_bind].
  set (u' := set_col uf "seller_name" (seller_name_value py_str)).
  set (cols := ["id"; "seller_name"; "email"]%string).
  set (sel := mkFrame cols (map (restrict cols) (rows u'))).
  assert (Hids : map (fun r => get r "id") (rows u') = D_user_ids uf).
  { unfold u', set_col, D_user_ids. simpl. rewrite map_map. apply map_ext.
    intros r. apply get_insert_ne. discriminate. }
  assert (Hsel : map (fun r => get r "id") (rows sel) = D_user_ids uf).
  { rewrite <- Hids. unfold sel. simpl. rewrite map_map. apply map_ext.
    intros r. apply get_restrict. simpl. auto. }
  rewrite Hids.
  set (L := D_left rng (D_staged parse pf) (D_user_ids uf)).
  pose proof (homogeneous_hashable _ Hhom) as Hhash.
  assert (Hdrawn : forall x, In x (map (fun r => get r "seller_id") (rows L)) ->
                             In x (D_user_ids uf)).
  { intros x Hx. apply in_map_iff in Hx as (l' & <- & Hl').
    apply D_left_elem in Hl' as (i & l & _ & ->).
    rewrite get_insert_eq. apply random_choice_in, Hnil. }
  unfold merge_left.
  replace (has_col L "seller_id") with true
    by (symmetry; unfold L; rewrite has_col_D_left; apply orb_true_r).
  replace (has_col sel "id") with true by reflexivity.
  cbn [negb].
  assert (Hclash : forallb (fun c => negb (has_col L (right_label L "_seller" c)))
                           (columns sel) = true).
  { unfold D_product_frame in Hp. rewrite forallb_forall in Hp.
    apply forallb_forall. intros c Hc. apply D_left_no_clash; [exact Hc|].
    apply negb_true_iff, Hp, Hc. }
  rewrite Hclash. cbn [negb].
  rewrite Hsel, (homogeneous_join _ _ Hhom Hdrawn). cbn [negb].
  assert (Hh : forallb (fun r => hashable (get r "seller_id")) (rows L)
               && forallb (fun r => hashable (get r "id")) (rows sel) = true).
  { apply andb_true_intro. split.
    - rewrite <- forallb_mapped. apply forallb_forall. intros x Hx.
      rewrite forallb_forall in Hhash. apply Hhash, Hdrawn, Hx.
    - rewrite <- forallb_mapped, Hsel. exact Hhash. }
  rewrite Hh. cbn [negb].
  eexists _, sel. split; [reflexivity|]. split; [reflexivity|exact Hsel].
Qed.

Lemma D_left_length (rng : nat -> nat) (staged : DataFrame) (ids : list cell) :
  length (rows (D_left rng staged ids)) = length (rows staged).
Proof. unfold D_left. simpl. apply length_imap. Qed.

(** The second enricher returns, and with one row per product row when the
    user ids are pairwise distinct. *)
Lemma D_enrich_total (parse : string -> option Q) (py_str : cell -> string)
    (rng : nat -> nat) (products users : data) :
  is_empty (D.to_dataframe products) = false ->
  is_empty (D.to_dataframe users) = true
  \/ (seller_frame (D.to_dataframe users) = true
      /\ D_product_frame (D.to_dataframe products) = true
      /\ distinct_keys (D_user_ids (D.to_dataframe users)) = true) ->
  exists out,
    D.enrich_product_data parse py_str rng products users = Ok out
    /\ length (rows out) = length (rows (D.to_dataframe products)).
Proof.
  intros Hne Hu. rewrite D_enrich_unfold, Hne.
  set (pf := D.to_dataframe products) in *. set (uf := D.to_dataframe users) in *.
  assert (Hj : exists E, D_join parse py_str rng pf uf = Ok E
                         /\ length (rows E) = length (rows pf)).
  { destruct Hu as [Hu|(Hu & Hp & Hd)].
    - rewrite D_join_no_users by exact Hu. eexists. split; [reflexivity|].
      unfold set_const, set_col. simpl. rewrite !length_map. apply D_staged_length.
    - destruct (is_empty uf) eqn:Ee.
      + rewrite D_join_no_users by exact Ee. eexists. split; [reflexivity|].
        unfold set_const, set_col. simpl. rewrite !length_map. apply D_staged_length.
      + destruct (D_join_users parse py_str rng pf uf Ee Hu Hp) as (E & sel & -> & Hr & Hs).
        exists E. split; [reflexivity|]. rewrite Hr, merge_rows_length.
        * rewrite D_left_length. apply D_staged_length.
        * rewrite Hs. exact Hd. }
  destruct Hj as (E & Hj & Hlen). rewrite Hj. cbn [mbind result_bind].
  rewrite D_finish_ok;
    [|eapply D_join_has_price; eauto|intros e He; eapply D_join_price; eauto].
  eexists. split; [reflexivity|].
  unfold set_col. simpl. rewrite !length_map. exact Hlen.
Qed.


(** * The claims on enrichment *)

(** C1, as stated, fails: a user listed twice doubles the rows of the products
    joined to it. *)
Lemma enrich_row_count_duplicated_user :
  ~ (forall (products users out : DataFrame),
        rows products <> [] ->
        P.enrich_product_data products users = Ok out ->
        length (rows out) = length (rows products)).
Proof.
  intros H.
  pose (out := match P.enrich_product_data ex_products ex_users_twice with
               | Ok o => o | Raise _ => empty_frame end).
  assert (E : P.enrich_product_data ex_products ex_users_twice = Ok out)
    by (vm_compute; reflexivity).
  specialize (H ex_products ex_users_twice out).
  assert (Hlen : length (rows out) = 2%nat) by (vm_compute; reflexivity).
  rewrite Hlen in H. 
  assert (Hq : 2%nat = length (rows ex_products)) by (apply H; [discriminate|exact E]).
  vm_compute in Hq. discriminate.
Qed.

(** C1 (amended): when the user ids are pairwise distinct, both variants
    return exactly one output row per row of a non-empty product frame of
    the shape they are written for. *)
Theorem enrich_row_count (parse : string -> option Q) (py_str : cell -> string)
    (rng : nat -> nat) (products users : DataFrame) (products' users' : data) :
  (product_frame products = true ->
   P_keys_ok products users = true ->
   distinct_keys (P_user_ids users) = true ->
   exists out, P.enrich_product_data products users = Ok out
               /\ length (rows out) = length (rows products))
  /\ (is_empty (D.to_dataframe products') = false ->
      is_empty (D.to_dataframe users') = true
      \/ (seller_frame (D.to_dataframe users') = true
          /\ D_product_frame (D.to_dataframe products') = true
          /\ distinct_keys (D_user_ids (D.to_dataframe users')) = true) ->
      exists out, D.enrich_product_data parse py_str rng products' users' = Ok out
                  /\ length (rows out) = length (rows (D.to_dataframe products'))).
Proof.
  split.
  - intros Hp Hh Hd. destruct (P_enrich_spec products users Hp Hh) as (out & Hout & Hrows).
    exists out. split; [exact Hout|].
    rewrite Hrows, length_map. apply merge_rows_length. rewrite P_sel_ids. exact Hd.
  - apply D_enrich_total.
Qed.

Lemma enrich_row_count_witness :
  (exists out, P.enrich_product_data ex_products ex_users = Ok out
               /\ length (rows out) = length (rows ex_products))
  /\ (exists out, D.enrich_product_data ex_parse ex_str (fun _ => 0%nat)
                    (Records [ex_product]) (Records [ex_alice; ex_bob]) = Ok out
                  /\ length (rows out) = length (rows (D.to_dataframe (Records [ex_product])))).
Proof.
  destruct (enrich_row_count ex_parse ex_str (fun _ => 0%nat) ex_products ex_users
              (Records [ex_product]) (Records [ex_alice; ex_bob])) as [HP HD].
  split.
  - apply HP; vm_compute; reflexivity.
  - apply HD; [vm_compute; reflexivity|].
    right. repeat split; vm_compute; reflexivity.
Defined.

(** C2: at a price of 0.125 and a quantity of 1 the pipeline enricher reports
    the revenue 0.125, which is not 0.125 rounded to two decimals (0.12); the
    sibling enricher reports 0.12 on the same input. *)
Theorem enrich_revenue_unrounded :
  (out ← P.enrich_product_data ex_products ex_users; getitem out "price")
  = Ok [Num (1 # 8)]
  /\ (out ← P.enrich_product_data ex_products ex_users; getitem out "quantity")
     = Ok [Num 1]
  /\ (out ← P.enrich_product_data ex_products ex_users; getitem out "revenue")
     = Ok [Num (1 # 8)]
  /\ ~ (1 # 8 == round2 ((1 # 8) * 1))
  /\ (out ← D.enrich_product_data ex_parse ex_str (fun _ => 0%nat)
              (Frame ex_products) (Frame ex_users);
      getitem out "revenue")
     = Ok [Num (round2 ((1 # 8) * 1))].
Proof.
  split; [vm_compute; reflexivity|]. split; [vm_compute; reflexivity|].
  split; [vm_compute; reflexivity|]. split; [|vm_compute; reflexivity].
  intros H. vm_compute in H. discriminate.
Qed.

(** C3: the second enricher gives one product to Alice under one draw of the
    random source and to Bob under another, on the same products and users. *)
Theorem enrich_random_assignment :
  (out ← D.enrich_product_data ex_parse ex_str (fun _ => 0%nat)
           (Records [ex_product]) (Records [ex_alice; ex_bob]);
   getitem out "seller_name")
  = Ok [Str "Alice A"]
  /\ (out ← D.enrich_product_data ex_parse ex_str (fun _ => 1%nat)
              (Records [ex_product]) (Records [ex_alice; ex_bob]);
      getitem out "seller_name")
     = Ok [Str "Bob B"].
Proof. split; vm_compute; reflexivity. Qed.

(** C4: on the empty frame [pd.DataFrame()] the pipeline enricher raises
    [KeyError: 'userId'], whatever the users; the sibling enricher returns the
    empty frame. *)
Theorem enrich_empty_products (parse : string -> option Q) (py_str : cell -> string)
    (rng : nat -> nat) (users : DataFrame) (users' : data) :
  P.enrich_product_data empty_frame users = Raise (KeyError "userId")
  /\ P.enrich_product_data (P.to_dataframe []) users = Raise (KeyError "userId")
  /\ D.enrich_product_data parse py_str rng (Records []) users' = Ok empty_frame
  /\ D.enrich_product_data parse py_str rng (Frame empty_frame) users' = Ok empty_frame.
Proof.
  assert (H : P.enrich_product_data empty_frame users = Raise (KeyError "userId")).
  { unfold P.enrich_product_data. rewrite select_ok by apply ensure_cols_has.
    reflexivity. }
  repeat split; try exact H; reflexivity.
Qed.




(** ** Reductions *)

Lemma lookup_snoc_inv {A : Type} (pre : list A) (x y : A) (j : nat) :
  (pre ++ [x]) !! j = Some y -> pre !! j = Some y \/ (j = length pre /\ y = x).
Proof.
  intros H. destruct (decide (j < length pre)%nat) as [Hlt|Hge].
  - rewrite lookup_app_l in H by exact Hlt. auto.
  - rewrite lookup_app_r in H by lia.
    destruct (j - length pre)%nat eqn:E; simpl in H; [|destruct n; discriminate].
    injection H as <-. right. split; [lia|reflexivity].
Qed.

Lemma Qlt_bool_iff (x y : Q) : Qlt_bool x y = true <-> x < y.
Proof.
  unfold Qlt_bool. rewrite negb_true_iff. split.
  - intros H. apply Qnot_le_lt. intros Hle. apply Qle_bool_iff in Hle. congruence.
  - intros H. destruct (Qle_bool y x) eqn:E; [|reflexivity].
    apply Qle_bool_iff in E. exfalso. exact (Qlt_not_le _ _ H E).
Qed.

Lemma Qlt_bool_false (x y : Q) : Qlt_bool x y = false -> y <= x.
Proof.
  unfold Qlt_bool. rewrite negb_false_iff. apply Qle_bool_iff.
Qed.

Lemma idxmax_from_spec (l pre : list cell) (best res : option (nat * Q)) :
  best_of pre best ->
  idxmax_from (length pre) best l = Ok res ->
  best_of (pre ++ l) res.
Proof.
  revert pre best. induction l as [|c l IH]; intros pre best Hb H.
  - simpl in H. injection H as <-. rewrite app_nil_r. exact Hb.
  - replace (pre ++ c :: l) with ((pre ++ [c]) ++ l) by (rewrite <- app_assoc; reflexivity).
    destruct c as [|v|s|d]; simpl in H; try discriminate.
    + apply (IH (pre ++ [Null]) best).
      * destruct best as [[i b]|]; simpl in *.
        -- destruct Hb as [Hi Hall]. split.
           ++ rewrite lookup_app_l; [exact Hi|]. eapply lookup_lt_Some, Hi.
           ++ intros j v Hj. apply lookup_snoc_inv in Hj as [Hj|[_ Hj]]; [eauto|discriminate].
        -- intros j v Hj. apply lookup_snoc_inv in Hj as [Hj|[_ Hj]]; [eauto|discriminate].
      * rewrite length_app. simpl. rewrite Nat.add_1_r. exact H.
    + eapply (IH (pre ++ [Num v])).
      2:{ rewrite length_app. simpl. rewrite Nat.add_1_r. exact H. }
      assert (Hnew : (pre ++ [Num v]) !! length pre = Some (Num v)).
      { rewrite lookup_app_r by lia. rewrite Nat.sub_diag. reflexivity. }
      destruct best as [[i b]|]; simpl in Hb.
      * destruct Hb as [Hi Hall].
        pose proof (lookup_lt_Some _ _ _ Hi) as Hlt.
        destruct (Qlt_bool b v) eqn:E.
        -- apply Qlt_bool_iff in E. split; [exact Hnew|].
           intros j w Hj. apply lookup_snoc_inv in Hj as [Hj|[-> Hj]].
           ++ destruct (Hall j w Hj) as [Hle _]. split.
              ** apply Qlt_le_weak. eapply Qle_lt_trans; eassumption.
              ** intros _. eapply Qle_lt_trans; eassumption.
           ++ injection Hj as ->. split; [apply Qle_refl|lia].
        -- apply Qlt_bool_false in E. split.
           ++ rewrite lookup_app_l by exact Hlt. exact Hi.
           ++ intros j w Hj. apply lookup_snoc_inv in Hj as [Hj|[-> Hj]]; [eauto|].
              injection Hj as ->. split; [exact E|lia].
      * split; [exact Hnew|].
        intros j w Hj. apply lookup_snoc_inv in Hj as [Hj|[-> Hj]].
        -- destruct (Hb j w Hj).
        -- injection Hj as ->. split; [apply Qle_refl|lia].
Qed.

(** [idxmax] returns the position of the first occurrence of the largest
    number of the column. *)
Lemma idxmax_spec (l : list cell) (i : nat) :
  idxmax l = Ok i ->
  exists b, l !! i = Some (Num b)
            /\ forall j v, l !! j = Some (Num v) -> v <= b /\ ((j < i)%nat -> v < b).
Proof.
  unfold idxmax. destruct (idxmax_from 0 None l) as [res|] eqn:E; [|discriminate].
  cbn [mbind result_bind]. destruct res as [[i' b]|]; [|discriminate].
  intros [= <-]. exists b.
  apply (idxmax_from_spec l [] None) in E; [exact E|].
  intros j v Hj. discriminate.
Qed.

(** ** Dictionaries *)

Lemma dict_lookup_set_eq {V : Type} (d : list (cell * V)) (k k' : cell) (v : V) :
  key_eqb k k' = true -> dict_lookup (dict_set d k v) k' = Some v.
Proof.
  intros H. induction d as [|[k0 v0] d IH]; simpl.
  - rewrite H. reflexivity.
  - destruct (key_eqb k0 k) eqn:E; simpl.
    + rewrite (key_eqb_trans _ _ _ E H). reflexivity.
    + destruct (key_eqb k0 k') eqn:E'; [|exact IH].
      rewrite key_eqb_sym in H. rewrite (key_eqb_trans _ _ _ E' H) in E. discriminate.
Qed.

Lemma dict_lookup_set_ne {V : Type} (d : list (cell * V)) (k k' : cell) (v : V) :
  key_eqb k k' = false -> dict_lookup (dict_set d k v) k' = dict_lookup d k'.
Proof.
  intros H. induction d as [|[k0 v0] d IH]; simpl.
  - rewrite H. reflexivity.
  - destruct (key_eqb k0 k) eqn:E; simpl.
    + destruct (key_eqb k0 k') eqn:E'; [|reflexivity].
      rewrite key_eqb_sym in E. rewrite (key_eqb_trans _ _ _ E E') in H. discriminate.
    + destruct (key_eqb k0 k'); [reflexivity|exact IH].
Qed.


(** ** Grouping *)

Lemma unique_in (l : list cell) (x : cell) : In x (unique l) -> In x l.
Proof.
  revert x. induction l as [|y l IH]; simpl; intros x H; [exact H|].
  destruct H as [H|H]; [auto|]. apply filter_In in H as [H _]. auto.
Qed.

Lemma unique_repr (l : list cell) (x : cell) :
  In x l -> hashable x = true -> exists y, In y (unique l) /\ key_eqb y x = true.
Proof.
  induction l as [|x0 l IH]; simpl; intros Hin Hh; [destruct Hin|].
  destruct Hin as [->|Hin].
  - exists x. split; [auto|apply key_eqb_refl, Hh].
  - destruct (IH Hin Hh) as (y & Hy & Hyx).
    destruct (key_eqb x0 y) eqn:E.
    + exists x0. split; [auto|]. eapply key_eqb_trans; eassumption.
    + exists y. split; [|exact Hyx]. right. apply filter_In. rewrite E. auto.
Qed.

Lemma distinct_keys_filter (p : cell -> bool) (l : list cell) :
  distinct_keys l = true -> distinct_keys (List.filter p l) = true.
Proof.
  induction l as [|x l IH]; simpl; [reflexivity|].
  intros H. apply andb_prop in H as [Hx Hl].
  destruct (p x); simpl; [|auto].
  rewrite IH by exact Hl. rewrite andb_true_r.
  rewrite forallb_forall in *. intros y Hy. apply filter_In in Hy as [Hy _]. auto.
Qed.

Lemma unique_distinct (l : list cell) : distinct_keys (unique l) = true.
Proof.
  induction l as [|x l IH]; simpl; [reflexivity|].
  rewrite distinct_keys_filter by exact IH. rewrite andb_true_r.
  apply forallb_forall. intros y Hy. apply filter_In in Hy as [_ Hy]. exact Hy.
Qed.

Lemma insert_key_in (k x : cell) (l : list cell) :
  In x (insert_key k l) <-> x = k \/ In x l.
Proof.
  induction l as [|k' l IH]; simpl; [intuition congruence|].
  destruct (key_leb k k'); simpl; [intuition congruence|].
  rewrite IH. intuition congruence.
Qed.

Lemma sort_keys_in (x : cell) (l : list cell) : In x (sort_keys l) <-> In x l.
Proof.
  unfold sort_keys. induction l as [|k l IH]; simpl; [reflexivity|].
  rewrite insert_key_in, IH. intuition congruence.
Qed.

Lemma forallb_insert_key (p : cell -> bool) (k : cell) (l : list cell) :
  forallb p (insert_key k l) = p k && forallb p l.
Proof.
  induction l as [|k' l IH]; simpl; [reflexivity|].
  destruct (key_leb k k'); simpl; [reflexivity|].
  rewrite IH. destruct (p k), (p k'); reflexivity.
Qed.

Lemma distinct_insert_key (k : cell) (l : list cell) :
  distinct_keys (insert_key k l) = distinct_keys (k :: l).
Proof.
  induction l as [|k' l IH]; simpl; [reflexivity|].
  destruct (key_leb k k'); simpl; [reflexivity|].
  rewrite forallb_insert_key, IH. simpl. rewrite (key_eqb_sym k' k).
  destruct (key_eqb k k'), (forallb _ l), (forallb _ l), (distinct_keys l); reflexivity.
Qed.

Lemma sort_keys_distinct (l : list cell) :
  distinct_keys l = true -> distinct_keys (sort_keys l) = true.
Proof.
  unfold sort_keys. induction l as [|k l IH]; simpl; [reflexivity|].
  intros H. apply andb_prop in H as [Hk Hl].
  rewrite distinct_insert_key. simpl. rewrite IH by exact Hl. rewrite andb_true_r.
  rewrite forallb_forall in *. intros y Hy. apply Hk.
  apply (sort_keys_in y l). exact Hy.
Qed.

Lemma groupby_all_inv (df : DataFrame) (by_ : string) (groups : list (cell * list row)) :
  groupby df by_ false = Ok groups ->
  has_col df by_ = true
  /\ forallb (fun r => hashable (get r by_)) (rows df) = true
  /\ groups = map (fun k => (k, group_rows df by_ k))
                  (sort_keys (unique (map (fun r => get r by_) (rows df)))).
Proof.
  unfold groupby, getitem. destruct (has_col df by_); [|discriminate].
  cbn [mbind result_bind].
  destruct (forallb hashable _) eqn:E; [|discriminate].
  intros [= <-]. split; [reflexivity|]. split; [|reflexivity].
  rewrite forallb_forall in *. intros r Hr. apply E, in_map_iff. eauto.
Qed.

(** ** [pipeline/data_analyzer.py]: what the analyzer returns *)

Lemma analyze_unfold (df : DataFrame) :
  is_empty df = false ->
  PA.analyze_seller_performance df
  = (PA.add_missing df,
     groupby (PA.add_missing df) "username" false ≫= foldM PA_body []).
Proof. intros H. unfold PA.analyze_seller_performance. rewrite H. reflexivity. Qed.


Lemma seller_key_proper (a b : cell) :
  key_eqb a b = true -> key_eqb (PA.seller_key a) (PA.seller_key b) = true.
Proof. destruct a, b; simpl; try discriminate; auto. Qed.

Lemma foldM_entry (gs : list (cell * list row)) (d0 perf : list (cell * PA.SellerMetrics))
    (u : cell) (m : PA.SellerMetrics) :
  foldM PA_body d0 gs = Ok perf ->
  dict_lookup perf u = Some m ->
  (exists k g, In (k, g) gs /\ key_eqb (PA.seller_key k) u = true
               /\ PA.seller_metrics g = Ok m)
  \/ dict_lookup d0 u = Some m.
Proof.
  revert d0. induction gs as [|[k0 g0] gs IH]; simpl; intros d0 H Hu.
  - injection H as <-. auto.
  - destruct (PA.seller_metrics g0) as [m0|] eqn:Em; [|discriminate].
    cbn [mbind result_bind] in H.
    destruct (IH _ H Hu) as [(k & g & Hin & Hk & Hm)|Hd].
    + left. exists k, g. auto.
    + destruct (key_eqb (PA.seller_key k0) u) eqn:E.
      * rewrite dict_lookup_set_eq in Hd by exact E. injection Hd as <-.
        left. exists k0, g0. auto.
      * rewrite dict_lookup_set_ne in Hd by exact E. auto.
Qed.


(** Every entry of the mapping is the metrics of the group of some username
    of the analysed frame. *)
Lemma analyze_entry (df : DataFrame) (perf : list (cell * PA.SellerMetrics))
    (u : cell) (m : PA.SellerMetrics) :
  snd (PA.analyze_seller_performance df) = Ok perf ->
  dict_lookup perf u = Some m ->
  exists r0,
    In r0 (rows (fst (PA.analyze_seller_performance df)))
    /\ key_eqb (PA.seller_key (get r0 "username")) u = true
    /\ PA.seller_metrics
         (group_rows (fst (PA.analyze_seller_performance df)) "username" (get r0 "username"))
       = Ok m
    /\ forallb (fun r => hashable (get r "username"))
               (rows (fst (PA.analyze_seller_performance df))) = true.
Proof.
  destruct (is_empty df) eqn:Ee.
  - unfold PA.analyze_seller_performance. rewrite Ee. simpl. intros [= <-]. discriminate.
  - rewrite analyze_unfold by exact Ee. cbn [fst snd].
    destruct (groupby _ _ _) as [groups|] eqn:Eg; [|discriminate].
    cbn [mbind result_bind]. intros Hf Hu.
    apply groupby_all_inv in Eg as (_ & Hh & ->).
    destruct (foldM_entry _ _ _ _ _ Hf Hu) as [(k & g & Hin & Hk & Hm)|Hd]; [|discriminate].
    apply in_map_iff in Hin as (k' & [= -> <-] & Hin).
    apply sort_keys_in, unique_in, in_map_iff in Hin as (r0 & <- & Hr0).
    exists r0. auto.
Qed.


Lemma no_collision (df : DataFrame) (a b : row) :
  collision_free df = true -> In a (rows df) -> In b (rows df) ->
  get a "username" = Null ->
  key_eqb (Str "Unknown Seller") (get b "username") = true -> False.
Proof.
  unfold collision_free. intros Hc Ha Hb Hna Hnb.
  apply negb_true_iff, andb_false_iff in Hc.
  assert (H1 : existsb (fun r => isna (get r "username")) (rows df) = true).
  { apply existsb_exists. exists a. rewrite Hna. auto. }
  assert (H2 : existsb (fun r => key_eqb (Str "Unknown Seller") (get r "username"))
                       (rows df) = true).
  { apply existsb_exists. exists b. auto. }
  destruct Hc; congruence.
Qed.

Lemma seller_key_inj (df : DataFrame) (a b : row) :
  collision_free df = true -> In a (rows df) -> In b (rows df) ->
  key_eqb (PA.seller_key (get a "username")) (PA.seller_key (get b "username")) = true ->
  key_eqb (get a "username") (get b "username") = true.
Proof.
  intros Hc Ha Hb H.
  destruct (get a "username") eqn:Ea, (get b "username") eqn:Eb;
    try discriminate; try exact H; try reflexivity.
  - exfalso. apply (no_collision df a b Hc Ha Hb Ea). rewrite Eb. exact H.
  - exfalso. apply (no_collision df b a Hc Hb Ha Eb). rewrite Ea.
    rewrite key_eqb_sym. exact H.
Qed.

Lemma filter_ext_in' {A : Type} (p q : A -> bool) (l : list A) :
  (forall x, In x l -> p x = q x) -> List.filter p l = List.filter q l.
Proof.
  induction l as [|x l IH]; simpl; intros H; [reflexivity|].
  rewrite (H x (or_introl eq_refl)), IH by auto. reflexivity.
Qed.

(** Without a collision the group of a username is the list of the rows
    reported under its key. *)
Lemma group_is_seller_rows (df : DataFrame) (r0 : row) (u : cell) :
  collision_free df = true ->
  forallb (fun r => hashable (get r "username")) (rows df) = true ->
  In r0 (rows df) ->
  key_eqb (PA.seller_key (get r0 "username")) u = true ->
  group_rows df "username" (get r0 "username") = seller_rows df u.
Proof.
  intros Hc Hh Hr0 Hu. unfold group_rows, seller_rows.
  apply filter_ext_in'. intros r Hr.
  destruct (key_eqb (get r0 "username") (get r "username")) eqn:E.
  - symmetry. apply seller_key_proper in E. rewrite key_eqb_sym in E.
    eapply key_eqb_trans; eassumption.
  - destruct (key_eqb (PA.seller_key (get r "username")) u) eqn:E'; [|reflexivity].
    rewrite key_eqb_sym in E'.
    pose proof (key_eqb_trans _ _ _ Hu E') as H.
    apply (seller_key_inj df r0 r Hc Hr0 Hr) in H. congruence.
Qed.

Lemma seller_metrics_inv (g : list row) (m : PA.SellerMetrics) :
  PA.seller_metrics g = Ok m ->
  exists i mr,
    idxmax (PA.column_of g "revenue") = Ok i
    /\ PA.top_product m = nth i (PA.column_of g "title") Null
    /\ mean_cells (PA.column_of g "rating") = Ok mr
    /\ PA.avg_rating m = round2 <$> mr.
Proof.
  unfold PA.seller_metrics.
  destruct (sum_cells (PA.column_of g "revenue")); [|discriminate]. cbn [mbind result_bind].
  destruct (mean_cells (PA.column_of g "price")); [|discriminate]. cbn [mbind result_bind].
  destruct (forallb hashable _); [|discriminate]. cbn [mbind result_bind].
  destruct (idxmax _) as [i|]; [|discriminate]. cbn [mbind result_bind].
  destruct (mean_cells (PA.column_of g "rating")) as [mr|]; [|discriminate].
  cbn [mbind result_bind].
  destruct (sum_cells (PA.column_of g "quantity")); [|discriminate]. cbn [mbind result_bind].
  intros [= <-]. exists i, mr. auto.
Qed.

(** ** [pipeline/data_analyzer.py]: the analyzer returns *)









Lemma foldl_set_const_mono (df : DataFrame) (cols : list string) (x : string) :
  x ∈ columns df ->
  x ∈ columns (foldl (fun d col => set_const d col (PA.default_value col)) df cols).
Proof.
  revert df. induction cols as [|c cols IH]; simpl; intros df H; [exact H|].
  apply IH, set_const_columns. auto.
Qed.

Lemma foldl_set_const_in (df : DataFrame) (cols : list string) (x : string) :
  In x cols ->
  x ∈ columns (foldl (fun d col => set_const d col (PA.default_value col)) df cols).
Proof.
  revert df. induction cols as [|c cols IH]; simpl; intros df H; [destruct H|].
  destruct H as [->|H]; [|apply IH, H].
  apply foldl_set_const_mono, set_const_columns. auto.
Qed.

(** After the missing-column loop every required column is there. *)
Lemma add_missing_has (df : DataFrame) (c : string) :
  In c PA.required_cols -> has_col (PA.add_missing df) c = true.
Proof.
  intros Hc. apply has_col_true. unfold PA.add_missing.
  destruct (has_col df c) eqn:E.
  - apply foldl_set_const_mono, has_col_true, E.
  - apply foldl_set_const_in. unfold PA.missing_cols. apply filter_In.
    rewrite E. auto.
Qed.


(** * The claims on analysis *)

Lemma sum_cells_numbers (l : list cell) (s : Q) :
  sum_cells l = Ok s -> s = Qsum (numbers l) /\ count_cells l = length (numbers l).
Proof.
  revert s. induction l as [|c l IH]; simpl; intros s H.
  - injection H as <-. auto.
  - destruct c as [|v| |]; try discriminate.
    + apply IH, H.
    + destruct (sum_cells l) as [s'|]; [|discriminate]. cbn [mbind result_bind] in H.
      injection H as <-. destruct (IH s' eq_refl) as [-> ->]. auto.
Qed.

(** [mean] divides the sum of the values that are present by their number. *)
Lemma mean_cells_numbers (l : list cell) (mr : option Q) :
  mean_cells l = Ok mr ->
  mr = match numbers l with
       | [] => None
       | vs => Some (Qsum vs / inject_Z (Z.of_nat (length vs)))
       end.
Proof.
  unfold mean_cells. destruct (sum_cells l) as [s|] eqn:E; [|discriminate].
  cbn [mbind result_bind]. apply sum_cells_numbers in E as [-> Hc].
  rewrite Hc. destruct (numbers l); simpl; congruence.
Qed.

(** C6: without a username column the pipeline analyzer reports every row
    under the key "Unknown", and nothing under "Unknown Seller"; the sibling
    analyzer, without its seller column, reports them under "Unknown Seller". *)
Theorem missing_username_column_key :
  has_col ex_no_username "username" = false
  /\ (exists perf m,
         snd (PA.analyze_seller_performance ex_no_username) = Ok perf
         /\ dict_lookup perf (Str "Unknown") = Some m
         /\ PA.product_count m = length (rows ex_no_username)
         /\ dict_lookup perf (Str "Unknown Seller") = None)
  /\ (exists perf m,
         snd (DA.analyze_seller_performance ex_parse ex_no_username) = Ok perf
         /\ dict_lookup perf (Str "Unknown Seller") = Some m
         /\ dict_lookup perf (Str "Unknown") = None).
Proof.
  split; [vm_compute; reflexivity|]. split.
  - eexists _, _. split; [vm_compute; reflexivity|].
    split; [vm_compute; reflexivity|]. split; vm_compute; reflexivity.
  - eexists _, _. split; [vm_compute; reflexivity|].
    split; vm_compute; reflexivity.
Qed.






(** The pipeline analyzer leaves a frame that has the seven columns as it is. *)
Lemma analyze_keeps_complete_frame (df : DataFrame) :
  PA.missing_cols df = [] -> fst (PA.analyze_seller_performance df) = df.
Proof.
  intros H. unfold PA.analyze_seller_performance.
  destruct (is_empty df); [reflexivity|].
  unfold PA.add_missing. rewrite H. reflexivity.
Qed.

(** C10: the pipeline analyzer writes the columns it misses into the caller's
    frame (here the category column); the sibling analyzer, which works on a
    copy, leaves every frame as it is. *)
Theorem analyze_writes_missing_columns :
  has_col ex_no_category "category" = false
  /\ has_col (fst (PA.analyze_seller_performance ex_no_category)) "category" = true
  /\ fst (PA.analyze_seller_performance ex_no_category) <> ex_no_category
  /\ (forall (parse : string -> option Q) (df : DataFrame),
         fst (DA.analyze_seller_performance parse df) = df).
Proof.
  assert (H1 : has_col ex_no_category "category" = false) by (vm_compute; reflexivity).
  assert (H2 : has_col (fst (PA.analyze_seller_performance ex_no_category)) "category" = true)
    by (vm_compute; reflexivity).
  split; [exact H1|]. split; [exact H2|]. split.
  - intros E. rewrite E in H2. congruence.
  - intros parse df. unfold DA.analyze_seller_performance.
    destruct (is_empty df); reflexivity.
Qed.

(** ** The overall summary *)
















(** ** [pipeline/data_enricher.py]: what a returned frame says about the call *)

Lemma merge_left_checks (left right E : DataFrame) (left_on right_on sfx : string) :
  merge_left left right left_on right_on sfx = Ok E ->
  has_col left left_on = true
  /\ has_col right right_on = true
  /\ forallb (fun c => negb (has_col left (right_label left sfx c))) (columns right) = true.
Proof.
  unfold merge_left.
  destruct (has_col left left_on); cbn [negb]; [|discriminate].
  destruct (has_col right right_on); cbn [negb]; [|discriminate].
  destruct (forallb _ (columns right)); cbn [negb]; [|discriminate].
  auto.
Qed.

Lemma mul_columns_inv (a b v : list cell) :
  mul_columns a b = Ok v -> v = zip_with mul_value a b.
Proof.
  unfold mul_columns. destruct a as [|x a]; [intros [= <-]; reflexivity|].
  destruct (numeric_dtype (x :: a) && numeric_dtype b); [congruence|discriminate].
Qed.

(** Whenever the enricher returns, the product frame had the join key and the
    price, none of its labels was taken by a seller column, and the rows
    returned are the merged rows, each with its quantity and its revenue. *)
Lemma P_enrich_inv (products users out : DataFrame) :
  P.enrich_product_data products users = Ok out ->
  has_col products "userId" = true
  /\ has_col products "price" = true
  /\ forallb (fun c => negb (has_col products (right_label products "_seller" c)))
             P.user_cols = true
  /\ rows out = map (fun m => P_revenue_row (P_quantity_row products m))
                    (merge_rows products (P_users_sel users) "userId" "id" "_seller").
Proof.
  unfold P.enrich_product_data.
  rewrite select_ok by apply ensure_cols_has.
  fold (P_users_sel users). cbn [mbind result_bind].
  destruct (merge_left products (P_users_sel users) "userId" "id" "_seller") as [E|] eqn:Em;
    [|discriminate].
  destruct (merge_left_checks _ _ _ _ _ _ Em) as (Hkey & _ & Hclash).
  apply merge_left_inv in Em. subst E.
  change (columns (P_users_sel users)) with P.user_cols in *.
  cbn [mbind result_bind].
  set (mrows := merge_rows products (P_users_sel users) "userId" "id" "_seller").
  set (enriched := mkFrame _ mrows).
  rewrite (ensure_cols_id enriched).
  2:{ intros c Hc. apply right_label_in. simpl in *. tauto. }
  assert (Hcol : forall x, In x ["rating"; "quantity"; "price"; "revenue"; "userId"]%string ->
                           has_col enriched x = has_col products x).
  { intros x Hx. apply has_col_merged. intros c Hc. apply user_label_other; assumption. }
  rewrite !Hcol by (simpl; auto).
  set (staged := if has_col products "rating" then _ else _).
  assert (Hst : rows staged = map (P_quantity_row products) mrows
                /\ has_col staged "price" = has_col products "price"
                /\ has_col staged "quantity" = true).
  { subst staged. unfold P_quantity_row, set_const.
    destruct (has_col products "rating") eqn:Er; [|destruct (has_col products "quantity") eqn:Eq].
    - rewrite !has_col_set_col, !Hcol by (simpl; auto). simpl.
      rewrite orb_true_r, orb_false_r. auto.
    - rewrite !Hcol, Eq by (simpl; auto). rewrite map_id. auto.
    - rewrite !has_col_set_col, !Hcol by (simpl; auto). simpl.
      rewrite orb_true_r, orb_false_r. auto. }
  destruct Hst as (Hst & Hsp & Hsq).
  unfold getitem. rewrite Hsp, Hsq.
  destruct (has_col products "price"); [|discriminate].
  cbn [mbind result_bind].
  destruct (mul_columns _ _) as [v|] eqn:Ev; [|discriminate].
  apply mul_columns_inv in Ev. subst v. cbn [mbind result_bind].
  rewrite assign_product. intros [= <-].
  split; [exact Hkey|]. split; [reflexivity|]. split; [exact Hclash|].
  unfold set_col. cbn [rows]. rewrite Hst, map_map. reflexivity.
Qed.

Lemma merge_rows_elem_match (left right : DataFrame) (left_on right_on sfx : string)
    (m : row) :
  In m (merge_rows left right left_on right_on sfx) ->
  exists l, In l (rows left)
    /\ ((forall u, In u (rows right) -> key_eqb (get l left_on) (get u right_on) = false)
        /\ m = attach left sfx (columns right) l None
        \/ exists u, In u (rows right)
                     /\ key_eqb (get l left_on) (get u right_on) = true
                     /\ m = attach left sfx (columns right) l (Some u)).
Proof.
  unfold merge_rows. intros H. apply in_flat_map in H as (l & Hl & Hm).
  exists l. split; [exact Hl|]. unfold joined, matches in Hm.
  destruct (List.filter _ (rows right)) as [|m0 ms] eqn:E.
  - destruct Hm as [<-|[]]. left. split; [|reflexivity].
    intros u Hu. destruct (key_eqb (get l left_on) (get u right_on)) eqn:Ek; [|reflexivity].
    assert (Hin : In u (List.filter (fun r => key_eqb (get l left_on) (get r right_on))
                                    (rows right))) by (apply filter_In; auto).
    rewrite E in Hin. destruct Hin.
  - apply in_map_iff in Hm as (u & <- & Hu). rewrite <- E in Hu.
    apply filter_In in Hu as [Hu Hk]. right. eauto.
Qed.

(** With pairwise distinct right keys the merged rows are the left rows, one
    for one and in order. *)
Lemma merge_rows_lookup (left right : DataFrame) (left_on right_on sfx : string)
    (i : nat) (l : row) :
  distinct_keys (map (fun r => get r right_on) (rows right)) = true ->
  rows left !! i = Some l ->
  exists ro, merge_rows left right left_on right_on sfx !! i
             = Some (attach left sfx (columns right) l ro).
Proof.
  intros Hd. unfold merge_rows. revert i.
  induction (rows left) as [|l0 ls IH]; intros i Hi; [discriminate|].
  simpl.
  pose proof (joined_length left right left_on right_on sfx l0 Hd) as Hlen.
  assert (Hj : exists ro, joined left right left_on right_on sfx l0
                          = [attach left sfx (columns right) l0 ro]).
  { unfold joined in *. destruct (matches right right_on (get l0 left_on)) as [|u [|u' us]].
    - exists None. reflexivity.
    - exists (Some u). reflexivity.
    - simpl in Hlen. lia. }
  destruct Hj as [ro0 ->]. destruct i as [|i]; simpl in *.
  - injection Hi as <-. eauto.
  - apply IH, Hi.
Qed.

(** A label of the left frame is not the label a right column is given. *)
Lemma no_clash_label (left : DataFrame) (sfx : string) (rcols : list string) (c x : string) :
  forallb (fun c => negb (has_col left (right_label left sfx c))) rcols = true ->
  In c rcols -> x ∈ columns left -> right_label left sfx c <> x.
Proof.
  intros H Hc Hx E. rewrite forallb_forall in H. specialize (H c Hc).
  rewrite E in H. apply has_col_true in Hx. rewrite Hx in H. discriminate.
Qed.

Lemma user_label_inj (left : DataFrame) (c c' : string) :
  In c P.user_cols -> In c' P.user_cols ->
  right_label left "_seller" c = right_label left "_seller" c' -> c = c'.
Proof.
  unfold right_label. intros Hc Hc'. simpl in Hc, Hc'.
  destruct (has_col left c), (has_col left c');
    repeat (destruct Hc as [<-|Hc];
            [repeat (destruct Hc' as [<-|Hc']; [intros E; vm_compute in E; congruence|]);
             destruct Hc'|]);
    destruct Hc.
Qed.

Lemma attach_some_get (left : DataFrame) (sfx : string) (rcols : list string)
    (l u : row) (c : string) :
  (forall c', In c' rcols -> right_label left sfx c' = right_label left sfx c -> c' = c) ->
  In c rcols ->
  get (attach left sfx rcols l (Some u)) (right_label left sfx c) = get u c.
Proof.
  unfold attach. induction rcols as [|c0 rcols IH]; simpl; intros Hinj H; [destruct H|].
  destruct (decide (right_label left sfx c0 = right_label left sfx c)) as [E|Hne].
  - rewrite E, get_insert_eq. rewrite (Hinj c0 (or_introl eq_refl) E). reflexivity.
  - rewrite get_insert_ne by exact Hne. destruct H as [->|H]; [contradiction|auto].
Qed.

Lemma P_revenue_row_get (m : row) (x : string) :
  x <> "revenue"%string -> get (P_revenue_row m) x = get m x.
Proof. intros H. unfold P_revenue_row. apply get_insert_ne. congruence. Qed.

(** X1: the left join of the pipeline enricher. Every row it returns comes
    from a product row, whose own columns it carries unchanged (quantity and
    revenue apart). Its seller columns are all missing when no user has the
    product's userId as id, and otherwise are the columns of one such user. *)
Theorem enrich_joins_seller_columns (products users out : DataFrame) (r : row) :
  P.enrich_product_data products users = Ok out ->
  In r (rows out) ->
  exists l, In l (rows products)
    /\ (forall x, x ∈ columns products -> x <> "quantity"%string -> x <> "revenue"%string ->
                  get r x = get l x)
    /\ ((forall u, In u (rows (P.ensure_cols users P.user_cols)) ->
                   key_eqb (get l "userId") (get u "id") = false)
        /\ (forall c, In c P.user_cols -> get r (right_label products "_seller" c) = Null)
        \/ exists u, In u (rows (P.ensure_cols users P.user_cols))
                     /\ key_eqb (get l "userId") (get u "id") = true
                     /\ forall c, In c P.user_cols ->
                                  get r (right_label products "_seller" c) = get u c).
Proof.
  intros Hout Hr.
  destruct (P_enrich_inv _ _ _ Hout) as (_ & _ & Hclash & Hrows).
  rewrite Hrows in Hr. apply in_map_iff in Hr as (m & <- & Hm).
  apply merge_rows_elem_match in Hm as (l & Hl & Hm).
  change (columns (P_users_sel users)) with P.user_cols in Hm.
  exists l. split; [exact Hl|].
  assert (Hsel : forall x m', x <> "quantity"%string -> x <> "revenue"%string ->
                   get (P_revenue_row (P_quantity_row products m')) x = get m' x).
  { intros x m' Hq Hv. rewrite P_revenue_row_get, P_quantity_row_get by assumption.
    reflexivity. }
  assert (Hlab : forall c, In c P.user_cols ->
                   right_label products "_seller" c <> "quantity"%string
                   /\ right_label products "_seller" c <> "revenue"%string).
  { intros c Hc. split; apply user_label_other; simpl; auto. }
  split.
  - intros x Hx Hq Hv. rewrite Hsel by assumption.
    assert (E : exists ro, m = attach products "_seller" P.user_cols l ro).
    { destruct Hm as [[_ ->]|(u & _ & _ & ->)]; eauto. }
    destruct E as [ro ->]. apply attach_get_other.
    intros c Hc. apply (no_clash_label _ _ _ _ _ Hclash Hc Hx).
  - destruct Hm as [[Hno ->]|(u & Hu & Hk & ->)].
    + left. split.
      * intros u Hu. rewrite <- (get_restrict P.user_cols u "id") by (simpl; auto).
        apply Hno. unfold P_users_sel. cbn [rows]. apply in_map, Hu.
      * intros c Hc. destruct (Hlab c Hc). rewrite Hsel by assumption.
        apply attach_none_get, Hc.
    + right. unfold P_users_sel in Hu. cbn [rows] in Hu.
      apply in_map_iff in Hu as (u0 & <- & Hu0). exists u0.
      rewrite get_restrict in Hk by (simpl; auto).
      split; [exact Hu0|]. split; [exact Hk|].
      intros c Hc. destruct (Hlab c Hc). rewrite Hsel by assumption.
      rewrite attach_some_get; [apply get_restrict, Hc| |exact Hc].
      intros c' Hc' E. apply (user_label_inj products); assumption.
Qed.


(** X3: with pairwise distinct user ids the rows returned by the pipeline
    enricher are the product rows in their order: the row at each position
    carries the columns of the product row at that position (quantity and
    revenue apart). *)
Theorem enrich_keeps_product_order (products users out : DataFrame) (i : nat) (l : row) :
  P.enrich_product_data products users = Ok out ->
  distinct_keys (P_user_ids users) = true ->
  rows products !! i = Some l ->
  exists r, rows out !! i = Some r
    /\ forall x, x ∈ columns products -> x <> "quantity"%string -> x <> "revenue"%string ->
                 get r x = get l x.
Proof.
  intros Hout Hd Hi.
  destruct (P_enrich_inv _ _ _ Hout) as (_ & _ & Hclash & Hrows).
  rewrite <- P_sel_ids in Hd.
  destruct (merge_rows_lookup products (P_users_sel users) "userId" "id" "_seller" i l Hd Hi)
    as [ro Hm].
  change (columns (P_users_sel users)) with P.user_cols in Hm.
  eexists. split.
  - rewrite Hrows. change (map ?f ?x) with (f <$> x).
    rewrite list_lookup_fmap, Hm. reflexivity.
  - intros x Hx Hq Hv. rewrite P_revenue_row_get, P_quantity_row_get by assumption.
    apply attach_get_other. intros c Hc. apply (no_clash_label _ _ _ _ _ Hclash Hc Hx).
Qed.

Lemma enrich_joins_seller_columns_witness :
  P.enrich_product_data ex_products ex_users = Ok ex_joined
  /\ In ex_joined_row (rows ex_joined)
  /\ exists l, In l (rows ex_products)
       /\ (forall x, x ∈ columns ex_products -> x <> "quantity"%string ->
                     x <> "revenue"%string -> get ex_joined_row x = get l x)
       /\ ((forall u, In u (rows (P.ensure_cols ex_users P.user_cols)) ->
                      key_eqb (get l "userId") (get u "id") = false)
           /\ (forall c, In c P.user_cols ->
                         get ex_joined_row (right_label ex_products "_seller" c) = Null)
           \/ exists u, In u (rows (P.ensure_cols ex_users P.user_cols))
                        /\ key_eqb (get l "userId") (get u "id") = true
                        /\ forall c, In c P.user_cols ->
                             get ex_joined_row (right_label ex_products "_seller" c)
                             = get u c).
Proof.
  assert (Hout : P.enrich_product_data ex_products ex_users = Ok ex_joined)
    by (vm_compute; reflexivity).
  assert (Hr : In ex_joined_row (rows ex_joined)) by (apply nth_In; vm_compute; lia).
  split; [exact Hout|]. split; [exact Hr|].
  exact (enrich_joins_seller_columns ex_products ex_users ex_joined ex_joined_row Hout Hr).
Defined.


Lemma enrich_keeps_product_order_witness :
  exists r, rows ex_joined !! 0%nat = Some r
    /\ forall x, x ∈ columns ex_products -> x <> "quantity"%string -> x <> "revenue"%string ->
                 get r x = get ex_product x.
Proof.
  apply (enrich_keeps_product_order ex_products ex_users ex_joined 0 ex_product);
    vm_compute; reflexivity.
Defined.

(** ** [pipeline/data_enricher.py]: how the enricher fails *)

Lemma mul_columns_raise (a b : list cell) (e : exn) :
  mul_columns a b = Raise e -> e = TypeError.
Proof.
  unfold mul_columns. destruct a as [|x a]; [discriminate|].
  destruct (numeric_dtype (x :: a) && numeric_dtype b); [discriminate|congruence].
Qed.

(** The frame the enricher multiplies on, once the merge has returned. *)
Lemma P_enrich_after_merge (products users : DataFrame) :
  has_col products "userId" = true ->
  forallb (fun c => negb (has_col products (right_label products "_seller" c)))
          P.user_cols = true ->
  join_keys_ok (map (fun r => get r "userId") (rows products)) (P_user_ids users) = true ->
  forallb (fun r => hashable (get r "userId")) (rows products)
  && forallb hashable (P_user_ids users) = true ->
  exists staged,
    rows staged = map (P_quantity_row products)
                      (merge_rows products (P_users_sel users) "userId" "id" "_seller")
    /\ (forall x, x ∈ columns staged
                  <-> x ∈ columns products
                      \/ In x (map (right_label products "_seller") P.user_cols)
                      \/ x = "quantity"%string)
    /\ P.enrich_product_data products users
       = (price ← getitem staged "price";
          quantity ← getitem staged "quantity";
          revenue ← mul_columns price quantity;
          Ok (assign staged "revenue" revenue)).
Proof.
  intros Hkey Hclash Hjoin Hhash.
  unfold P.enrich_product_data.
  rewrite select_ok by apply ensure_cols_has.
  fold (P_users_sel users). cbn [mbind result_bind].
  unfold merge_left. rewrite Hkey. cbn [negb].
  replace (has_col (P_users_sel users) "id") with true by reflexivity. cbn [negb].
  change (columns (P_users_sel users)) with P.user_cols.
  rewrite Hclash. cbn [negb].
  rewrite P_sel_ids, Hjoin. cbn [negb].
  rewrite <- P_sel_ids, forallb_mapped in Hhash. rewrite Hhash. cbn [negb mbind result_bind].
  set (mrows := merge_rows products (P_users_sel users) "userId" "id" "_seller").
  set (enriched := mkFrame _ mrows).
  rewrite (ensure_cols_id enriched).
  2:{ intros c Hc. apply right_label_in. simpl in *. tauto. }
  assert (Hcol : forall x, In x ["rating"; "quantity"; "price"; "revenue"; "userId"]%string ->
                           has_col enriched x = has_col products x).
  { intros x Hx. apply has_col_merged. intros c Hc. apply user_label_other; assumption. }
  rewrite !Hcol by (simpl; auto).
  assert (Hen : forall x, x ∈ columns enriched
                          <-> x ∈ columns products
                              \/ In x (map (right_label products "_seller") P.user_cols)).
  { intros x. subst enriched. cbn [columns]. rewrite elem_of_app, <- !list_elem_of_In.
    reflexivity. }
  set (staged := if has_col products "rating" then _ else _).
  exists staged. split; [|split; [|reflexivity]].
  - subst staged. unfold P_quantity_row, set_const.
    destruct (has_col products "rating"); [|destruct (has_col products "quantity")];
      cbn [set_col rows]; [reflexivity|rewrite map_id; reflexivity|reflexivity].
  - intros x. subst staged.
    destruct (has_col products "rating") eqn:Er; [|destruct (has_col products "quantity") eqn:Eq].
    + rewrite <- has_col_true, has_col_set_col, orb_true_iff, has_col_true, Hen.
      rewrite bool_decide_eq_true. tauto.
    + rewrite Hen. split; [tauto|]. intros [H|[H| ->]]; auto.
      left. apply has_col_true, Eq.
    + unfold set_const.
      rewrite <- has_col_true, has_col_set_col, orb_true_iff, has_col_true, Hen.
      rewrite bool_decide_eq_true. tauto.
Qed.

(** Every way in which the enricher raises. *)
Lemma P_enrich_raise_inv (products users : DataFrame) (e : exn) :
  P.enrich_product_data products users = Raise e ->
  has_col products "userId" = false /\ e = KeyError "userId"
  \/ e = MergeError
     /\ forallb (fun c => negb (has_col products (right_label products "_seller" c)))
                P.user_cols = false
  \/ e = ValueError
  \/ e = TypeError
  \/ has_col products "price" = false /\ e = KeyError "price".
Proof.
  intros H.
  destruct (has_col products "userId") eqn:Hkey.
  2:{ left. split; [reflexivity|].
      unfold P.enrich_product_data in H.
      rewrite select_ok in H by apply ensure_cols_has. cbn [mbind result_bind] in H.
      unfold merge_left in H. rewrite Hkey in H. cbn [negb mbind result_bind] in H.
      congruence. }
  destruct (forallb (fun c => negb (has_col products (right_label products "_seller" c)))
                    P.user_cols) eqn:Hclash.
  2:{ right. left. split; [|reflexivity].
      unfold P.enrich_product_data in H.
      rewrite select_ok in H by apply ensure_cols_has. cbn [mbind result_bind] in H.
      unfold merge_left in H. rewrite Hkey in H. cbn [negb] in H.
      replace (has_col _ "id") with true in H by reflexivity. cbn [negb] in H.
      change (columns (mkFrame P.user_cols _)) with P.user_cols in H.
      rewrite Hclash in H. cbn [negb mbind result_bind] in H. congruence. }
  destruct (join_keys_ok (map (fun r => get r "userId") (rows products)) (P_user_ids users))
    eqn:Hjoin.
  2:{ right. right. left.
      unfold P.enrich_product_data in H.
      rewrite select_ok in H by apply ensure_cols_has.
      fold (P_users_sel users) in H. cbn [mbind result_bind] in H.
      unfold merge_left in H. rewrite Hkey in H. cbn [negb] in H.
      replace (has_col _ "id") with true in H by reflexivity. cbn [negb] in H.
      change (columns (P_users_sel users)) with P.user_cols in H.
      rewrite Hclash in H. cbn [negb] in H.
      rewrite P_sel_ids, Hjoin in H. cbn [negb mbind result_bind] in H. congruence. }
  destruct (forallb (fun r => hashable (get r "userId")) (rows products)
            && forallb hashable (P_user_ids users)) eqn:Hhash.
  2:{ right. right. right. left.
      unfold P.enrich_product_data in H.
      rewrite select_ok in H by apply ensure_cols_has.
      fold (P_users_sel users) in H. cbn [mbind result_bind] in H.
      unfold merge_left in H. rewrite Hkey in H. cbn [negb] in H.
      replace (has_col _ "id") with true in H by reflexivity. cbn [negb] in H.
      change (columns (P_users_sel users)) with P.user_cols in H.
      rewrite Hclash in H. cbn [negb] in H.
      rewrite P_sel_ids, Hjoin in H. cbn [negb] in H.
      rewrite <- P_sel_ids, forallb_mapped in Hhash. rewrite Hhash in H.
      cbn [negb mbind result_bind] in H. congruence. }
  destruct (P_enrich_after_merge products users Hkey Hclash Hjoin Hhash)
    as (staged & _ & Hcols & Heq).
  rewrite Heq in H. revert H. unfold getitem.
  destruct (has_col staged "price") eqn:Hp.
  - replace (has_col staged "quantity") with true
      by (symmetry; apply has_col_true, Hcols; auto).
    cbn [mbind result_bind]. destruct (mul_columns _ _) eqn:Em; [discriminate|].
    cbn [mbind result_bind]. intros [= <-]. apply mul_columns_raise in Em. auto.
  - cbn [mbind result_bind]. intros [= <-]. right. right. right. right.
    split; [|reflexivity].
    destruct (has_col products "price") eqn:Hpp; [|reflexivity].
    apply has_col_true in Hpp. rewrite <- Hp. symmetry. apply has_col_true, Hcols. auto.
Qed.

(** X4: the KeyErrors of the pipeline enricher. It raises KeyError('userId')
    exactly when the product frame has no userId column, whatever the users
    frame is; the only other KeyError it raises is KeyError('price'), on a
    product frame without a price column; and on such a frame it never
    returns. No column missing from the users frame makes it raise a
    KeyError. *)
Theorem enrich_key_errors (products users : DataFrame) :
  (P.enrich_product_data products users = Raise (KeyError "userId")
   <-> has_col products "userId" = false)
  /\ (forall k, P.enrich_product_data products users = Raise (KeyError k) ->
                k = "userId"%string
                \/ (k = "price"%string /\ has_col products "price" = false))
  /\ (has_col products "price" = false ->
      forall out, P.enrich_product_data products users <> Ok out).
Proof.
  split; [split|split].
  - intros H. apply P_enrich_raise_inv in H as [[H _]|[[H _]|[H|[H|[_ H]]]]];
      [exact H|discriminate..].
  - intros H. unfold P.enrich_product_data.
    rewrite select_ok by apply ensure_cols_has. cbn [mbind result_bind].
    unfold merge_left. rewrite H. reflexivity.
  - intros k H. apply P_enrich_raise_inv in H as [[_ H]|[[H _]|[H|[H|[Hp H]]]]];
      try discriminate.
    + left. congruence.
    + right. split; [congruence|exact Hp].
  - intros H out Hout. destruct (P_enrich_inv _ _ _ Hout) as (_ & Hp & _). congruence.
Qed.

Lemma enrich_key_errors_witness :
  P.enrich_product_data empty_frame ex_users = Raise (KeyError "userId")
  /\ forall out, P.enrich_product_data empty_frame ex_users <> Ok out.
Proof.
  destruct (enrich_key_errors empty_frame ex_users) as ([_ Hk] & _ & Hp).
  split; [apply Hk|apply Hp]; vm_compute; reflexivity.
Defined.

(** ** [pipeline/api_client.py]: the page loop *)

Lemma collected_snoc (fetch : nat -> AC.response) (n : nat) :
  collected fetch (S n) = collected fetch n ++ page_products (fetch (S n)).
Proof.
  unfold collected. rewrite seq_S, flat_map_app. simpl. rewrite app_nil_r. reflexivity.
Qed.

(** The loop, started at page [S k] with the pages up to [k] collected, when
    page [S n] is the first to stop it. *)
Lemma loop_stops (fetch : nat -> AC.response) (n : nat) :
  first_stop fetch n ->
  forall d k fuel, (k + d = n)%nat ->
    AC.get_all_products_from fetch fuel (S k) (collected fetch k)
    = if (d <? fuel)%nat then Some (collected fetch n) else None.
Proof.
  intros [Hfull Hstop]. induction d as [|d IH]; intros k fuel Hk.
  - replace k with n by lia. destruct fuel as [|fuel]; [reflexivity|]. simpl.
    destruct Hstop as [-> | ->]; reflexivity.
  - destruct fuel as [|fuel]; [reflexivity|]. simpl.
    destruct (Hfull (S k)) as (ps & Hps & Hne); [lia|].
    rewrite Hps. destruct ps as [|p ps]; [contradiction|]. cbn [is_nil].
    replace (collected fetch k ++ p :: ps) with (collected fetch (S k))
      by (rewrite collected_snoc, Hps; reflexivity).
    rewrite (IH (S k) fuel) by lia.
    change (S d <? S fuel)%nat with (d <? fuel)%nat. reflexivity.
Qed.

Lemma loop_runs (fetch : nat -> AC.response) (fuel k : nat) (acc : list row) :
  (forall p, (S k <= p < S k + fuel)%nat -> page_full fetch p) ->
  AC.get_all_products_from fetch fuel (S k) acc = None.
Proof.
  revert k acc. induction fuel as [|fuel IH]; intros k acc H; [reflexivity|]. simpl.
  destruct (H (S k)) as (ps & -> & Hne); [lia|].
  destruct ps as [|p ps]; [contradiction|]. cbn [is_nil].
  apply IH. intros q Hq. apply H. lia.
Qed.

(** Some page stops the loop, or the first [fuel] pages are all full. *)
Lemma stop_or_full (fetch : nat -> AC.response) (fuel : nat) :
  (exists n, (n < fuel)%nat /\ first_stop fetch n)
  \/ (forall p, (1 <= p < 1 + fuel)%nat -> page_full fetch p).
Proof.
  induction fuel as [|fuel IH]; [right; intros p Hp; lia|].
  destruct IH as [(n & Hn & Hs)|Hfull]; [left; exists n; split; [lia|exact Hs]|].
  assert (Hdec : page_full fetch (S fuel)
                 \/ (fetch (S fuel) = AC.Failed \/ fetch (S fuel) = AC.Json [])).
  { unfold page_full. destruct (fetch (S fuel)) as [|[|p ps]]; auto.
    left. eexists. split; [reflexivity|discriminate]. }
  destruct Hdec as [Hf|Hs].
  - right. intros p Hp. destruct (decide (p = S fuel)) as [->|Hne]; [exact Hf|].
    apply Hfull. lia.
  - left. exists fuel. split; [lia|]. split; [|exact Hs].
    intros p Hp. apply Hfull. lia.
Qed.

(** X5: the page loop of [get_all_products]. It returns exactly when some
    page fails or comes back empty, and what it returns is the products of
    the pages before the first such page, in page order: it never raises,
    and a failed page gives up silently with what was collected so far. Page
    [S n] being the first such page, [n + 1] requests are made. *)
Theorem get_all_products_returns (fetch : nat -> AC.response) (fuel : nat)
    (products : list row) :
  AC.get_all_products fetch fuel = Some products
  <-> exists n, (n < fuel)%nat /\ first_stop fetch n /\ products = collected fetch n.
Proof.
  unfold AC.get_all_products. change (@nil row) with (collected fetch 0). split.
  - intros H. destruct (stop_or_full fetch fuel) as [(n & Hn & Hs)|Hfull].
    + exists n. split; [exact Hn|]. split; [exact Hs|].
      rewrite (loop_stops fetch n Hs n 0 fuel) in H by lia.
      apply Nat.ltb_lt in Hn. rewrite Hn in H. congruence.
    + rewrite loop_runs in H by exact Hfull. discriminate.
  - intros (n & Hn & Hs & ->). rewrite (loop_stops fetch n Hs n 0 fuel) by lia.
    apply Nat.ltb_lt in Hn. rewrite Hn. reflexivity.
Qed.

(** X6: against a server on which every page holds a product (one that
    ignores the page number, say), the loop of [get_all_products] never
    returns: it is still running after any number of requests. *)
Theorem get_all_products_never_returns (fetch : nat -> AC.response) :
  (forall p, (1 <= p)%nat -> page_full fetch p) ->
  forall fuel, AC.get_all_products fetch fuel = None.
Proof.
  intros H fuel. unfold AC.get_all_products. apply loop_runs. intros p Hp. apply H. lia.
Qed.

Lemma get_all_products_never_returns_witness :
  page_full ex_same_page 1 /\ forall fuel, AC.get_all_products ex_same_page fuel = None.
Proof.
  assert (H : forall p, (1 <= p)%nat -> page_full ex_same_page p).
  { intros p _. exists [ex_product]. split; [reflexivity|discriminate]. }
  split; [apply H; lia|]. apply (get_all_products_never_returns ex_same_page H).
Defined.

Lemma get_all_products_returns_witness :
  AC.get_all_products ex_two_pages 3 = Some (collected ex_two_pages 2).
Proof.
  apply (get_all_products_returns ex_two_pages 3). exists 2%nat.
  split; [lia|]. split; [|reflexivity]. split; [|right; reflexivity].
  intros p Hp. assert (Hp' : p = 1%nat \/ p = 2%nat) by lia.
  destruct Hp' as [-> | ->]; exists [ex_product]; split; (reflexivity || discriminate).
Defined.

(** ** [pipeline/api_client.py]: the normalised records *)

Lemma mapM_lookup {A B : Type} (f : A -> option B) (l : list A) (k : list B) :
  mapM f l = Some k ->
  length k = length l
  /\ forall i x, l !! i = Some x -> exists y, k !! i = Some y /\ f x = Some y.
Proof.
  intros H. apply mapM_Some in H. split.
  - symmetry. eapply Forall2_length, H.
  - intros i x Hx. destruct (Forall2_lookup_l _ _ _ _ _ H Hx) as (y & Hy & Hf). eauto.
Qed.

Lemma mapM_elem {A B : Type} (f : A -> option B) (l : list A) (k : list B) (y : B) :
  mapM f l = Some k -> In y k -> exists x, In x l /\ f x = Some y.
Proof.
  intros H Hy. apply mapM_Some in H.
  apply list_elem_of_In, list_elem_of_lookup in Hy as [i Hi].
  destruct (Forall2_lookup_r _ _ _ _ _ H Hi) as (x & Hx & Hf).
  exists x. split; [|exact Hf]. apply list_elem_of_In. eapply list_elem_of_lookup_2, Hx.
Qed.

Lemma mapM_defined {A B : Type} (f : A -> option B) (l : list A) :
  is_Some (mapM f l) <-> forall x, In x l -> is_Some (f x).
Proof.
  rewrite mapM_is_Some, Forall_forall. split; intros H x Hx; apply H, list_elem_of_In, Hx.
Qed.

(** [x or {}] is a dictionary exactly when [x] is falsy or one, and then it
    is [dict_of x]. *)
Lemma or_empty_dict_get (c : cell) :
  has_get c = true -> AC.or_empty_dict c = Dict (dict_of c).
Proof.
  unfold has_get, AC.or_empty_dict.
  destruct c as [|q|s|d]; simpl.
  - reflexivity.
  - destruct (Qeq_bool q 0); [reflexivity|discriminate].
  - destruct (String.eqb s ""); [reflexivity|discriminate].
  - intros _. destruct d; reflexivity.
Qed.

Lemma or_empty_dict_no_get (c : cell) :
  has_get c = false -> isinstance_dict (AC.or_empty_dict c) = false.
Proof.
  unfold has_get, AC.or_empty_dict. intros H. apply orb_false_iff in H as [Ht Hd].
  apply negb_false_iff in Ht. rewrite Ht. exact Hd.
Qed.

Lemma normalize_product_ok (item : row) :
  has_get (get item "rating") = true ->
  AC.normalize_product item
  = Some (list_to_map
            [("id", get item "id"); ("price", get item "price");
             ("category", get item "category"); ("userId", get item "userId");
             ("quantity", default (Num 0) (dict_get (dict_of (get item "rating")) "count"));
             ("rating", default Null (dict_get (dict_of (get item "rating")) "rate"))]%string).
Proof. intros H. unfold AC.normalize_product. rewrite or_empty_dict_get by exact H. reflexivity. Qed.

Lemma normalize_product_defined (item : row) :
  is_Some (AC.normalize_product item) <-> has_get (get item "rating") = true.
Proof.
  split.
  - intros [p Hp]. destruct (has_get (get item "rating")) eqn:E; [reflexivity|].
    apply or_empty_dict_no_get in E. unfold AC.normalize_product in Hp.
    destruct (AC.or_empty_dict _); try discriminate.
  - intros H. rewrite normalize_product_ok by exact H. eauto.
Qed.

Lemma normalize_user_ok (item : row) :
  has_get (get item "name") = true ->
  AC.normalize_user item
  = Some (list_to_map
            [("email", get item "email"); ("username", get item "username");
             ("first_name", default Null (dict_get (dict_of (get item "name")) "firstname"));
             ("last_name", default Null (dict_get (dict_of (get item "name")) "lastname"));
             ("id", get item "id")]%string).
Proof. intros H. unfold AC.normalize_user. rewrite or_empty_dict_get by exact H. reflexivity. Qed.

Lemma normalize_user_defined (item : row) :
  is_Some (AC.normalize_user item) <-> has_get (get item "name") = true.
Proof.
  split.
  - intros [p Hp]. destruct (has_get (get item "name")) eqn:E; [reflexivity|].
    apply or_empty_dict_no_get in E. unfold AC.normalize_user in Hp.
    destruct (AC.or_empty_dict _); try discriminate.
  - intros H. rewrite normalize_user_ok by exact H. eauto.
Qed.

(** The keys and the cells of a record written as a dictionary display. *)
Lemma record_keys (kvs : list (string * cell)) (c : string) :
  is_Some ((list_to_map kvs : row) !! c) <-> In c (map fst kvs).
Proof.
  induction kvs as [|[k v] kvs IH]; simpl.
  - rewrite lookup_empty. split; [intros [x Hx]; discriminate|tauto].
  - rewrite lookup_insert_is_Some', IH. reflexivity.
Qed.

(** X7: when the normalisations raise. [normalize_products] returns unless
    the rating of some item is truthy and no dictionary (a non-zero number,
    a non-empty string), in which case its [get] is an AttributeError;
    [normalize_users] likewise on the name of a user. A missing, null or
    empty rating or name never raises. *)
Theorem normalize_raises_on_scalar (products users : list row) :
  (AC.normalize_products products = None
   <-> exists item, In item products /\ has_get (get item "rating") = false)
  /\ (AC.normalize_users users = None
      <-> exists item, In item users /\ has_get (get item "name") = false).
Proof.
  assert (H : forall (f : row -> option row) (key : string) (l : list row),
            (forall item, is_Some (f item) <-> has_get (get item key) = true) ->
            mapM f l = None <-> exists item, In item l /\ has_get (get item key) = false).
  { intros f key l Hf. rewrite eq_None_not_Some, mapM_defined. split.
    - intros Hn. induction l as [|x l IH].
      + destruct Hn. intros x [].
      + destruct (has_get (get x key)) eqn:E.
        * destruct IH as (item & Hin & Hi).
          -- intros Hall. apply Hn. intros y [<-|Hy]; [apply Hf, E|apply Hall, Hy].
          -- exists item. split; [right; exact Hin|exact Hi].
        * exists x. split; [left; reflexivity|exact E].
    - intros (item & Hin & Hi) Hall. apply Hall, Hf in Hin. congruence. }
  split; apply H; [apply normalize_product_defined|apply normalize_user_defined].
Qed.

(** X8: what [normalize_products] returns. One record per item, in order;
    every record has the same six keys, whatever keys the item had; id, price,
    category and userId are the item's (missing when the item has none), the
    quantity is the count of the item's rating, 0 without one, and the rating
    is replaced by its rate, missing without one. *)
Theorem normalize_products_records (raw products : list row) :
  AC.normalize_products raw = Some products ->
  length products = length raw
  /\ forall i item, raw !! i = Some item ->
       exists p, products !! i = Some p
         /\ (forall c, is_Some (p !! c) <-> In c product_keys)
         /\ (forall c, In c ["id"; "price"; "category"; "userId"]%string ->
                       get p c = get item c)
         /\ get p "quantity" = default (Num 0) (dict_get (dict_of (get item "rating")) "count")
         /\ get p "rating" = default Null (dict_get (dict_of (get item "rating")) "rate").
Proof.
  intros H. apply mapM_lookup in H as [Hlen Hall]. split; [exact Hlen|].
  intros i item Hi. destruct (Hall i item Hi) as (p & Hp & Hn).
  exists p. split; [exact Hp|].
  assert (Hg : has_get (get item "rating") = true)
    by (apply normalize_product_defined; eauto).
  rewrite normalize_product_ok in Hn by exact Hg.
  match type of Hn with Some (list_to_map ?k) = _ => set (kvs := k) in Hn end.
  assert (E : p = list_to_map kvs) by congruence.
  split; [intros c; rewrite E; apply (record_keys kvs)|].
  rewrite E. split; [|split; reflexivity].
  intros c Hc. simpl in Hc.
  repeat (destruct Hc as [<-|Hc]; [reflexivity|]). destruct Hc.
Qed.

Lemma normalize_products_records_witness :
  AC.normalize_products [ex_product] = Some ex_normal_products
  /\ length ex_normal_products = length [ex_product]
  /\ forall i item, [ex_product] !! i = Some item ->
       exists p, ex_normal_products !! i = Some p
         /\ (forall c, is_Some (p !! c) <-> In c product_keys)
         /\ (forall c, In c ["id"; "price"; "category"; "userId"]%string ->
                       get p c = get item c)
         /\ get p "quantity" = default (Num 0) (dict_get (dict_of (get item "rating")) "count")
         /\ get p "rating" = default Null (dict_get (dict_of (get item "rating")) "rate").
Proof.
  assert (H : AC.normalize_products [ex_product] = Some ex_normal_products)
    by (vm_compute; reflexivity).
  split; [exact H|]. exact (normalize_products_records [ex_product] ex_normal_products H).
Defined.

(** ** [get_dataframes], then the enricher *)

Lemma record_labels_elem (data : list row) (c : string) :
  c ∈ P.record_labels data <-> exists r, In r data /\ is_Some (r !! c).
Proof.
  unfold P.record_labels. rewrite elem_of_remove_dups, list_elem_of_In, in_concat. split.
  - intros (ks & Hks & Hc). apply in_map_iff in Hks as (r & <- & Hr).
    exists r. split; [exact Hr|].
    apply list_elem_of_In, list_elem_of_fmap in Hc as ([k v] & -> & Hkv).
    apply elem_of_map_to_list in Hkv. simpl. eauto.
  - intros (r & Hr & [v Hv]). exists ((map_to_list r).*1). split.
    + apply in_map_iff. eauto.
    + apply list_elem_of_In, list_elem_of_fmap. exists (c, v). split; [reflexivity|].
      apply elem_of_map_to_list, Hv.
Qed.

Lemma has_col_to_dataframe (data : list row) (c : string) :
  has_col (P.to_dataframe data) c = true <-> exists r, In r data /\ is_Some (r !! c).
Proof.
  rewrite has_col_true. destruct data as [|r0 data].
  - simpl. split; [intros H; apply elem_of_nil in H; destruct H|intros (r & [] & _)].
  - apply record_labels_elem.
Qed.

(** A frame built from records that all have the keys [keys] has exactly
    these labels. *)
Lemma has_col_uniform (data : list row) (keys : list string) (c : string) :
  data <> [] ->
  (forall r, In r data -> forall x, is_Some (r !! x) <-> In x keys) ->
  has_col (P.to_dataframe data) c = bool_decide (c ∈ keys).
Proof.
  intros Hne Hk. apply eq_true_iff_eq.
  rewrite has_col_to_dataframe, bool_decide_eq_true, list_elem_of_In. split.
  - intros (r & Hr & Hc). apply (Hk r Hr), Hc.
  - intros Hc. destruct data as [|r data]; [contradiction|].
    exists r. split; [left; reflexivity|]. apply (Hk r (or_introl eq_refl)), Hc.
Qed.

Lemma normalize_products_keys (raw products : list row) (p : row) :
  AC.normalize_products raw = Some products -> In p products ->
  (forall x, is_Some (p !! x) <-> In x product_keys)
  /\ exists item, In item raw
       /\ get p "rating" = default Null (dict_get (dict_of (get item "rating")) "rate").
Proof.
  intros H Hp. destruct (mapM_elem _ _ _ _ H Hp) as (item & Hitem & Hn).
  assert (Hg : has_get (get item "rating") = true)
    by (apply normalize_product_defined; eauto).
  rewrite normalize_product_ok in Hn by exact Hg.
  match type of Hn with Some (list_to_map ?k) = _ => set (kvs := k) in Hn end.
  assert (E : p = list_to_map kvs) by congruence.
  split; [intros x; rewrite E; apply (record_keys kvs)|].
  exists item. split; [exact Hitem|]. rewrite E. reflexivity.
Qed.

Lemma normalize_products_nil (raw products : list row) :
  AC.normalize_products raw = Some products -> raw <> [] -> products <> [].
Proof.
  intros H Hne E. apply mapM_lookup in H as [Hlen _]. rewrite E in Hlen.
  destruct raw; [contradiction|discriminate].
Qed.

Lemma get_dataframes_inv (products_raw users_raw : list row) (pdf udf : DataFrame) :
  AC.get_dataframes products_raw users_raw = Some (pdf, udf) ->
  exists products users,
    AC.normalize_products products_raw = Some products
    /\ AC.normalize_users users_raw = Some users
    /\ pdf = P.to_dataframe products /\ udf = P.to_dataframe users.
Proof.
  unfold AC.get_dataframes.
  destruct (AC.normalize_products products_raw) as [products|]; [|discriminate].
  destruct (AC.normalize_users users_raw) as [users|]; [|discriminate].
  simpl. intros [= <- <-]. eauto 10.
Qed.

(** X9: the frames of [get_dataframes] fit the enricher's labels. A product
    frame built from at least one product has exactly the six normalised
    labels, and on the two frames the pipeline enricher raises no KeyError
    and meets no label clash: when it fails, it is on the types of the cells
    (a ValueError of the merge on join keys of different dtypes, or a
    TypeError). *)
Theorem dataframes_fit_enricher (products_raw users_raw : list row) (pdf udf : DataFrame) :
  AC.get_dataframes products_raw users_raw = Some (pdf, udf) ->
  products_raw <> [] ->
  (forall c, has_col pdf c = true <-> In c product_keys)
  /\ forall e, P.enrich_product_data pdf udf = Raise e -> e = ValueError \/ e = TypeError.
Proof.
  intros H Hne.
  destruct (get_dataframes_inv _ _ _ _ H) as (products & users & Hp & _ & -> & ->).
  assert (Hcol : forall c, has_col (P.to_dataframe products) c = bool_decide (c ∈ product_keys)).
  { intros c. apply has_col_uniform.
    - eapply normalize_products_nil; eauto.
    - intros r Hr. apply (normalize_products_keys _ _ _ Hp Hr). }
  split.
  - intros c. rewrite Hcol, bool_decide_eq_true. apply list_elem_of_In.
  - intros e He.
    apply P_enrich_raise_inv in He as [[He _]|[[_ He]|[He|[He|[He _]]]]]; auto.
    + rewrite Hcol in He. discriminate.
    + unfold right_label in He. cbn [P.user_cols forallb] in He.
      rewrite !Hcol in He. discriminate.
    + rewrite Hcol in He. discriminate.
Qed.

Lemma dataframes_fit_enricher_witness :
  AC.get_dataframes [ex_product] [ex_alice] = Some ex_frames
  /\ (forall c, has_col (fst ex_frames) c = true <-> In c product_keys)
  /\ forall e, P.enrich_product_data (fst ex_frames) (snd ex_frames) = Raise e ->
               e = ValueError \/ e = TypeError.
Proof.
  assert (H : AC.get_dataframes [ex_product] [ex_alice]
              = Some (fst ex_frames, snd ex_frames)) by (vm_compute; reflexivity).
  split; [exact H|].
  apply (dataframes_fit_enricher [ex_product] [ex_alice] _ _ H). discriminate.
Defined.



(** ** [pipeline/pipeline.py]: the analysis and the summary on one frame *)

Lemma merge_left_guards (left right E : DataFrame) (left_on right_on sfx : string) :
  merge_left left right left_on right_on sfx = Ok E ->
  join_keys_ok (map (fun r => get r left_on) (rows left))
               (map (fun r => get r right_on) (rows right)) = true
  /\ forallb (fun r => hashable (get r left_on)) (rows left)
     && forallb (fun r => hashable (get r right_on)) (rows right) = true.
Proof.
  unfold merge_left.
  destruct (has_col left left_on); cbn [negb]; [|discriminate].
  destruct (has_col right right_on); cbn [negb]; [|discriminate].
  destruct (forallb _ (columns right)); cbn [negb]; [|discriminate].
  destruct (join_keys_ok _ _); cbn [negb]; [|discriminate].
  destruct (forallb _ (rows left) && _); cbn [negb]; [|discriminate].
  auto.
Qed.

(** The labels of the frame the enricher returns: those of the product
    frame, the seller labels, quantity and revenue. *)
Lemma P_enrich_columns (products users out : DataFrame) (x : string) :
  P.enrich_product_data products users = Ok out ->
  x ∈ columns out
  <-> x ∈ columns products
      \/ In x (map (right_label products "_seller") P.user_cols)
      \/ x = "quantity"%string \/ x = "revenue"%string.
Proof.
  intros H.
  assert (Hm : exists E, merge_left products (P_users_sel users) "userId" "id" "_seller"
                         = Ok E).
  { unfold P.enrich_product_data in H. rewrite select_ok in H by apply ensure_cols_has.
    fold (P_users_sel users) in H. cbn [mbind result_bind] in H.
    destruct (merge_left _ _ _ _ _); [eauto|discriminate]. }
  destruct Hm as [E Hm].
  destruct (merge_left_checks _ _ _ _ _ _ Hm) as (Hkey & _ & Hclash).
  destruct (merge_left_guards _ _ _ _ _ _ Hm) as (Hjoin & Hhash).
  change (columns (P_users_sel users)) with P.user_cols in Hclash.
  rewrite P_sel_ids in Hjoin.
  rewrite <- (forallb_mapped hashable (fun r : row => get r "id")), P_sel_ids in Hhash.
  destruct (P_enrich_after_merge products users Hkey Hclash Hjoin Hhash)
    as (staged & _ & Hcols & Heq).
  rewrite Heq in H. unfold getitem in H.
  destruct (has_col staged "price"); [|discriminate].
  destruct (has_col staged "quantity"); [|discriminate].
  cbn [mbind result_bind] in H.
  destruct (mul_columns _ _) as [v|]; [|discriminate].
  cbn [mbind result_bind] in H. injection H as <-.
  unfold assign. cbn [columns]. destruct (has_col staged "revenue") eqn:Er.
  - rewrite Hcols. split; [tauto|]. intros [Hx|[Hx|[Hx|Hx]]]; auto.
    subst x. apply Hcols, has_col_true, Er.
  - rewrite elem_of_app, list_elem_of_singleton, Hcols. tauto.
Qed.

Lemma P_enrich_has (products users out : DataFrame) (x : string) :
  P.enrich_product_data products users = Ok out ->
  In x ["username"; "quantity"; "revenue"; "price"]%string ->
  has_col out x = true.
Proof.
  intros H Hx. apply has_col_true, (P_enrich_columns _ _ _ _ H).
  simpl in Hx. destruct Hx as [<-|[<-|[<-|[<-|[]]]]]; auto.
  - destruct (has_col products "username") eqn:E.
    + left. apply has_col_true, E.
    + right. left. apply in_map_iff. exists "username"%string.
      unfold right_label. rewrite E. simpl. auto.
  - left. apply has_col_true. apply (P_enrich_inv _ _ _ H).
Qed.

Lemma sum_cells_inv (l : list cell) (s : Q) :
  sum_cells l = Ok s -> forallb numeric l = true.
Proof.
  revert s. induction l as [|c l IH]; simpl; intros s H; [reflexivity|].
  destruct c; try discriminate; simpl.
  - eapply IH, H.
  - destruct (sum_cells l) as [s'|]; [|discriminate]. eapply IH. reflexivity.
Qed.

Lemma foldM_each (gs : list (cell * list row)) (d0 perf : list (cell * PA.SellerMetrics))
    (k : cell) (g : list row) :
  foldM PA_body d0 gs = Ok perf -> In (k, g) gs -> exists m, PA.seller_metrics g = Ok m.
Proof.
  revert d0. induction gs as [|[k0 g0] gs IH]; simpl; intros d0 H Hin; [destruct Hin|].
  destruct (PA.seller_metrics g0) as [m0|] eqn:Em; [|discriminate].
  cbn [mbind result_bind] in H. destruct Hin as [[= <- <-]|Hin]; [eauto|].
  eapply IH; eauto.
Qed.



Lemma is_empty_set_const (df : DataFrame) (c : string) (v : cell) :
  is_empty df = false -> is_empty (set_const df c v) = false.
Proof.
  unfold is_empty, set_const, set_col. cbn [columns rows].
  destruct (columns df) as [|c0 cs]; [discriminate|].
  destruct (rows df) as [|r rs]; [discriminate|]. intros _.
  destruct (has_col _ c); reflexivity.
Qed.

Lemma add_missing_not_empty (df : DataFrame) :
  is_empty df = false -> is_empty (PA.add_missing df) = false.
Proof.
  unfold PA.add_missing. generalize (PA.missing_cols df) as cols. intros cols. revert df.
  induction cols as [|c cols IH]; simpl; intros df H; [exact H|].
  apply IH, is_empty_set_const, H.
Qed.

(** The loop over the missing columns leaves the columns that are there as
    they are. *)
Lemma foldl_set_const_get (df : DataFrame) (cols : list string) (c : string) :
  ~ In c cols ->
  map (fun r => get r c)
      (rows (foldl (fun d col => set_const d col (PA.default_value col)) df cols))
  = map (fun r => get r c) (rows df).
Proof.
  revert df. induction cols as [|c0 cols IH]; simpl; intros df H; [reflexivity|].
  rewrite IH by tauto. unfold set_const, set_col. cbn [rows]. rewrite map_map.
  apply map_ext. intros r. apply get_insert_ne. intros E. apply H. auto.
Qed.

Lemma add_missing_get (df : DataFrame) (c : string) :
  has_col df c = true ->
  map (fun r => get r c) (rows (PA.add_missing df)) = map (fun r => get r c) (rows df).
Proof.
  intros H. apply foldl_set_const_get. unfold PA.missing_cols. intros Hin.
  apply filter_In in Hin as [_ Hin]. rewrite H in Hin. discriminate.
Qed.




(** X12: product records without a userId key stop [process_data]. When no
    product record has the key, the product frame has no userId column and
    the merge of the enricher raises KeyError('userId'), which
    [process_data] lets through: no report is returned, with or without
    users. *)
Theorem process_data_needs_user_id (sort : list (cell * Q) -> list (cell * Q))
    (products users : list row) :
  products <> [] ->
  (forall r, In r products -> r !! "userId"%string = None) ->
  PP.process_data sort products users = Raise (KeyError "userId").
Proof.
  intros Hne Hno. unfold PP.process_data.
  replace (is_nil products) with false by (destruct products; [contradiction|reflexivity]).
  assert (Hc : has_col (P.to_dataframe products) "userId" = false).
  { destruct (has_col _ _) eqn:E; [|reflexivity].
    apply has_col_to_dataframe in E as (r & Hr & [v Hv]). rewrite (Hno r Hr) in Hv.
    discriminate. }
  unfold P.enrich_product_data.
  rewrite select_ok by apply ensure_cols_has. cbn [mbind result_bind].
  unfold merge_left. rewrite Hc. reflexivity.
Qed.

Lemma process_data_needs_user_id_witness :
  PP.process_data (insertion_sort_desc true) [ex_mug] [ex_alice] = Raise (KeyError "userId").
Proof.
  apply (process_data_needs_user_id (insertion_sort_desc true) [ex_mug] [ex_alice]).
  - discriminate.
  - intros r [<-|[]]. vm_compute. reflexivity.
Defined.

(** ** [pipeline/data_analyzer.py]: ratings that are dictionaries *)

Lemma mean_cells_inv (l : list cell) (m : option Q) :
  mean_cells l = Ok m -> forallb numeric l = true.
Proof.
  unfold mean_cells. destruct (sum_cells l) as [s|] eqn:Es; [|discriminate].
  intros _. eapply sum_cells_inv, Es.
Qed.

Lemma seller_metrics_rating (g : list row) (m : PA.SellerMetrics) (r : row) :
  PA.seller_metrics g = Ok m -> In r g -> numeric (get r "rating") = true.
Proof.
  intros H Hr. destruct (seller_metrics_inv g m H) as (i & mr & _ & _ & Hmean & _).
  apply mean_cells_inv in Hmean. unfold PA.column_of in Hmean.
  rewrite forallb_mapped, forallb_forall in Hmean. auto.
Qed.

(** When the analysis returns, every row it worked on lies in a group whose
    metrics were computed. *)
Lemma analyze_row_group (df : DataFrame) (perf : list (cell * PA.SellerMetrics)) (r : row) :
  is_empty df = false ->
  snd (PA.analyze_seller_performance df) = Ok perf ->
  In r (rows (PA.add_missing df)) ->
  exists g m, In r g /\ PA.seller_metrics g = Ok m.
Proof.
  intros Hne H Hr. rewrite analyze_unfold in H by exact Hne. cbn [snd] in H.
  destruct (groupby _ _ _) as [groups|] eqn:Eg; [|discriminate].
  cbn [mbind result_bind] in H.
  apply groupby_all_inv in Eg as (_ & Hh & ->).
  rewrite forallb_forall in Hh.
  destruct (unique_repr (map (fun r => get r "username") (rows (PA.add_missing df)))
              (get r "username")) as (k & Hk & Hkr).
  { apply in_map_iff. eauto. }
  { apply Hh, Hr. }
  destruct (foldM_each _ _ _ k (group_rows (PA.add_missing df) "username" k) H) as [m Hm].
  { apply in_map_iff. exists k. split; [reflexivity|]. apply sort_keys_in, Hk. }
  exists (group_rows (PA.add_missing df) "username" k), m. split; [|exact Hm].
  unfold group_rows. apply filter_In. auto.
Qed.

Lemma analyze_rating_numeric (df : DataFrame) (perf : list (cell * PA.SellerMetrics))
    (r : row) :
  is_empty df = false ->
  has_col df "rating" = true ->
  snd (PA.analyze_seller_performance df) = Ok perf ->
  In r (rows df) -> numeric (get r "rating") = true.
Proof.
  intros Hne Hc H Hr.
  assert (Hin : In (get r "rating") (map (fun r => get r "rating") (rows (PA.add_missing df)))).
  { rewrite add_missing_get by exact Hc. apply in_map_iff. eauto. }
  apply in_map_iff in Hin as (r' & <- & Hr').
  destruct (analyze_row_group df perf r' Hne H Hr') as (g & m & Hg & Hm).
  apply (seller_metrics_rating g m r' Hm Hg).
Qed.

(** X13: the seller analysis averages the rating column, so it does not
    return on a frame in which a rating is a dictionary (the form in which
    the API delivers it, and the form the enricher reads the quantity
    from). *)
Theorem analysis_stops_on_rating_dictionary (df : DataFrame) (r : row)
    (d : list (string * cell)) :
  is_empty df = false ->
  has_col df "rating" = true ->
  In r (rows df) ->
  get r "rating" = Dict d ->
  forall performance, snd (PA.analyze_seller_performance df) <> Ok performance.
Proof.
  intros Hne Hc Hr Hd perf H.
  pose proof (analyze_rating_numeric df perf r Hne Hc H Hr) as Hn.
  rewrite Hd in Hn. discriminate.
Qed.

Lemma analysis_stops_on_rating_dictionary_witness :
  get (nth 0 (rows ex_rated_enriched) ∅) "rating" = Dict [("rate", Num 4); ("count", Num 1)]
  /\ forall performance,
       snd (PA.analyze_seller_performance ex_rated_enriched) <> Ok performance.
Proof.
  assert (Hd : get (nth 0 (rows ex_rated_enriched) ∅) "rating"
               = Dict [("rate", Num 4); ("count", Num 1)]) by (vm_compute; reflexivity).
  split; [exact Hd|].
  apply (analysis_stops_on_rating_dictionary ex_rated_enriched
           (nth 0 (rows ex_rated_enriched) ∅) [("rate", Num 4); ("count", Num 1)]%string).
  - vm_compute. reflexivity.
  - vm_compute. reflexivity.
  - apply nth_In. vm_compute. lia.
  - exact Hd.
Defined.

(** X14: [process_data] returns no report on raw product records one of
    which has a dictionary as its rating: the enricher carries the rating
    column over unchanged and the seller analysis stops on it (or something
    fails before). *)
Theorem process_data_stops_on_rating_dictionary (sort : list (cell * Q) -> list (cell * Q))
    (products users : list row) (p : row) (d : list (string * cell)) :
  In p products ->
  get p "rating" = Dict d ->
  forall report, PP.process_data sort products users <> Ok (Some report).
Proof.
  intros Hp Hd report. unfold PP.process_data.
  destruct (is_nil products); [discriminate|].
  destruct (P.enrich_product_data _ _) as [enriched|] eqn:He; [|discriminate].
  cbn [mbind result_bind].
  destruct (is_empty enriched) eqn:Hne; [discriminate|].
  destruct (snd (PA.analyze_seller_performance enriched)) as [perf|] eqn:Ha; [|discriminate].
  exfalso.
  assert (Hrows : In p (rows (P.to_dataframe products))).
  { destruct products; [destruct Hp|exact Hp]. }
  assert (Hcol : has_col enriched "rating" = true).
  { apply has_col_true, (P_enrich_columns _ _ _ _ He). left.
    apply has_col_true, has_col_to_dataframe. exists p. split; [exact Hp|].
    unfold get in Hd. destruct (p !! "rating"%string); [eauto|discriminate]. }
  destruct (P_enrich_inv _ _ _ He) as (_ & _ & _ & Hout).
  destruct (merge_rows_covers (P.to_dataframe products)
              (P_users_sel (P.to_dataframe users)) "userId" "id" "_seller" p Hrows)
    as [ro Hm].
  change (columns (P_users_sel (P.to_dataframe users))) with P.user_cols in Hm.
  set (m := attach (P.to_dataframe products) "_seller" P.user_cols p ro) in *.
  assert (Hr : In (P_revenue_row (P_quantity_row (P.to_dataframe products) m))
                  (rows enriched)).
  { rewrite Hout. apply in_map_iff. eauto. }
  pose proof (analyze_rating_numeric enriched perf _ Hne Hcol Ha Hr) as Hn.
  rewrite P_revenue_row_get, P_quantity_row_get in Hn by discriminate.
  unfold m in Hn. rewrite attach_get_other, Hd in Hn; [discriminate|].
  intros c Hc. apply user_label_other; simpl; auto.
Qed.

Lemma process_data_stops_on_rating_dictionary_witness :
  get ex_product "rating" = Dict [("rate", Num 4); ("count", Num 1)]
  /\ forall report,
       PP.process_data (insertion_sort_desc true) [ex_product] [ex_alice]
       <> Ok (Some report).
Proof.
  assert (Hd : get ex_product "rating" = Dict [("rate", Num 4); ("count", Num 1)])
    by (vm_compute; reflexivity).
  split; [exact Hd|].
  apply (process_data_stops_on_rating_dictionary (insertion_sort_desc true)
           [ex_product] [ex_alice] ex_product [("rate", Num 4); ("count", Num 1)]%string).
  - left. reflexivity.
  - exact Hd.
Defined.

(** ** [pipeline/data_analyzer.py]: the metrics of an entry *)

Lemma seller_metrics_fields (g : list row) (m : PA.SellerMetrics) :
  PA.seller_metrics g = Ok m ->
  PA.product_count m = length g
  /\ PA.total_revenue m = round2 (Qsum (numbers (PA.column_of g "revenue")))
  /\ PA.avg_price m
     = match numbers (PA.column_of g "price") with
       | [] => None
       | vs => Some (round2 (Qsum vs / inject_Z (Z.of_nat (length vs))))
       end
  /\ PA.total_quantity_sold m = trunc (Qsum (numbers (PA.column_of g "quantity")))
  /\ PA.categories m = unique (PA.column_of g "category")
  /\ forallb hashable (PA.column_of g "category") = true.
Proof.
  unfold PA.seller_metrics.
  destruct (sum_cells (PA.column_of g "revenue")) as [s|] eqn:Es; [|discriminate].
  cbn [mbind result_bind].
  destruct (mean_cells (PA.column_of g "price")) as [mp|] eqn:Ep; [|discriminate].
  cbn [mbind result_bind].
  destruct (forallb hashable _) eqn:Ec; [|discriminate]. cbn [mbind result_bind].
  destruct (idxmax _) as [i|]; [|discriminate]. cbn [mbind result_bind].
  destruct (mean_cells (PA.column_of g "rating")) as [mr|]; [|discriminate].
  cbn [mbind result_bind].
  destruct (sum_cells (PA.column_of g "quantity")) as [q|] eqn:Eq; [|discriminate].
  cbn [mbind result_bind]. intros [= <-]. cbn.
  apply sum_cells_numbers in Es as [-> _]. apply sum_cells_numbers in Eq as [-> _].
  apply mean_cells_numbers in Ep as ->.
  repeat split. destruct (numbers (PA.column_of g "price")); reflexivity.
Qed.



(** X16: the categories of an entry. They are the categories of the rows
    reported under the key, each listed once: no two of them are equal, each
    is the category of one of these rows, and the category of each of these
    rows is among them (under the same proviso). *)
Theorem entry_categories_distinct (df : DataFrame)
    (perf : list (cell * PA.SellerMetrics)) (u : cell) (m : PA.SellerMetrics) :
  snd (PA.analyze_seller_performance df) = Ok perf ->
  collision_free (fst (PA.analyze_seller_performance df)) = true ->
  dict_lookup perf u = Some m ->
  distinct_keys (PA.categories m) = true
  /\ (forall c, In c (PA.categories m) ->
        exists r, In r (seller_rows (fst (PA.analyze_seller_performance df)) u)
                  /\ get r "category" = c)
  /\ (forall r, In r (seller_rows (fst (PA.analyze_seller_performance df)) u) ->
        exists c, In c (PA.categories m) /\ key_eqb c (get r "category") = true).
Proof.
  intros Hok Hc Hu.
  destruct (analyze_entry df perf u m Hok Hu) as (r0 & Hr0 & Hk & Hm & Hh).
  rewrite (group_is_seller_rows _ r0 u Hc Hh Hr0 Hk) in Hm.
  destruct (seller_metrics_fields _ m Hm) as (_ & _ & _ & _ & -> & Hhash).
  split; [apply unique_distinct|]. split.
  - intros c Hin. apply unique_in in Hin. unfold PA.column_of in Hin.
    apply in_map_iff in Hin as (r & <- & Hr). eauto.
  - intros r Hr. apply unique_repr.
    + unfold PA.column_of. apply in_map_iff. eauto.
    + rewrite forallb_forall in Hhash. apply Hhash. unfold PA.column_of.
      apply in_map_iff. eauto.
Qed.

Lemma entry_categories_distinct_witness :
  exists perf m,
    snd (PA.analyze_seller_performance ex_enriched) = Ok perf
    /\ dict_lookup perf (Str "bob") = Some m
    /\ distinct_keys (PA.categories m) = true.
Proof.
  eexists _, _. split; [vm_compute; reflexivity|]. split; [vm_compute; reflexivity|].
  apply (entry_categories_distinct ex_enriched _ (Str "bob") _
           ltac:(vm_compute; reflexivity) ltac:(vm_compute; reflexivity)
           ltac:(vm_compute; reflexivity)).
Defined.

(** ** [pipeline/data_analyzer.py]: the sellers of the report and of the summary *)

Lemma dict_set_length {V : Type} (d : list (cell * V)) (k : cell) (v : V) :
  dict_lookup d k = None -> length (dict_set d k v) = S (length d).
Proof.
  induction d as [|[k0 v0] d IH]; simpl; [reflexivity|].
  destruct (key_eqb k0 k); [discriminate|]. intros H. simpl. rewrite IH by exact H.
  reflexivity.
Qed.

Lemma insert_key_length (k : cell) (l : list cell) :
  length (insert_key k l) = S (length l).
Proof.
  induction l as [|k' l IH]; simpl; [reflexivity|].
  destruct (key_leb k k'); simpl; [reflexivity|]. rewrite IH. reflexivity.
Qed.

Lemma sort_keys_length (l : list cell) : length (sort_keys l) = length l.
Proof.
  unfold sort_keys. induction l as [|k l IH]; simpl; [reflexivity|].
  rewrite insert_key_length, IH. reflexivity.
Qed.

Lemma distinct_keys_map (f : cell -> cell) (l : list cell) :
  (forall a b, In a l -> In b l -> key_eqb (f a) (f b) = true -> key_eqb a b = true) ->
  distinct_keys l = true -> distinct_keys (map f l) = true.
Proof.
  induction l as [|x l IH]; simpl; intros Hinj H; [reflexivity|].
  apply andb_prop in H as [Hx Hl]. apply andb_true_intro. split.
  - rewrite forallb_mapped. rewrite forallb_forall in *. intros y Hy.
    specialize (Hx y Hy). destruct (key_eqb (f x) (f y)) eqn:E; [|reflexivity].
    rewrite (Hinj x y) in Hx by auto. discriminate.
  - apply IH; [|exact Hl]. intros a b Ha Hb. apply Hinj; auto.
Qed.

(** The loop over the groups adds one entry per group when no two groups
    share a key of the mapping. *)
Lemma foldM_length (gs : list (cell * list row)) (d0 perf : list (cell * PA.SellerMetrics)) :
  foldM PA_body d0 gs = Ok perf ->
  distinct_keys (map (fun kg => PA.seller_key (fst kg)) gs) = true ->
  (forall kg, In kg gs -> dict_lookup d0 (PA.seller_key (fst kg)) = None) ->
  length perf = (length d0 + length gs)%nat.
Proof.
  revert d0. induction gs as [|[k0 g0] gs IH]; simpl; intros d0 H Hd Hnone.
  - injection H as <-. lia.
  - destruct (PA.seller_metrics g0) as [m0|]; [|discriminate].
    cbn [mbind result_bind] in H. apply andb_prop in Hd as [Hk0 Hd].
    rewrite (IH _ H Hd).
    + rewrite dict_set_length by (apply (Hnone (k0, g0)); auto). lia.
    + intros kg Hin. rewrite dict_lookup_set_ne; [apply Hnone; auto|].
      rewrite forallb_forall in Hk0. apply negb_true_iff, Hk0.
      apply (in_map (fun kg => PA.seller_key (fst kg))), Hin.
Qed.

Lemma existsb_mapped {A B : Type} (p : B -> bool) (f : A -> B) (l : list A) :
  existsb p (map f l) = existsb (fun x => p (f x)) l.
Proof. induction l as [|x l IH]; simpl; [reflexivity|]. rewrite IH. reflexivity. Qed.

Lemma filter_split_length {A : Type} (p : A -> bool) (l : list A) :
  length l = (length (List.filter p l) + length (List.filter (fun x => negb (p x)) l))%nat.
Proof.
  induction l as [|x l IH]; simpl; [reflexivity|].
  destruct (p x); simpl; lia.
Qed.

(** Among distinct keys the missing value occurs once when it occurs in the
    column, and not at all otherwise. *)
Lemma unique_null_count (l : list cell) :
  forallb hashable l = true ->
  length (List.filter isna (unique l)) = if existsb isna l then 1%nat else 0%nat.
Proof.
  intros Hh.
  assert (Hle : forall ks, distinct_keys ks = true -> (length (List.filter isna ks) <= 1)%nat).
  { induction ks as [|k ks IH]; simpl; intros H; [lia|].
    apply andb_prop in H as [Hk Hks]. destruct k; simpl; auto.
    rewrite filter_none; [simpl; lia|].
    rewrite forallb_forall in *. intros y Hy. specialize (Hk y Hy).
    destruct y; simpl in *; auto. }
  specialize (Hle (unique l) (unique_distinct l)).
  destruct (existsb isna l) eqn:E.
  - apply existsb_exists in E as (x & Hx & Hna). destruct x; try discriminate.
    destruct (unique_repr l Null Hx eq_refl) as (y & Hy & Hyn).
    destruct y; try discriminate.
    assert (Hin : In Null (List.filter isna (unique l))) by (apply filter_In; auto).
    destruct (List.filter isna (unique l)) as [|a [|b t]]; simpl in *; [destruct Hin|reflexivity|lia].
  - rewrite filter_none; [reflexivity|].
    apply forallb_forall. intros y Hy. apply unique_in in Hy.
    destruct (isna y) eqn:Ey; [|reflexivity].
    assert (Hex : existsb isna l = true) by (apply existsb_exists; eauto).
    congruence.
Qed.

Lemma sum_cells_raise (l : list cell) (e : exn) : sum_cells l = Raise e -> e = TypeError.
Proof.
  induction l as [|c l IH]; simpl; [discriminate|].
  destruct c; try congruence; [exact IH|].
  destruct (sum_cells l); [discriminate|]. cbn [mbind result_bind]. intros [= <-]. auto.
Qed.

Lemma traverse_raise {A B : Type} (f : A -> result B) (l : list A) (e : exn) :
  traverse f l = Raise e -> exists x, In x l /\ f x = Raise e.
Proof.
  induction l as [|x l IH]; simpl; [discriminate|].
  destruct (f x) as [y|e'] eqn:Ef; cbn [mbind result_bind].
  - destruct (traverse f l) as [ys|e']; cbn [mbind result_bind]; [discriminate|].
    intros [= ->]. destruct (IH eq_refl) as (x' & Hx' & Hf). eauto.
  - intros [= ->]. eauto.
Qed.

Lemma summary_fields (sort : list (cell * Q) -> list (cell * Q)) (df : DataFrame)
    (s : PA.OverallSummary) :
  PA.get_overall_summary sort df = Ok (Some s) ->
  PA.total_products s = length (rows df)
  /\ PA.overall_total_revenue s
     = round2 (Qsum (numbers (map (fun r => get r "revenue") (rows df))))
  /\ PA.active_sellers s
     = length (List.filter (fun k => negb (isna k))
                           (unique (map (fun r => get r "username") (rows df))))
  /\ forallb hashable (map (fun r => get r "username") (rows df)) = true.
Proof.
  unfold PA.get_overall_summary. destruct (is_empty df); [discriminate|].
  unfold getitem.
  destruct (has_col df "revenue"); [|discriminate]. cbn [mbind result_bind].
  destruct (sum_cells _) as [total|] eqn:Es; [|discriminate]. cbn [mbind result_bind].
  destruct (has_col df "username"); [|discriminate]. cbn [mbind result_bind].
  destruct (forallb hashable _) eqn:Eh; [|discriminate]. cbn [mbind result_bind].
  destruct (PA.category_revenue df) as [sums|]; [|discriminate].
  cbn [mbind result_bind]. intros [= <-]. cbn.
  apply sum_cells_numbers in Es as [-> _]. auto.
Qed.

(** X17: the sellers of the report against the sellers of the summary, on
    the frame [process_data] hands to both. The summary counts the distinct
    usernames that are present; the seller analysis has one entry for each
    of them and one more, under "Unknown Seller", when some row has no
    username (no seller being literally named so next to such rows). *)
Theorem report_entries_and_active_sellers (sort : list (cell * Q) -> list (cell * Q))
    (df : DataFrame) (perf : list (cell * PA.SellerMetrics)) (s : PA.OverallSummary) :
  is_empty df = false ->
  snd (PA.analyze_seller_performance df) = Ok perf ->
  collision_free (fst (PA.analyze_seller_performance df)) = true ->
  PA.get_overall_summary sort (fst (PA.analyze_seller_performance df)) = Ok (Some s) ->
  length perf
  = (PA.active_sellers s
     + if existsb (fun r => isna (get r "username"))
                  (rows (fst (PA.analyze_seller_performance df)))
       then 1 else 0)%nat.
Proof.
  intros Hne Hok Hc Hs. rewrite analyze_unfold in * by exact Hne. cbn [fst snd] in *.
  set (df' := PA.add_missing df) in *.
  destruct (summary_fields sort df' s Hs) as (_ & _ & -> & Hh).
  destruct (groupby _ _ _) as [groups|] eqn:Eg; [|discriminate].
  cbn [mbind result_bind] in Hok.
  apply groupby_all_inv in Eg as (_ & Hh' & ->).
  set (us := map (fun r => get r "username") (rows df')) in *.
  rewrite (foldM_length _ _ _ Hok).
  - cbn [length]. rewrite length_map, sort_keys_length.
    rewrite (filter_split_length isna (unique us)), (unique_null_count us Hh).
    unfold us. rewrite existsb_mapped. lia.
  - rewrite map_map. cbn [fst].
    apply distinct_keys_map; [|apply sort_keys_distinct, unique_distinct].
    intros a b Ha Hb.
    apply sort_keys_in, unique_in, in_map_iff in Ha as (ra & <- & Hra).
    apply sort_keys_in, unique_in, in_map_iff in Hb as (rb & <- & Hrb).
    apply (seller_key_inj df' ra rb Hc Hra Hrb).
  - intros kg _. reflexivity.
Qed.

Lemma report_entries_and_active_sellers_witness :
  exists perf s,
    snd (PA.analyze_seller_performance ex_enriched) = Ok perf
    /\ PA.get_overall_summary (insertion_sort_desc true)
         (fst (PA.analyze_seller_performance ex_enriched)) = Ok (Some s)
    /\ length perf = 2%nat /\ PA.active_sellers s = 1%nat.
Proof.
  eexists _, _. split; [vm_compute; reflexivity|]. split; [vm_compute; reflexivity|].
  pose proof (report_entries_and_active_sellers (insertion_sort_desc true) ex_enriched _ _
                ltac:(vm_compute; reflexivity) ltac:(vm_compute; reflexivity)
                ltac:(vm_compute; reflexivity) ltac:(vm_compute; reflexivity)) as H.
  split; [rewrite H|]; vm_compute; reflexivity.
Defined.




(** X19: the KeyErrors of the summary. On a frame with rows it reads the
    revenue, username and category columns and, unlike the seller analysis,
    fills in none of them: without a revenue column it raises
    KeyError('revenue'), and every KeyError it raises names one of the three
    columns, missing from the frame. *)
Theorem summary_key_errors (sort : list (cell * Q) -> list (cell * Q)) (df : DataFrame) :
  is_empty df = false ->
  (has_col df "revenue" = false ->
   PA.get_overall_summary sort df = Raise (KeyError "revenue"))
  /\ forall k, PA.get_overall_summary sort df = Raise (KeyError k) ->
       In k ["revenue"; "username"; "category"]%string /\ has_col df k = false.
Proof.
  intros Hne. unfold PA.get_overall_summary. rewrite Hne. unfold getitem. split.
  - intros ->. reflexivity.
  - intros k.
    destruct (has_col df "revenue") eqn:Hrev; cbn [mbind result_bind];
      [|intros [= <-]; simpl; auto].
    destruct (sum_cells _) as [total|] eqn:Es; cbn [mbind result_bind].
    2:{ intros [= ->]. apply sum_cells_raise in Es. discriminate. }
    destruct (has_col df "username") eqn:Husr; cbn [mbind result_bind];
      [|intros [= <-]; simpl; auto].
    destruct (forallb hashable _); cbn [mbind result_bind]; [|discriminate].
    unfold PA.category_revenue, groupby, getitem.
    destruct (has_col df "category") eqn:Hcat; cbn [mbind result_bind];
      [|intros [= <-]; simpl; auto].
    destruct (forallb hashable _); cbn [mbind result_bind]; [|discriminate].
    rewrite Hrev. cbn [mbind result_bind].
    destruct (traverse _ _) as [sums|e] eqn:Et; cbn [mbind result_bind]; [discriminate|].
    intros [= ->]. exfalso. apply traverse_raise in Et as ([k0 g0] & _ & Hf).
    cbn beta iota in Hf.
    destruct (sum_cells (PA.column_of g0 "revenue")) eqn:Es';
      cbn [mbind result_bind] in Hf; [discriminate|].
    injection Hf as ->. apply sum_cells_raise in Es'. discriminate.
Qed.

Lemma summary_key_errors_witness :
  PA.get_overall_summary (insertion_sort_desc true) ex_no_category
  = Raise (KeyError "category")
  /\ has_col ex_no_category "category" = false.
Proof.
  destruct (summary_key_errors (insertion_sort_desc true) ex_no_category
              ltac:(vm_compute; reflexivity)) as [_ H].
  split; [vm_compute; reflexivity|].
  apply (H "category"%string). vm_compute. reflexivity.
Defined.

(** ** [DataAnalyzer.py]: a frame without a seller column *)

Lemma unique_const (k : cell) (l : list cell) :
  hashable k = true -> (forall x, In x l -> x = k) -> l <> [] -> unique l = [k].
Proof.
  intros Hk Hall Hne. destruct l as [|x l]; [contradiction|].
  rewrite (Hall x (or_introl eq_refl)). simpl. f_equal.
  apply filter_none, forallb_forall. intros y Hy. apply unique_in in Hy.
  rewrite (Hall y (or_intror Hy)), negb_involutive. apply key_eqb_refl, Hk.
Qed.











(** ** [DataEnricher.py]: rows, sellers and errors *)








(** ** [Pipeline.py]: the run without users *)




(** ** [DataEnricher.py]: the seller of a row *)

Lemma traverse_length {A B : Type} (f : A -> result B) (l : list A) (l' : list B) :
  traverse f l = Ok l' -> length l' = length l.
Proof.
  revert l'. induction l as [|x l IH]; simpl; intros l' H.
  - injection H as <-. reflexivity.
  - destruct (f x); [|discriminate]. cbn [mbind result_bind] in H.
    destruct (traverse f l) as [ys|]; [|discriminate]. cbn [mbind result_bind] in H.
    injection H as <-. simpl. rewrite (IH ys eq_refl). reflexivity.
Qed.

Lemma set_colM_inv (df u' : DataFrame) (c : string) (f : row -> result cell) :
  set_colM df c f = Ok u' ->
  length (rows u') = length (rows df)
  /\ (forall x, has_col u' x = has_col df x || bool_decide (x = c))
  /\ forall r', In r' (rows u') ->
       exists r v, In r (rows df) /\ f r = Ok v /\ r' = <[c := v]> r.
Proof.
  unfold set_colM. destruct (traverse _ (rows df)) as [rs|] eqn:Et; [|discriminate].
  cbn [mbind result_bind]. intros [= <-]. cbn [rows]. split; [|split].
  - eapply traverse_length, Et.
  - intros x. apply (has_col_set_col df c (fun _ => Null) x).
  - intros r' Hr'. destruct (traverse_elem _ _ _ _ Et Hr') as (r & Hr & Hf).
    destruct (f r) as [v|] eqn:Efr; [|discriminate]. cbn [mbind result_bind] in Hf.
    injection Hf as <-. exists r, v. auto.
Qed.

Lemma seller_label_inj (left : DataFrame) (c c' : string) :
  In c ["id"; "seller_name"; "email"]%string ->
  In c' ["id"; "seller_name"; "email"]%string ->
  right_label left "_seller" c = right_label left "_seller" c' -> c = c'.
Proof.
  unfold right_label. intros Hc Hc'. simpl in Hc, Hc'.
  destruct (has_col left c), (has_col left c');
    repeat (destruct Hc as [<-|Hc];
            [repeat (destruct Hc' as [<-|Hc']; [intros E; vm_compute in E; congruence|]);
             destruct Hc'|]);
    destruct Hc.
Qed.

Lemma D_left_label (parse : string -> option Q) (rng : nat -> nat) (pf : DataFrame)
    (ids : list cell) (c : string) :
  In c ["id"; "seller_name"; "email"]%string ->
  right_label (D_left rng (D_staged parse pf) ids) "_seller" c = right_label pf "_seller" c.
Proof.
  intros Hc. unfold right_label. rewrite has_col_D_left. simpl in Hc.
  destruct Hc as [<-|[<-|[<-|[]]]]; cbn; rewrite !orb_false_r; reflexivity.
Qed.

(** X24: the seller of a row of the second enricher. With products and
    users at hand, every row it returns is given one of the users: the
    seller id drawn for the row is the id of a user, and the seller name and
    the email of the row are the name made of that user's name parts and
    that user's email. No row is left without a seller. *)
Theorem second_enricher_assigns_users (parse : string -> option Q)
    (py_str : cell -> string) (rng : nat -> nat) (products users : data)
    (out : DataFrame) (r : row) :
  is_empty (D.to_dataframe products) = false ->
  is_empty (D.to_dataframe users) = false ->
  D.enrich_product_data parse py_str rng products users = Ok out ->
  In r (rows out) ->
  exists u, In u (rows (D.to_dataframe users))
    /\ key_eqb (get r "seller_id") (get u "id") = true
    /\ D.seller_name_of py_str u
       = Ok (get r (right_label (D.to_dataframe products) "_seller" "seller_name"))
    /\ get r (right_label (D.to_dataframe products) "_seller" "email") = get u "email".
Proof.
  intros Hp Hu H Hr. rewrite D_enrich_unfold, Hp in H.
  set (pf := D.to_dataframe products) in *. set (uf := D.to_dataframe users) in *.
  destruct (D_join parse py_str rng pf uf) as [E|] eqn:Ej; [|discriminate].
  cbn [mbind result_bind] in H.
  rewrite D_finish_ok in H;
    [|eapply D_join_has_price; eauto|intros e He; eapply D_join_price; eauto].
  injection H as <-.
  apply set_col_elem in Hr as (r1 & Hr1 & ->). apply set_col_elem in Hr1 as (e & He & ->).
  unfold D_join in Ej. rewrite Hu in Ej. cbn [negb] in Ej.
  destruct (set_colM uf "seller_name" _) as [u'|] eqn:Es; [|discriminate].
  cbn [mbind result_bind] in Ej.
  destruct (set_colM_inv _ _ _ _ Es) as (Hlen & _ & Hu').
  unfold getitem in Ej. destruct (has_col u' "id"); [|discriminate].
  cbn [mbind result_bind] in Ej.
  set (ids := map (fun r => get r "id") (rows u')) in *.
  destruct (select u' _) as [sel|] eqn:Esel; [|discriminate].
  cbn [mbind result_bind] in Ej. apply select_inv in Esel.
  set (cols := ["id"; "seller_name"; "email"]%string) in *.
  set (L := D_left rng (D_staged parse pf) ids) in *.
  destruct (merge_left_guards _ _ _ _ _ _ Ej) as (_ & Hhash).
  apply andb_prop in Hhash as [Hhl _].
  apply merge_left_inv in Ej. subst E. cbn [rows] in He.
  assert (Hcols : columns sel = cols) by (subst sel; reflexivity).
  assert (Hids : ids <> []).
  { unfold ids. intros E. apply map_eq_nil in E. rewrite E in Hlen.
    unfold is_empty in Hu. destruct (columns uf); [discriminate|].
    destruct (rows uf); discriminate. }
  assert (Hlab : forall c x, In c cols -> In x ["quantity"; "revenue"; "seller_id"]%string ->
                   right_label L "_seller" c <> x).
  { intros c x Hc Hx. apply seller_label_other; [exact Hc|]. simpl in *. tauto. }
  apply merge_rows_elem_match in He as (l' & Hl' & Hcase). rewrite Hcols in Hcase.
  pose proof Hl' as Hl''. apply D_left_elem in Hl'' as (i & l & Hl & El').
  assert (Hsid : get l' "seller_id" = D.random_choice rng ids i)
    by (rewrite El'; apply get_insert_eq).
  assert (Hsel_rows : forall su, In su (rows sel) ->
            exists u0 v, In u0 (rows uf) /\ D.seller_name_of py_str u0 = Ok v
                         /\ get su "id" = get u0 "id" /\ get su "seller_name" = v
                         /\ get su "email" = get u0 "email").
  { intros su Hsu. subst sel. cbn [rows] in Hsu.
    apply in_map_iff in Hsu as (ur & <- & Hur).
    destruct (Hu' ur Hur) as (u0 & v & Hu0 & Hv & ->).
    exists u0, v. split; [exact Hu0|]. split; [exact Hv|].
    rewrite !get_restrict by (simpl; auto).
    rewrite get_insert_eq, !get_insert_ne by discriminate. auto. }
  destruct Hcase as [[Hno _]|(su & Hsu & Hk & ->)].
  - exfalso.
    pose proof (random_choice_in rng ids i Hids) as Hin. rewrite <- Hsid in Hin.
    unfold ids in Hin. apply in_map_iff in Hin as (ur & Hur & Hurin).
    assert (Hsu : In (restrict cols ur) (rows sel)).
    { subst sel. cbn [rows]. apply in_map, Hurin. }
    specialize (Hno _ Hsu). rewrite get_restrict in Hno by (simpl; auto).
    rewrite Hur, key_eqb_refl in Hno; [discriminate|].
    rewrite forallb_forall in Hhl. apply Hhl, Hl'.
  - destruct (Hsel_rows su Hsu) as (u0 & v & Hu0 & Hv & Eid & Esn & Eem).
    exists u0. split; [exact Hu0|].
    rewrite <- !(D_left_label parse rng pf ids) by (simpl; auto). fold L.
    assert (Hsl : forall c, In c cols ->
              get (attach L "_seller" cols l' (Some su)) (right_label L "_seller" c)
              = get su c).
    { intros c Hc. apply attach_some_get; [|exact Hc].
      intros c' Hc' E. apply (seller_label_inj L); assumption. }
    split; [|split].
    + rewrite !get_insert_ne by discriminate.
      rewrite attach_get_other by (intros c Hc; apply Hlab; simpl; auto).
      rewrite <- Eid. exact Hk.
    + rewrite !get_insert_ne by (apply not_eq_sym, Hlab; simpl; auto).
      rewrite Hsl by (simpl; auto). rewrite Esn. exact Hv.
    + rewrite !get_insert_ne by (apply not_eq_sym, Hlab; simpl; auto).
      rewrite Hsl by (simpl; auto). exact Eem.
Qed.

Lemma second_enricher_assigns_users_witness :
  exists u, In u [ex_alice; ex_bob]
    /\ key_eqb (get (nth 0 (rows ex_second_joined) ∅) "seller_id") (get u "id") = true
    /\ D.seller_name_of ex_str u
       = Ok (get (nth 0 (rows ex_second_joined) ∅)
                 (right_label (D.to_dataframe (Records [ex_product])) "_seller" "seller_name"))
    /\ get (nth 0 (rows ex_second_joined) ∅)
           (right_label (D.to_dataframe (Records [ex_product])) "_seller" "email")
       = get u "email".
Proof.
  apply (second_enricher_assigns_users ex_parse ex_str (fun _ => 1%nat)
           (Records [ex_product]) (Records [ex_alice; ex_bob]) ex_second_joined).
  - vm_compute. reflexivity.
  - vm_compute. reflexivity.
  - vm_compute. reflexivity.
  - apply nth_In. vm_compute. lia.
Defined.

(** ** [pipeline/data_analyzer.py]: a seller without a revenue *)

(** When the analysis returns, every row it worked on lies in a group of
    rows of its own username whose metrics were computed. *)
Lemma analyze_row_own_group (df : DataFrame) (perf : list (cell * PA.SellerMetrics))
    (r : row) :
  is_empty df = false ->
  snd (PA.analyze_seller_performance df) = Ok perf ->
  In r (rows (PA.add_missing df)) ->
  exists g m,
    In r g /\ PA.seller_metrics g = Ok m
    /\ forall r', In r' g ->
         In r' (rows (PA.add_missing df))
         /\ key_eqb (get r "username") (get r' "username") = true.
Proof.
  intros Hne H Hr. rewrite analyze_unfold in H by exact Hne. cbn [snd] in H.
  destruct (groupby _ _ _) as [groups|] eqn:Eg; [|discriminate].
  cbn [mbind result_bind] in H.
  apply groupby_all_inv in Eg as (_ & Hh & ->).
  rewrite forallb_forall in Hh.
  destruct (unique_repr (map (fun r => get r "username") (rows (PA.add_missing df)))
              (get r "username")) as (k & Hk & Hkr).
  { apply in_map_iff. eauto. }
  { apply Hh, Hr. }
  destruct (foldM_each _ _ _ k (group_rows (PA.add_missing df) "username" k) H) as [m Hm].
  { apply in_map_iff. exists k. split; [reflexivity|]. apply sort_keys_in, Hk. }
  exists (group_rows (PA.add_missing df) "username" k), m.
  split; [unfold group_rows; apply filter_In; auto|]. split; [exact Hm|].
  intros r' Hr'. unfold group_rows in Hr'. apply filter_In in Hr' as [Hin Hk'].
  split; [exact Hin|]. rewrite key_eqb_sym in Hkr. eapply key_eqb_trans; eassumption.
Qed.

(** The loop over the missing columns changes no cell of a column that is
    there: rows before and after correspond. *)
Lemma foldl_set_const_back (df : DataFrame) (cols : list string) (x : row) :
  In x (rows (foldl (fun d col => set_const d col (PA.default_value col)) df cols)) ->
  exists x0, In x0 (rows df) /\ forall c, ~ In c cols -> get x c = get x0 c.
Proof.
  revert df. induction cols as [|c0 cols IH]; simpl; intros df Hx; [eauto|].
  destruct (IH _ Hx) as (x1 & Hx1 & Hget). unfold set_const in Hx1.
  apply set_col_elem in Hx1 as (x0 & Hx0 & ->). exists x0. split; [exact Hx0|].
  intros c Hc. rewrite Hget by tauto. apply get_insert_ne. intros E. apply Hc. auto.
Qed.

Lemma foldl_set_const_forth (df : DataFrame) (cols : list string) (x0 : row) :
  In x0 (rows df) ->
  exists x, In x (rows (foldl (fun d col => set_const d col (PA.default_value col)) df cols))
            /\ forall c, ~ In c cols -> get x c = get x0 c.
Proof.
  revert df x0. induction cols as [|c0 cols IH]; simpl; intros df x0 Hx0; [eauto|].
  destruct (IH (set_const df c0 (PA.default_value c0)) (<[c0 := PA.default_value c0]> x0))
    as (x & Hx & Hget).
  { unfold set_const. apply set_col_elem. eauto. }
  exists x. split; [exact Hx|].
  intros c Hc. rewrite Hget by tauto. apply get_insert_ne. intros E. apply Hc. auto.
Qed.

Lemma not_missing (df : DataFrame) (c : string) :
  has_col df c = true -> ~ In c (PA.missing_cols df).
Proof.
  intros H Hin. unfold PA.missing_cols in Hin. apply filter_In in Hin as [_ Hin].
  rewrite H in Hin. discriminate.
Qed.

(** X25: a seller without a revenue stops the seller analysis. The top
    product of a group is looked up at the position of its largest revenue;
    when the revenues of all the rows of one username are missing there is
    no such position, and the analysis does not return, whatever the other
    sellers' rows hold. *)
Theorem analysis_stops_on_seller_without_revenue (df : DataFrame) (r : row) :
  is_empty df = false ->
  has_col df "revenue" = true ->
  has_col df "username" = true ->
  In r (rows df) ->
  (forall r', In r' (rows df) ->
     key_eqb (get r "username") (get r' "username") = true -> get r' "revenue" = Null) ->
  forall performance, snd (PA.analyze_seller_performance df) <> Ok performance.
Proof.
  intros Hne Hrev Husr Hr Hnull perf H.
  pose proof (not_missing df _ Hrev) as Mrev. pose proof (not_missing df _ Husr) as Musr.
  destruct (foldl_set_const_forth df (PA.missing_cols df) r Hr) as (x & Hx & Hxr).
  fold (PA.add_missing df) in Hx.
  destruct (analyze_row_own_group df perf x Hne H Hx) as (g & m & Hxg & Hm & Hg).
  destruct (seller_metrics_inv g m Hm) as (i & mr & Hi & _).
  destruct (idxmax_spec _ _ Hi) as (b & Hb & _).
  unfold PA.column_of in Hb. rewrite list_lookup_fmap in Hb.
  destruct (g !! i) as [r'|] eqn:Er'; [|discriminate]. cbn in Hb. injection Hb as Hb.
  assert (Hin : In r' g) by (apply list_elem_of_In; eapply list_elem_of_lookup_2, Er').
  destruct (Hg r' Hin) as [Hr' Hk].
  apply foldl_set_const_back in Hr' as (r0 & Hr0 & Hget).
  rewrite (Hget "revenue"%string Mrev) in Hb.
  rewrite (Hget "username"%string Musr), (Hxr "username"%string Musr) in Hk.
  rewrite (Hnull r0 Hr0 Hk) in Hb. discriminate.
Qed.

Lemma analysis_stops_on_seller_without_revenue_witness :
  In (<["revenue"%string := Null]> ex_mug) (rows ex_bob_unpriced)
  /\ forall performance,
       snd (PA.analyze_seller_performance ex_bob_unpriced) <> Ok performance.
Proof.
  split; [left; reflexivity|].
  apply (analysis_stops_on_seller_without_revenue ex_bob_unpriced
           (<["revenue"%string := Null]> ex_mug)).
  - vm_compute. reflexivity.
  - vm_compute. reflexivity.
  - vm_compute. reflexivity.
  - left. reflexivity.
  - intros r' [<-|[<-|[<-|[]]]]; vm_compute; congruence.
Defined.

(** ** [pipeline/api_client.py]: the normalised users *)

(** X26: what [normalize_users] returns. One record per user, in order;
    every record has the five keys the enricher selects, whatever keys the
    user had; email, username and id are the user's (missing when the user
    has none), and the first and last name are the two parts of the nested
    name, missing without one. *)
Theorem normalize_users_records (raw users : list row) :
  AC.normalize_users raw = Some users ->
  length users = length raw
  /\ forall i item, raw !! i = Some item ->
       exists u, users !! i = Some u
         /\ (forall c, is_Some (u !! c) <-> c ∈ P.user_cols)
         /\ (forall c, In c ["email"; "username"; "id"]%string -> get u c = get item c)
         /\ get u "first_name" = default Null (dict_get (dict_of (get item "name")) "firstname")
         /\ get u "last_name" = default Null (dict_get (dict_of (get item "name")) "lastname").
Proof.
  intros H. apply mapM_lookup in H as [Hlen Hall]. split; [exact Hlen|].
  intros i item Hi. destruct (Hall i item Hi) as (u & Hu & Hn).
  exists u. split; [exact Hu|].
  assert (Hg : has_get (get item "name") = true)
    by (apply normalize_user_defined; eauto).
  rewrite normalize_user_ok in Hn by exact Hg.
  match type of Hn with Some (list_to_map ?k) = _ => set (kvs := k) in Hn end.
  assert (E : u = list_to_map kvs) by congruence.
  split.
  - intros c. rewrite E, (record_keys kvs), list_elem_of_In. simpl. tauto.
  - rewrite E. split; [|split; reflexivity].
    intros c Hc. simpl in Hc.
    repeat (destruct Hc as [<-|Hc]; [reflexivity|]). destruct Hc.
Qed.

Lemma normalize_users_records_witness :
  AC.normalize_users [ex_alice] = Some ex_normal_users
  /\ length ex_normal_users = length [ex_alice]
  /\ forall i item, [ex_alice] !! i = Some item ->
       exists u, ex_normal_users !! i = Some u
         /\ (forall c, is_Some (u !! c) <-> c ∈ P.user_cols)
         /\ (forall c, In c ["email"; "username"; "id"]%string -> get u c = get item c)
         /\ get u "first_name" = default Null (dict_get (dict_of (get item "name")) "firstname")
         /\ get u "last_name" = default Null (dict_get (dict_of (get item "name")) "lastname").
Proof.
  assert (H : AC.normalize_users [ex_alice] = Some ex_normal_users)
    by (vm_compute; reflexivity).
  split; [exact H|]. exact (normalize_users_records [ex_alice] ex_normal_users H).
Defined.

(** ** [pipeline/pipeline.py]: the report without users *)

Lemma ensure_cols_rows_nil (df : DataFrame) (cols : list string) :
  rows df = [] -> rows (P.ensure_cols df cols) = [].
Proof.
  intros H. pose proof (ensure_cols_length df cols) as Hl. rewrite H in Hl.
  destruct (rows (P.ensure_cols df cols)); [reflexivity|discriminate].
Qed.

(** X27: the report when the users request fails. [get_all_users] then
    gives the empty list and [process_data] goes on without users: for
    product records that carry no username of their own, every report it
    returns has the single seller "Unknown Seller", and its summary counts no
    active seller. *)
Theorem process_data_without_users (sort : list (cell * Q) -> list (cell * Q))
    (products : list row)
    (report : list (cell * PA.SellerMetrics) * option PA.OverallSummary) :
  (forall p, In p products -> p !! "username"%string = None) ->
  PP.process_data sort products (AC.get_all_users AC.Failed) = Ok (Some report) ->
  (exists m, fst report = [(Str "Unknown Seller", m)])
  /\ exists s, snd report = Some s /\ PA.active_sellers s = 0%nat.
Proof.
  intros Hno. unfold PP.process_data. cbn [AC.get_all_users].
  destruct (is_nil products); [discriminate|].
  set (pdf := P.to_dataframe products).
  assert (Hu : has_col pdf "username" = false).
  { destruct (has_col pdf "username") eqn:E; [|reflexivity].
    apply has_col_to_dataframe in E as (p & Hp & [v Hv]). rewrite (Hno p Hp) in Hv.
    discriminate. }
  destruct (P.enrich_product_data pdf (P.to_dataframe [])) as [enriched|] eqn:He;
    [|discriminate].
  cbn [mbind result_bind].
  destruct (is_empty enriched) eqn:Hne; [discriminate|].
  assert (Hnull : forall r, In r (rows enriched) -> get r "username" = Null).
  { intros r Hr. destruct (P_enrich_inv _ _ _ He) as (_ & _ & _ & Hrows).
    rewrite Hrows in Hr. apply in_map_iff in Hr as (m & <- & Hm).
    apply merge_rows_elem in Hm as (l & ro & _ & -> & Hro).
    rewrite Hro by reflexivity.
    rewrite P_revenue_row_get, P_quantity_row_get by discriminate.
    change (columns (P_users_sel (P.to_dataframe []))) with P.user_cols.
    assert (El : right_label pdf "_seller" "username" = "username"%string)
      by (unfold right_label; rewrite Hu; reflexivity).
    rewrite <- El. apply attach_none_get. simpl. auto. }
  assert (Husr : has_col enriched "username" = true)
    by (apply (P_enrich_has _ _ _ _ He); simpl; auto).
  rewrite analyze_unfold by exact Hne. cbn [fst snd].
  set (df' := PA.add_missing enriched).
  assert (Hnull' : forall r, In r (rows df') -> get r "username" = Null).
  { intros r Hr. apply foldl_set_const_back in Hr as (r0 & Hr0 & Hget).
    rewrite Hget by (apply not_missing, Husr). apply Hnull, Hr0. }
  assert (Hne' : rows df' <> []).
  { pose proof (add_missing_not_empty enriched Hne) as E. fold df' in E.
    unfold is_empty in E. destruct (columns df'); [discriminate|].
    destruct (rows df'); discriminate. }
  assert (Huniq : unique (map (fun r => get r "username") (rows df')) = [Null]).
  { apply unique_const; [reflexivity| |].
    - intros x Hx. apply in_map_iff in Hx as (r & <- & Hr). apply Hnull', Hr.
    - intros E. apply map_eq_nil in E. auto. }
  unfold groupby, getitem.
  replace (has_col df' "username") with true
    by (symmetry; apply add_missing_has; simpl; auto).
  cbn [mbind result_bind].
  destruct (forallb hashable _); [|discriminate]. cbn [mbind result_bind].
  rewrite Huniq. cbn [sort_keys foldr insert_key map foldM]. unfold PA_body.
  destruct (PA.seller_metrics _) as [m|]; [|discriminate]. cbn [mbind result_bind].
  destruct (PA.get_overall_summary sort df') as [[s|]|] eqn:Hs; cbn [mbind result_bind];
    try discriminate.
  - intros [= <-]. cbn [fst snd]. split; [eexists; reflexivity|].
    exists s. split; [reflexivity|].
    destruct (summary_fields sort df' s Hs) as (_ & _ & -> & _).
    rewrite Huniq. reflexivity.
  - intros [= <-]. exfalso. unfold PA.get_overall_summary in Hs.
    fold df' in Hs. replace (is_empty df') with false in Hs
      by (symmetry; apply add_missing_not_empty, Hne).
    destruct (getitem _ "revenue"); [|discriminate]. cbn [mbind result_bind] in Hs.
    destruct (sum_cells _); [|discriminate]. cbn [mbind result_bind] in Hs.
    destruct (getitem _ "username"); [|discriminate]. cbn [mbind result_bind] in Hs.
    destruct (forallb hashable _); [|discriminate]. cbn [mbind result_bind] in Hs.
    destruct (PA.category_revenue _); discriminate.
Qed.

Lemma process_data_without_users_witness :
  PP.process_data (insertion_sort_desc true) [ex_plain_product] (AC.get_all_users AC.Failed)
  = Ok (Some ex_plain_report)
  /\ (exists m, fst ex_plain_report = [(Str "Unknown Seller", m)])
  /\ exists s, snd ex_plain_report = Some s /\ PA.active_sellers s = 0%nat.
Proof.
  assert (H : PP.process_data (insertion_sort_desc true) [ex_plain_product]
                (AC.get_all_users AC.Failed) = Ok (Some ex_plain_report))
    by (vm_compute; reflexivity).
  split; [exact H|].
  apply (process_data_without_users (insertion_sort_desc true) [ex_plain_product]
           ex_plain_report); [|exact H].
  intros p [<-|[]]. vm_compute. reflexivity.
Defined.
